(** * The unified MCP connection manager

    A shallow embedding of [app/services/unified_mcp_manager.py]: the
    per-tenant connection registry, the credential caches, the failed
    connection tracker, the request-scoped cache and the shutdown path.

    Python dictionaries are finite maps ([gmap]); a dictionary of
    dictionaries stays a map of maps, because the source distinguishes a
    missing tenant from a tenant with an empty inner dictionary.  The
    methods are written in a state-and-exception monad over [World], which
    holds the manager object together with the pieces of the outside world
    the methods touch: the wall clock, the request context variable, the
    object allocator, and a log of the calls made to the credential store
    and to the MCP client. *)

From Stdlib Require Import ZArith NArith Lia.
From stdpp Require Import base option strings gmap fin_maps list.

Local Open Scope string_scope.

(** ** Values *)

(** A tenant id is a [uuid.UUID]; it is represented by its canonical text,
    which is what [str(tenant_id)] yields. *)
Abbreviation UUID := string (only parsing).

(** [datetime] values are counted in microseconds (the resolution of
    [datetime]); a [timedelta] is a difference of two of them. *)
Abbreviation datetime := Z (only parsing).
Abbreviation timedelta := Z (only parsing).

Definition seconds (n : Z) : timedelta := (n * 1000000)%Z.
Definition minutes (n : Z) : timedelta := seconds (n * 60).

(** The dictionary returned by [get_quickbooks_credentials]. *)
Record QuickBooksCreds := {
  access_token : string;
  realm_id : string
}.

(** The row read by [_get_google_sheets_credentials] and the dictionary it
    builds from the row. *)
Record GoogleSheetsConnection := {
  conn_refresh_token : string;
  conn_inventory_workbook_id : option string;
  conn_inventory_worksheet_name : option string;
  conn_orders_workbook_id : option string;
  conn_orders_worksheet_name : option string
}.

Record SheetsCreds := {
  refresh_token : string;
  inventory_workbook_id : option string;
  inventory_worksheet_name : option string;
  orders_workbook_id : option string;
  orders_worksheet_name : option string
}.

(** An [MCPServerStreamableHttp] object.  [obj_id] is the identity of the
    Python object: two handles are the same object exactly when their
    [obj_id] agree. *)
Record MCPServerStreamableHttp := {
  obj_id : nat;
  name : string;
  params_url : string;
  params_headers : list (string * string);
  params_timeout : Z;
  max_retry_attempts : nat
}.

Abbreviation Handle := MCPServerStreamableHttp (only parsing).

(** Python truthiness of the values the source tests with [if x:]. *)
Definition truthy_str (s : string) : bool :=
  match s with
  | EmptyString => false
  | String _ _ => true
  end.

Definition truthy_opt_str (o : option string) : bool :=
  match o with
  | None => false
  | Some s => truthy_str s
  end.

(** ** Dictionaries of dictionaries *)

Section nested.
Context {V : Type}.

(** [d[t][k]] when both keys are present, [None] otherwise. *)
Definition nested_get (d : gmap string (gmap string V)) (t k : string) : option V :=
  match d !! t with
  | None => None
  | Some inner => inner !! k
  end.

(** [if t in d: d[t].pop(k, None)] *)
Definition nested_pop (d : gmap string (gmap string V)) (t k : string)
  : gmap string (gmap string V) :=
  match d !! t with
  | None => d
  | Some inner => <[t := delete k inner]> d
  end.

(** [if t not in d: d[t] = {}] followed by [d[t][k] = v] *)
Definition nested_set (d : gmap string (gmap string V)) (t k : string) (v : V)
  : gmap string (gmap string V) :=
  match d !! t with
  | None => <[t := {[k := v]}]> d
  | Some inner => <[t := <[k := v]> inner]> d
  end.

End nested.

(** ** The manager object and the world around it *)

(** The fields of [UnifiedMCPManager.__init__].  The three [asyncio.Lock]
    objects guarding the exit stack, the lock table and each tenant are
    represented by their identities only; [_locks] maps a tenant to the
    identity of its lock. *)
Record UnifiedMCPManager := {
  _exit_stack : option (list MCPServerStreamableHttp);
  _tenant_connections : gmap string (gmap string MCPServerStreamableHttp);
  _tenant_tokens : gmap string string;
  _connection_created_at : gmap string (gmap string Z);
  _failed_connections : gmap string (gmap string Z);
  _locks : gmap string nat;
  _quickbooks_creds_cache : gmap string (option QuickBooksCreds);
  _sheets_creds_cache : gmap string (option SheetsCreds);
  _creds_cache_timestamps : gmap string (gmap string Z)
}.

Definition _failed_connection_ttl : timedelta := seconds 30.
Definition _max_connection_age : timedelta := minutes 30.
Definition _creds_cache_ttl : timedelta := minutes 5.

(** What the manager asked of its collaborators. *)
Inductive ExternalCall :=
  | StoreQuickBooks (tenant_id : string)
  | StoreSheets (tenant_id : string)
  | ClientOpen (server : MCPServerStreamableHttp)
  | ExitStackClose (sessions : list MCPServerStreamableHttp).

Record World := {
  self : UnifiedMCPManager;
  (** value of the context variable [_request_global_mcp] in the current
      request context *)
  _request_global_mcp : gmap string MCPServerStreamableHttp;
  (** [datetime.now(UTC)] *)
  clock : Z;
  (** identity given to the next object that is constructed *)
  next_obj : nat;
  (** calls made so far, oldest first *)
  calls : list ExternalCall
}.

(** [UnifiedMCPManager()] *)
Definition new_manager : UnifiedMCPManager :=
  {| _exit_stack := None;
     _tenant_connections := ∅;
     _tenant_tokens := ∅;
     _connection_created_at := ∅;
     _failed_connections := ∅;
     _locks := ∅;
     _quickbooks_creds_cache := ∅;
     _sheets_creds_cache := ∅;
     _creds_cache_timestamps := ∅ |}.

Definition initial_world (t0 : Z) : World :=
  {| self := new_manager;
     _request_global_mcp := ∅;
     clock := t0;
     next_obj := 0;
     calls := [] |}.

(** Field assignments. *)
Definition set_exit_stack (v : option (list MCPServerStreamableHttp)) (m : UnifiedMCPManager) :=
  {| _exit_stack := v;
     _tenant_connections := _tenant_connections m;
     _tenant_tokens := _tenant_tokens m;
     _connection_created_at := _connection_created_at m;
     _failed_connections := _failed_connections m;
     _locks := _locks m;
     _quickbooks_creds_cache := _quickbooks_creds_cache m;
     _sheets_creds_cache := _sheets_creds_cache m;
     _creds_cache_timestamps := _creds_cache_timestamps m |}.

Definition set_tenant_connections (v : gmap string (gmap string MCPServerStreamableHttp))
  (m : UnifiedMCPManager) :=
  {| _exit_stack := _exit_stack m;
     _tenant_connections := v;
     _tenant_tokens := _tenant_tokens m;
     _connection_created_at := _connection_created_at m;
     _failed_connections := _failed_connections m;
     _locks := _locks m;
     _quickbooks_creds_cache := _quickbooks_creds_cache m;
     _sheets_creds_cache := _sheets_creds_cache m;
     _creds_cache_timestamps := _creds_cache_timestamps m |}.

Definition set_tenant_tokens (v : gmap string string) (m : UnifiedMCPManager) :=
  {| _exit_stack := _exit_stack m;
     _tenant_connections := _tenant_connections m;
     _tenant_tokens := v;
     _connection_created_at := _connection_created_at m;
     _failed_connections := _failed_connections m;
     _locks := _locks m;
     _quickbooks_creds_cache := _quickbooks_creds_cache m;
     _sheets_creds_cache := _sheets_creds_cache m;
     _creds_cache_timestamps := _creds_cache_timestamps m |}.

Definition set_connection_created_at (v : gmap string (gmap string Z)) (m : UnifiedMCPManager) :=
  {| _exit_stack := _exit_stack m;
     _tenant_connections := _tenant_connections m;
     _tenant_tokens := _tenant_tokens m;
     _connection_created_at := v;
     _failed_connections := _failed_connections m;
     _locks := _locks m;
     _quickbooks_creds_cache := _quickbooks_creds_cache m;
     _sheets_creds_cache := _sheets_creds_cache m;
     _creds_cache_timestamps := _creds_cache_timestamps m |}.

Definition set_failed_connections (v : gmap string (gmap string Z)) (m : UnifiedMCPManager) :=
  {| _exit_stack := _exit_stack m;
     _tenant_connections := _tenant_connections m;
     _tenant_tokens := _tenant_tokens m;
     _connection_created_at := _connection_created_at m;
     _failed_connections := v;
     _locks := _locks m;
     _quickbooks_creds_cache := _quickbooks_creds_cache m;
     _sheets_creds_cache := _sheets_creds_cache m;
     _creds_cache_timestamps := _creds_cache_timestamps m |}.

Definition set_locks (v : gmap string nat) (m : UnifiedMCPManager) :=
  {| _exit_stack := _exit_stack m;
     _tenant_connections := _tenant_connections m;
     _tenant_tokens := _tenant_tokens m;
     _connection_created_at := _connection_created_at m;
     _failed_connections := _failed_connections m;
     _locks := v;
     _quickbooks_creds_cache := _quickbooks_creds_cache m;
     _sheets_creds_cache := _sheets_creds_cache m;
     _creds_cache_timestamps := _creds_cache_timestamps m |}.

Definition set_quickbooks_creds_cache (v : gmap string (option QuickBooksCreds))
  (m : UnifiedMCPManager) :=
  {| _exit_stack := _exit_stack m;
     _tenant_connections := _tenant_connections m;
     _tenant_tokens := _tenant_tokens m;
     _connection_created_at := _connection_created_at m;
     _failed_connections := _failed_connections m;
     _locks := _locks m;
     _quickbooks_creds_cache := v;
     _sheets_creds_cache := _sheets_creds_cache m;
     _creds_cache_timestamps := _creds_cache_timestamps m |}.

Definition set_sheets_creds_cache (v : gmap string (option SheetsCreds))
  (m : UnifiedMCPManager) :=
  {| _exit_stack := _exit_stack m;
     _tenant_connections := _tenant_connections m;
     _tenant_tokens := _tenant_tokens m;
     _connection_created_at := _connection_created_at m;
     _failed_connections := _failed_connections m;
     _locks := _locks m;
     _quickbooks_creds_cache := _quickbooks_creds_cache m;
     _sheets_creds_cache := v;
     _creds_cache_timestamps := _creds_cache_timestamps m |}.

Definition set_creds_cache_timestamps (v : gmap string (gmap string Z)) (m : UnifiedMCPManager) :=
  {| _exit_stack := _exit_stack m;
     _tenant_connections := _tenant_connections m;
     _tenant_tokens := _tenant_tokens m;
     _connection_created_at := _connection_created_at m;
     _failed_connections := _failed_connections m;
     _locks := _locks m;
     _quickbooks_creds_cache := _quickbooks_creds_cache m;
     _sheets_creds_cache := _sheets_creds_cache m;
     _creds_cache_timestamps := v |}.

Definition with_self (f : UnifiedMCPManager → UnifiedMCPManager) (w : World) : World :=
  {| self := f (self w);
     _request_global_mcp := _request_global_mcp w;
     clock := clock w;
     next_obj := next_obj w;
     calls := calls w |}.

Definition set_request_global_mcp (v : gmap string MCPServerStreamableHttp) (w : World) : World :=
  {| self := self w;
     _request_global_mcp := v;
     clock := clock w;
     next_obj := next_obj w;
     calls := calls w |}.

(** Time passing while the caller is suspended: the clock moves forward by
    [d] microseconds. *)
Definition elapse (d : N) (w : World) : World :=
  {| self := self w;
     _request_global_mcp := _request_global_mcp w;
     clock := (clock w + Z.of_N d)%Z;
     next_obj := next_obj w;
     calls := calls w |}.

Definition alloc (w : World) : World :=
  {| self := self w;
     _request_global_mcp := _request_global_mcp w;
     clock := clock w;
     next_obj := S (next_obj w);
     calls := calls w |}.

Definition record_call (c : ExternalCall) (w : World) : World :=
  {| self := self w;
     _request_global_mcp := _request_global_mcp w;
     clock := clock w;
     next_obj := next_obj w;
     calls := calls w ++ [c] |}.

(** ** Exceptions and the method monad *)

(** The exception classes the handlers of the module tell apart:
    [asyncio.TimeoutError], [asyncio.CancelledError] (a [BaseException]
    that is not an [Exception]), and every other [Exception]. *)
Inductive exn := TimeoutError | CancelledError | Exception.

Inductive outcome (A : Type) :=
  | Returned (a : A)
  | Raised (e : exn).

Arguments Returned {A} a.
Arguments Raised {A} e.

(** A method body: it runs on a world, returns or raises, and leaves a
    world behind.  Assignments made before a [raise] stay made. *)
Definition M (A : Type) : Type := World → outcome A * World.

Definition ret {A} (a : A) : M A := λ w, (Returned a, w).

Definition raise {A} (e : exn) : M A := λ w, (Raised e, w).

Definition bind {A B} (c : M A) (k : A → M B) : M B :=
  λ w, match c w with
       | (Returned a, w') => k a w'
       | (Raised e, w') => (Raised e, w')
       end.

Notation "'let*' x ':=' c 'in' k" := (bind c (λ x, k))
  (at level 10, x name, c at level 100, k at level 200).

Notation "c ';;;' k" := (bind c (λ _, k))
  (at level 100, k at level 200, right associativity).

Definition gets {A} (f : World → A) : M A := λ w, (Returned (f w), w).

Definition modify (f : World → World) : M unit := λ w, (Returned tt, f w).

(** [isinstance(e, Exception)] *)
Definition is_Exception (e : exn) : bool :=
  match e with
  | CancelledError => false
  | TimeoutError | Exception => true
  end.

(** [try: body  except ...: handler].  [handler e] is [None] when no
    [except] clause matches [e], and the exception goes on. *)
Definition try_except {A} (body : M A) (handler : exn → option (M A)) : M A :=
  λ w, match body w with
       | (Returned a, w') => (Returned a, w')
       | (Raised e, w') =>
           match handler e with
           | Some h => h w'
           | None => (Raised e, w')
           end
       end.

(** [try: body  finally: fin] *)
Definition try_finally {A} (body : M A) (fin : M unit) : M A :=
  λ w, match body w with
       | (r, w') =>
           match fin w' with
           | (Returned _, w'') => (r, w'')
           | (Raised e, w'') => (Raised e, w'')
           end
       end.

(** [datetime.now(UTC)] *)
Definition now : M Z := gets clock.

(** Constructing an object takes the next identity. *)
Definition new_object : M nat :=
  let* i := gets next_obj in
  modify alloc ;;;
  ret i.

(** ** The collaborators *)

(** What the collaborators answer during one call of a manager method, and
    how long each answer takes. *)
Record Env := {
  (** [settings.accounts_mcp_server], [settings.global_mcp_server] *)
  accounts_mcp_server : string;
  global_mcp_server : string;
  (** [await get_quickbooks_credentials(tenant_id, db)] *)
  get_quickbooks_credentials : string → outcome (option QuickBooksCreds);
  (** [(await db.execute(stmt)).scalar_one_or_none()] for the active
      [GoogleSheetsConnection] of the tenant *)
  select_google_sheets_connection : string → outcome (option GoogleSheetsConnection);
  store_latency : N;
  (** [await asyncio.wait_for(exit_stack.enter_async_context(server), timeout)]:
      [None] when the server was entered, the exception otherwise *)
  client_open : MCPServerStreamableHttp → option exn;
  open_latency : N;
  (** [await exit_stack.__aexit__(None, None, None)] *)
  exit_stack_aexit : option exn
}.

Definition await_get_quickbooks_credentials (env : Env) (tenant_id : string)
  : M (option QuickBooksCreds) :=
  λ w, (get_quickbooks_credentials env tenant_id,
        elapse (store_latency env) (record_call (StoreQuickBooks tenant_id) w)).

Definition await_select_google_sheets_connection (env : Env) (tenant_id : string)
  : M (option GoogleSheetsConnection) :=
  λ w, (select_google_sheets_connection env tenant_id,
        elapse (store_latency env) (record_call (StoreSheets tenant_id) w)).

(** The exit stack keeps every server it has entered, newest first. *)
Definition await_enter_async_context (env : Env) (server : MCPServerStreamableHttp)
  : M MCPServerStreamableHttp :=
  λ w, let w1 := elapse (open_latency env) (record_call (ClientOpen server) w) in
       match client_open env server with
       | Some e => (Raised e, w1)
       | None =>
           match _exit_stack (self w1) with
           | Some stack => (Returned server, with_self (set_exit_stack (Some (server :: stack))) w1)
           | None => (Raised Exception, w1)
           end
       end.

Definition await_aexit (env : Env) (stack : list MCPServerStreamableHttp) : M unit :=
  λ w, let w1 := record_call (ExitStackClose stack) w in
       match exit_stack_aexit env with
       | Some e => (Raised e, w1)
       | None => (Returned tt, w1)
       end.

(** Number of [open] calls made to the MCP client so far. *)
Definition is_open_call (c : ExternalCall) : bool :=
  match c with
  | ClientOpen _ => true
  | _ => false
  end.

Definition open_calls (w : World) : nat := length (List.filter is_open_call (calls w)).

(** Number of queries made to the credential store so far. *)
Definition is_store_call (c : ExternalCall) : bool :=
  match c with
  | StoreQuickBooks _ | StoreSheets _ => true
  | _ => false
  end.

Definition store_calls (w : World) : nat := length (List.filter is_store_call (calls w)).

(** ** Methods of [UnifiedMCPManager] *)

Definition _ensure_exit_stack : M unit :=
  let* stack := gets (λ w, _exit_stack (self w)) in
  match stack with
  | None => modify (with_self (set_exit_stack (Some [])))
  | Some _ => ret tt
  end.

(** [assert self._exit_stack is not None] *)
Definition assert_exit_stack : M unit :=
  let* stack := gets (λ w, _exit_stack (self w)) in
  match stack with
  | None => raise Exception
  | Some _ => ret tt
  end.

Definition _get_tenant_lock (tenant_id : string) : M nat :=
  let* locks := gets (λ w, _locks (self w)) in
  match locks !! tenant_id with
  | Some lock => ret lock
  | None =>
      let* lock := new_object in
      modify (with_self (λ m, set_locks (<[tenant_id := lock]> (_locks m)) m)) ;;;
      ret lock
  end.

Definition _is_connection_stale (tenant_id connection_type : string) : M bool :=
  let* created := gets (λ w, _connection_created_at (self w)) in
  match created !! tenant_id with
  | None => ret true
  | Some of_tenant =>
      match of_tenant !! connection_type with
      | None => ret true
      | Some created_at =>
          let* t := now in
          let age := (t - created_at)%Z in
          ret (_max_connection_age <? age)%Z
      end
  end.

Definition _invalidate_connection (tenant_id connection_type : string) : M unit :=
  modify (with_self (λ m,
    set_tenant_connections (nested_pop (_tenant_connections m) tenant_id connection_type) m)) ;;;
  modify (with_self (λ m,
    set_connection_created_at (nested_pop (_connection_created_at m) tenant_id connection_type) m)) ;;;
  modify (with_self (λ m,
    set_failed_connections (nested_pop (_failed_connections m) tenant_id connection_type) m)).

Definition _is_failure_expired (tenant_id connection_type : string) : M bool :=
  let* failed := gets (λ w, _failed_connections (self w)) in
  match failed !! tenant_id with
  | None => ret true
  | Some of_tenant =>
      match of_tenant !! connection_type with
      | None => ret true
      | Some failed_at =>
          let* t := now in
          let age := (t - failed_at)%Z in
          ret (_failed_connection_ttl <? age)%Z
      end
  end.

Definition _mark_connection_failed (tenant_id connection_type : string) : M unit :=
  let* t := now in
  modify (with_self (λ m,
    set_failed_connections (nested_set (_failed_connections m) tenant_id connection_type t) m)).

Definition _is_creds_cache_stale (tenant_id creds_type : string) : M bool :=
  let* stamps := gets (λ w, _creds_cache_timestamps (self w)) in
  match stamps !! tenant_id with
  | None => ret true
  | Some of_tenant =>
      match of_tenant !! creds_type with
      | None => ret true
      | Some cached_at =>
          let* t := now in
          let age := (t - cached_at)%Z in
          ret (_creds_cache_ttl <? age)%Z
      end
  end.

(** [MCPServerStreamableHttp(params=..., name=..., ...)] *)
Definition new_server (name url : string) (headers : list (string * string))
  (timeout : Z) (retries : nat) : M MCPServerStreamableHttp :=
  let* i := new_object in
  ret {| obj_id := i;
         name := name;
         params_url := url;
         params_headers := headers;
         params_timeout := timeout;
         max_retry_attempts := retries |}.

(** *** [get_quickbooks_mcp] *)

(** STEP 1 of [get_quickbooks_mcp]: the credentials, from the cache when it
    has a fresh entry for the tenant, from the store otherwise. *)
Definition quickbooks_fetch_and_cache (env : Env) (tenant_id : string)
  : M (option QuickBooksCreds) :=
  let* creds := await_get_quickbooks_credentials env tenant_id in
  match creds with
  | Some c =>
      modify (with_self (λ m,
        set_quickbooks_creds_cache (<[tenant_id := Some c]> (_quickbooks_creds_cache m)) m)) ;;;
      let* t := now in
      modify (with_self (λ m,
        set_creds_cache_timestamps
          (nested_set (_creds_cache_timestamps m) tenant_id "quickbooks" t) m)) ;;;
      ret creds
  | None => ret creds
  end.

Definition quickbooks_credentials (env : Env) (tenant_id : string)
  : M (option QuickBooksCreds) :=
  let* cache := gets (λ w, _quickbooks_creds_cache (self w)) in
  match cache !! tenant_id with
  | Some cached =>
      let* stale := _is_creds_cache_stale tenant_id "quickbooks" in
      if negb stale then ret cached
      else quickbooks_fetch_and_cache env tenant_id
  | None => quickbooks_fetch_and_cache env tenant_id
  end.

(** [cached_token and cached_token != current_token] *)
Definition token_refreshed (cached_token : option string) (current_token : string) : bool :=
  match cached_token with
  | None => false
  | Some tok => truthy_str tok && negb (String.eqb tok current_token)
  end.

Definition quickbooks_headers (creds : QuickBooksCreds) : list (string * string) :=
  [ ("jsonrpc", "2.0");
    ("Content-Type", "application/json, text/event-stream");
    ("Authorization", "Bearer " ++ access_token creds);
    ("x-quickbooks-realm-id", realm_id creds) ].

(** STEP 5 of [get_quickbooks_mcp]: the two nested [try] blocks. *)
Definition quickbooks_create (env : Env) (tenant_id : string) (creds : QuickBooksCreds)
  : M (option MCPServerStreamableHttp) :=
  try_except
    (let* attempt :=
       try_except
         (let* server := new_server ("QB_MCP_" ++ tenant_id) (accounts_mcp_server env)
                           (quickbooks_headers creds) 8 1 in
          let* mcp_server := await_enter_async_context env server in
          ret (Some mcp_server))
         (λ e, match e with
               | TimeoutError | CancelledError =>
                   Some (_mark_connection_failed tenant_id "quickbooks" ;;; ret None)
               | Exception =>
                   Some (_mark_connection_failed tenant_id "quickbooks" ;;; ret None)
               end) in
     match attempt with
     | None => ret None
     | Some mcp_server =>
         modify (with_self (λ m,
           set_tenant_connections
             (nested_set (_tenant_connections m) tenant_id "quickbooks" mcp_server) m)) ;;;
         modify (with_self (λ m,
           set_tenant_tokens (<[tenant_id := access_token creds]> (_tenant_tokens m)) m)) ;;;
         let* t := now in
         modify (with_self (λ m,
           set_connection_created_at
             (nested_set (_connection_created_at m) tenant_id "quickbooks" t) m)) ;;;
         ret (Some mcp_server)
     end)
    (λ e, if is_Exception e
          then Some (_mark_connection_failed tenant_id "quickbooks" ;;; ret None)
          else None).

(** STEPS 2 to 5 of [get_quickbooks_mcp], once credentials are there. *)
Definition quickbooks_connect (env : Env) (tenant_id : string) (creds : QuickBooksCreds)
  : M (option MCPServerStreamableHttp) :=
  let current_token := access_token creds in
  let* cached_token := gets (λ w, _tenant_tokens (self w) !! tenant_id) in
  (if token_refreshed cached_token current_token
   then _invalidate_connection tenant_id "quickbooks"
   else ret tt) ;;;
  let* stale := _is_connection_stale tenant_id "quickbooks" in
  (if stale then _invalidate_connection tenant_id "quickbooks" else ret tt) ;;;
  let* cached := gets (λ w, nested_get (_tenant_connections (self w)) tenant_id "quickbooks") in
  match cached with
  | Some mcp => ret (Some mcp)
  | None =>
      let* expired := _is_failure_expired tenant_id "quickbooks" in
      if negb expired then ret None
      else
        _ensure_exit_stack ;;;
        assert_exit_stack ;;;
        quickbooks_create env tenant_id creds
  end.

Definition get_quickbooks_mcp (env : Env) (tenant_id : string)
  : M (option MCPServerStreamableHttp) :=
  let* lock := _get_tenant_lock tenant_id in
  let* creds := quickbooks_credentials env tenant_id in
  match creds with
  | None => ret None
  | Some creds => quickbooks_connect env tenant_id creds
  end.

(** *** [_get_google_sheets_credentials] *)

Definition sheets_creds_of (connection : GoogleSheetsConnection) : SheetsCreds :=
  {| refresh_token := conn_refresh_token connection;
     inventory_workbook_id := conn_inventory_workbook_id connection;
     inventory_worksheet_name := conn_inventory_worksheet_name connection;
     orders_workbook_id := conn_orders_workbook_id connection;
     orders_worksheet_name := conn_orders_worksheet_name connection |}.

(** The part after the cache check: query the store, cache what it says
    (also when it says there is no connection) and stamp the entry.  The
    comparison of [token_expires_at] with the clock only prints. *)
Definition sheets_fetch_and_cache (env : Env) (tenant_id : string)
  : M (option SheetsCreds) :=
  let* connection := await_select_google_sheets_connection env tenant_id in
  let creds := sheets_creds_of <$> connection in
  modify (with_self (λ m,
    set_sheets_creds_cache (<[tenant_id := creds]> (_sheets_creds_cache m)) m)) ;;;
  let* t := now in
  modify (with_self (λ m,
    set_creds_cache_timestamps (nested_set (_creds_cache_timestamps m) tenant_id "sheets" t) m)) ;;;
  ret creds.

Definition _get_google_sheets_credentials (env : Env) (tenant_id : string)
  : M (option SheetsCreds) :=
  let* cache := gets (λ w, _sheets_creds_cache (self w)) in
  match cache !! tenant_id with
  | Some cached =>
      let* stale := _is_creds_cache_stale tenant_id "sheets" in
      if negb stale then ret cached
      else sheets_fetch_and_cache env tenant_id
  | None => sheets_fetch_and_cache env tenant_id
  end.

(** *** [get_global_mcp] *)

(** [if creds.get(key): headers[header] = creds[key]] *)
Definition optional_header (header : string) (value : option string)
  : list (string * string) :=
  match value with
  | Some v => if truthy_str v then [(header, v)] else []
  | None => []
  end.

(** STEP 5 of [get_global_mcp]; the list keeps the insertion order of the
    dictionary. *)
Definition global_headers (tenant_id : string) (sheets_creds : option SheetsCreds)
  : list (string * string) :=
  [ ("jsonrpc", "2.0");
    ("Content-Type", "application/json, text/event-stream");
    ("x-tenant-id", tenant_id) ] ++
  match sheets_creds with
  | Some c =>
      [ ("x-user-refresh-token", refresh_token c) ] ++
      optional_header "x-inventory-workbook-id" (inventory_workbook_id c) ++
      optional_header "x-inventory-worksheet-name" (inventory_worksheet_name c) ++
      optional_header "x-orders-workbook-id" (orders_workbook_id c) ++
      optional_header "x-orders-worksheet-name" (orders_worksheet_name c)
  | None => []
  end.

(** STEP 6 of [get_global_mcp]: the two nested [try] blocks.  On success
    the server goes into the request-scoped dictionary only; an empty
    dictionary (the shared default of the context variable) is replaced by
    a new one before the entry is written. *)
Definition global_create (env : Env) (tenant_id : string) (headers : list (string * string))
  : M (option MCPServerStreamableHttp) :=
  try_except
    (let* attempt :=
       try_except
         (let* server := new_server ("Global_Port8001_" ++ tenant_id) (global_mcp_server env)
                           headers 5 0 in
          let* mcp_server := await_enter_async_context env server in
          ret (Some mcp_server))
         (λ e, match e with
               | TimeoutError | CancelledError =>
                   Some (_mark_connection_failed tenant_id "global" ;;; ret None)
               | Exception =>
                   Some (_mark_connection_failed tenant_id "global" ;;; ret None)
               end) in
     match attempt with
     | None => ret None
     | Some mcp_server =>
         let* request_cache := gets _request_global_mcp in
         let request_cache :=
           if (size request_cache =? 0)%nat then ∅ else request_cache in
         modify (set_request_global_mcp (<[tenant_id := mcp_server]> request_cache)) ;;;
         ret (Some mcp_server)
     end)
    (λ e, if is_Exception e
          then Some (_mark_connection_failed tenant_id "global" ;;; ret None)
          else None).

(** The body of [get_global_mcp] under the tenant lock. *)
Definition global_connect (env : Env) (tenant_id : string)
  : M (option MCPServerStreamableHttp) :=
  let* request_cache := gets _request_global_mcp in
  match request_cache !! tenant_id with
  | Some mcp => ret (Some mcp)
  | None =>
      let* sheets_creds := _get_google_sheets_credentials env tenant_id in
      let* expired := _is_failure_expired tenant_id "global" in
      if negb expired then ret None
      else
        let headers := global_headers tenant_id sheets_creds in
        _ensure_exit_stack ;;;
        assert_exit_stack ;;;
        global_create env tenant_id headers
  end.

Definition get_global_mcp (env : Env) (tenant_id : string)
  : M (option MCPServerStreamableHttp) :=
  let* request_cache := gets _request_global_mcp in
  match request_cache !! tenant_id with
  | Some mcp => ret (Some mcp)
  | None =>
      let* lock := _get_tenant_lock tenant_id in
      global_connect env tenant_id
  end.

(** *** Invalidation and shutdown *)

Definition invalidate_tenant (tenant_id : string) : M unit :=
  let* lock := _get_tenant_lock tenant_id in
  modify (with_self (λ m, set_tenant_connections (delete tenant_id (_tenant_connections m)) m)) ;;;
  modify (with_self (λ m, set_tenant_tokens (delete tenant_id (_tenant_tokens m)) m)) ;;;
  modify (with_self (λ m,
    set_connection_created_at (delete tenant_id (_connection_created_at m)) m)) ;;;
  modify (with_self (λ m, set_failed_connections (delete tenant_id (_failed_connections m)) m)) ;;;
  modify (with_self (λ m,
    set_quickbooks_creds_cache (delete tenant_id (_quickbooks_creds_cache m)) m)) ;;;
  modify (with_self (λ m, set_sheets_creds_cache (delete tenant_id (_sheets_creds_cache m)) m)) ;;;
  modify (with_self (λ m,
    set_creds_cache_timestamps (delete tenant_id (_creds_cache_timestamps m)) m)).

(** The [error] argument of [handle_connection_error], as far as the
    method looks at it: [isinstance(error, ClosedResourceError)]. *)
Inductive connection_error := ClosedResourceError | OtherError.

Definition handle_connection_error (tenant_id connection_type : string)
  (error : connection_error) : M unit :=
  match error with
  | ClosedResourceError => _invalidate_connection tenant_id connection_type
  | OtherError => _invalidate_connection tenant_id connection_type
  end.

Definition cleanup (env : Env) : M unit :=
  try_finally
    (try_except
       (let* stack := gets (λ w, _exit_stack (self w)) in
        match stack with
        | Some sessions => await_aexit env sessions
        | None => ret tt
        end)
       (λ e, if is_Exception e then Some (ret tt) else None))
    (modify (with_self (set_tenant_connections ∅)) ;;;
     modify (with_self (set_tenant_tokens ∅)) ;;;
     modify (with_self (set_locks ∅)) ;;;
     modify (with_self (set_exit_stack None))).

(** [clear_request_mcp_cache()]: [_request_global_mcp.set({})] *)
Definition clear_request_mcp_cache : M unit :=
  modify (set_request_global_mcp ∅).

(** ** Running scenarios *)

Definition result_of {A} (r : outcome A * World) : outcome A := fst r.
Definition world_of {A} (r : outcome A * World) : World := snd r.

(** A collaborator set-up for examples: the store holds [qb] for every
    tenant, no spreadsheet connection, and the client answers [open]. *)
Definition example_env (qb : option QuickBooksCreds) (open : option exn) : Env :=
  {| accounts_mcp_server := "http://localhost:8002/mcp";
     global_mcp_server := "http://localhost:8001/mcp";
     get_quickbooks_credentials := λ _, Returned qb;
     select_google_sheets_connection := λ _, Returned None;
     store_latency := 0;
     client_open := λ _, open;
     open_latency := 0;
     exit_stack_aexit := None |}.

(** ** Vocabulary of the statements *)

(** The handle the process-wide registry holds for a pair, the time it was
    created, and the time the last attempt for the pair failed. *)
Definition registered (w : World) (tenant_id connection_type : string)
  : option MCPServerStreamableHttp :=
  nested_get (_tenant_connections (self w)) tenant_id connection_type.

Definition created_at (w : World) (tenant_id connection_type : string) : option Z :=
  nested_get (_connection_created_at (self w)) tenant_id connection_type.

Definition failed_at (w : World) (tenant_id connection_type : string) : option Z :=
  nested_get (_failed_connections (self w)) tenant_id connection_type.

Definition creds_cached_at (w : World) (tenant_id creds_type : string) : option Z :=
  nested_get (_creds_cache_timestamps (self w)) tenant_id creds_type.

(** The values the three age tests return in a world. *)
Definition connection_stale (w : World) (tenant_id connection_type : string) : bool :=
  match created_at w tenant_id connection_type with
  | Some created => (_max_connection_age <? clock w - created)%Z
  | None => true
  end.

Definition failure_expired (w : World) (tenant_id connection_type : string) : bool :=
  match failed_at w tenant_id connection_type with
  | Some failed => (_failed_connection_ttl <? clock w - failed)%Z
  | None => true
  end.

Definition creds_cache_stale (w : World) (tenant_id creds_type : string) : bool :=
  match creds_cached_at w tenant_id creds_type with
  | Some cached => (_creds_cache_ttl <? clock w - cached)%Z
  | None => true
  end.

(** What the credential caches answer in a world: [Some cached] when the
    tenant has an entry that is not stale, [None] when the store has to be
    asked. *)
Definition quickbooks_cache_hit (w : World) (tenant_id : string)
  : option (option QuickBooksCreds) :=
  match _quickbooks_creds_cache (self w) !! tenant_id with
  | Some cached => if creds_cache_stale w tenant_id "quickbooks" then None else Some cached
  | None => None
  end.

Definition sheets_cache_hit (w : World) (tenant_id : string)
  : option (option SheetsCreds) :=
  match _sheets_creds_cache (self w) !! tenant_id with
  | Some cached => if creds_cache_stale w tenant_id "sheets" then None else Some cached
  | None => None
  end.

(** The worlds left by the steps that cannot fail. *)
Definition locked (tenant_id : string) (w : World) : World :=
  world_of (_get_tenant_lock tenant_id w).

Definition invalidated (tenant_id connection_type : string) (w : World) : World :=
  world_of (_invalidate_connection tenant_id connection_type w).

Definition with_exit_stack (w : World) : World := world_of (_ensure_exit_stack w).

(** The world in which a store query issued in [w] is answered. *)
Definition after_store (env : Env) (c : ExternalCall) (w : World) : World :=
  elapse (store_latency env) (record_call c w).

(** STEPS 2 and 3 of [get_quickbooks_mcp] invalidate the cached connection
    when the recorded token differs or the connection is stale. *)
Definition quickbooks_rebuild (creds : QuickBooksCreds) (tenant_id : string) (w : World) : bool :=
  token_refreshed (_tenant_tokens (self w) !! tenant_id) (access_token creds)
  || connection_stale w tenant_id "quickbooks".

(** The part of a world the connection bookkeeping lives in. *)
Definition same_bookkeeping (w w' : World) : Prop :=
  _tenant_connections (self w') = _tenant_connections (self w) ∧
  _tenant_tokens (self w') = _tenant_tokens (self w) ∧
  _connection_created_at (self w') = _connection_created_at (self w) ∧
  _failed_connections (self w') = _failed_connections (self w) ∧
  _exit_stack (self w') = _exit_stack (self w) ∧
  _request_global_mcp w' = _request_global_mcp w ∧
  open_calls w' = open_calls w.

(** ** Histories *)

(** [headers.get(key)] on a header list. *)
Fixpoint header_get (key : string) (headers : list (string * string)) : option string :=
  match headers with
  | [] => None
  | (k, v) :: rest => if String.eqb k key then Some v else header_get key rest
  end.

(** What the rest of the application does with the manager, one call
    after the other in one request context: the two [get_*_mcp] methods
    (each with the answers the collaborators give during that call),
    [invalidate_tenant], [handle_connection_error], [cleanup], the end of
    a request ([clear_request_mcp_cache]) and time passing. *)
Inductive call :=
  | GetQuickbooksMcp (env : Env) (tenant_id : string)
  | GetGlobalMcp (env : Env) (tenant_id : string)
  | InvalidateTenant (tenant_id : string)
  | HandleConnectionError (tenant_id connection_type : string) (error : connection_error)
  | Cleanup (env : Env)
  | ClearRequestMcpCache
  | Sleep (d : N).

Definition perform (c : call) (w : World) : World :=
  match c with
  | GetQuickbooksMcp env tenant_id => world_of (get_quickbooks_mcp env tenant_id w)
  | GetGlobalMcp env tenant_id => world_of (get_global_mcp env tenant_id w)
  | InvalidateTenant tenant_id => world_of (invalidate_tenant tenant_id w)
  | HandleConnectionError tenant_id connection_type error =>
      world_of (handle_connection_error tenant_id connection_type error w)
  | Cleanup env => world_of (cleanup env w)
  | ClearRequestMcpCache => world_of (clear_request_mcp_cache w)
  | Sleep d => elapse d w
  end.

Definition run (cs : list call) (w : World) : World :=
  fold_left (λ w c, perform c w) cs w.

Definition is_cleanup (c : call) : bool :=
  match c with
  | Cleanup _ => true
  | _ => false
  end.

(** ** Invariants *)

(** Every handle in the registry is a QuickBooks server opened for that
    tenant, still held by the exit stack, with a creation time, and opened
    with the access token recorded for the tenant. *)
Definition registry_ok (w : World) : Prop :=
  ∀ t k h, registered w t k = Some h →
    k = "quickbooks" ∧
    name h = "QB_MCP_" ++ t ∧
    (∃ stack, _exit_stack (self w) = Some stack ∧ h ∈ stack) ∧
    (∃ tok, _tenant_tokens (self w) !! t = Some tok ∧
            header_get "Authorization" (params_headers h) = Some ("Bearer " ++ tok)) ∧
    is_Some (created_at w t k).

(** The sessions of the exit stack are distinct objects that exist. *)
Definition sessions_ok (w : World) : Prop :=
  ∀ stack, _exit_stack (self w) = Some stack →
    NoDup (obj_id <$> stack) ∧ ∀ h, h ∈ stack → (obj_id h < next_obj w)%nat.

(** Every handle in the request-scoped dictionary is a global server
    opened for that tenant. *)
Definition request_ok (w : World) : Prop :=
  ∀ t h, _request_global_mcp w !! t = Some h →
    name h = "Global_Port8001_" ++ t ∧
    header_get "x-tenant-id" (params_headers h) = Some t ∧
    (obj_id h < next_obj w)%nat.

(** No recorded time is in the future. *)
Definition times_ok (w : World) : Prop :=
  (∀ t k c, created_at w t k = Some c → (c ≤ clock w)%Z) ∧
  (∀ t k c, failed_at w t k = Some c → (c ≤ clock w)%Z) ∧
  (∀ t k c, creds_cached_at w t k = Some c → (c ≤ clock w)%Z).

(** Tenant locks are objects that exist, one per tenant. *)
Definition locks_ok (w : World) : Prop :=
  (∀ t l, _locks (self w) !! t = Some l → (l < next_obj w)%nat) ∧
  (∀ t1 t2 l, _locks (self w) !! t1 = Some l → _locks (self w) !! t2 = Some l → t1 = t2).

(** Cached credentials carry a stamp, and the QuickBooks cache holds
    credentials only. *)
Definition caches_ok (w : World) : Prop :=
  (∀ t v, _quickbooks_creds_cache (self w) !! t = Some v →
          v ≠ None ∧ is_Some (creds_cached_at w t "quickbooks")) ∧
  (∀ t v, _sheets_creds_cache (self w) !! t = Some v →
          is_Some (creds_cached_at w t "sheets")).

Definition consistent (w : World) : Prop :=
  registry_ok w ∧ sessions_ok w ∧ request_ok w ∧ times_ok w ∧ locks_ok w ∧ caches_ok w.

(** Every creation time belongs to a registered handle.  [cleanup] breaks
    this (it empties the registry and keeps the times); the other calls
    keep it. *)
Definition times_registered (w : World) : Prop :=
  ∀ t k c, created_at w t k = Some c → is_Some (registered w t k).

(** The entries of another tenant, which a call for [t] has no business
    with. *)
Definition same_for_tenant (t' : string) (w w' : World) : Prop :=
  (∀ k, registered w' t' k = registered w t' k) ∧
  (∀ k, created_at w' t' k = created_at w t' k) ∧
  (∀ k, failed_at w' t' k = failed_at w t' k) ∧
  (∀ k, creds_cached_at w' t' k = creds_cached_at w t' k) ∧
  _tenant_tokens (self w') !! t' = _tenant_tokens (self w) !! t' ∧
  _quickbooks_creds_cache (self w') !! t' = _quickbooks_creds_cache (self w) !! t' ∧
  _sheets_creds_cache (self w') !! t' = _sheets_creds_cache (self w) !! t' ∧
  _locks (self w') !! t' = _locks (self w) !! t' ∧
  _request_global_mcp w' !! t' = _request_global_mcp w !! t'.

(** ** Example values *)

Definition example_creds (token : string) : QuickBooksCreds :=
  {| access_token := token; realm_id := "r1" |}.

(** The handle [get_quickbooks_mcp] builds for a tenant under
    [example_env], as object number [i]. *)
Definition example_quickbooks_handle (i : nat) (tenant_id token : string)
  : MCPServerStreamableHttp :=
  {| obj_id := i;
     name := "QB_MCP_" ++ tenant_id;
     params_url := "http://localhost:8002/mcp";
     params_headers := quickbooks_headers (example_creds token);
     params_timeout := 8;
     max_retry_attempts := 1 |}.

(** The handle [get_global_mcp] builds for a tenant without spreadsheet
    credentials under [example_env], as object number [i]. *)
Definition example_global_handle (i : nat) (tenant_id : string) : MCPServerStreamableHttp :=
  {| obj_id := i;
     name := "Global_Port8001_" ++ tenant_id;
     params_url := "http://localhost:8001/mcp";
     params_headers := global_headers tenant_id None;
     params_timeout := 5;
     max_retry_attempts := 0 |}.

(** Collaborators whose credential store is down. *)
Definition example_env_store_down : Env :=
  {| accounts_mcp_server := "http://localhost:8002/mcp";
     global_mcp_server := "http://localhost:8001/mcp";
     get_quickbooks_credentials := λ _, Raised Exception;
     select_google_sheets_connection := λ _, Raised Exception;
     store_latency := 0;
     client_open := λ _, None;
     open_latency := 0;
     exit_stack_aexit := None |}.

(** * Properties *)

(** ** Dictionaries of dictionaries *)

Section nested_facts.
Context {V : Type}.
Implicit Types d : gmap string (gmap string V).

Lemma nested_get_pop d t k t' k' :
  nested_get (nested_pop d t k) t' k' =
  if decide (t = t' ∧ k = k') then None else nested_get d t' k'.
Proof.
  unfold nested_get, nested_pop.
  destruct (d !! t) as [inner|] eqn:E.
  - destruct (decide (t = t')) as [->|Ht].
    + rewrite lookup_insert_eq, E.
      destruct (decide (k = k')) as [->|Hk].
      * rewrite lookup_delete_eq. rewrite decide_True; auto.
      * rewrite lookup_delete_ne by done. rewrite decide_False; tauto.
    + rewrite lookup_insert_ne by done. rewrite decide_False; tauto.
  - case_decide as H; [|done]. destruct H as [<- _]. by rewrite E.
Qed.

Lemma nested_get_pop_eq d t k : nested_get (nested_pop d t k) t k = None.
Proof. rewrite nested_get_pop. rewrite decide_True; auto. Qed.

Lemma nested_get_pop_ne d t k t' k' :
  t ≠ t' ∨ k ≠ k' → nested_get (nested_pop d t k) t' k' = nested_get d t' k'.
Proof. intros H. rewrite nested_get_pop. rewrite decide_False; tauto. Qed.

Lemma nested_get_set d t k v t' k' :
  nested_get (nested_set d t k v) t' k' =
  if decide (t = t' ∧ k = k') then Some v else nested_get d t' k'.
Proof.
  unfold nested_get, nested_set.
  destruct (d !! t) as [inner|] eqn:E; destruct (decide (t = t')) as [->|Ht].
  - rewrite lookup_insert_eq, E.
    destruct (decide (k = k')) as [->|Hk].
    + rewrite lookup_insert_eq. rewrite decide_True; auto.
    + rewrite lookup_insert_ne by done. rewrite decide_False; tauto.
  - rewrite lookup_insert_ne by done. rewrite decide_False; tauto.
  - rewrite lookup_insert_eq, E.
    destruct (decide (k = k')) as [->|Hk].
    + rewrite lookup_singleton_eq. rewrite decide_True; auto.
    + rewrite lookup_singleton_ne by done. rewrite decide_False; tauto.
  - rewrite lookup_insert_ne by done. rewrite decide_False; tauto.
Qed.

Lemma nested_get_set_eq d t k v : nested_get (nested_set d t k v) t k = Some v.
Proof. rewrite nested_get_set. rewrite decide_True; auto. Qed.

Lemma nested_get_set_ne d t k v t' k' :
  t ≠ t' ∨ k ≠ k' → nested_get (nested_set d t k v) t' k' = nested_get d t' k'.
Proof. intros H. rewrite nested_get_set. rewrite decide_False; tauto. Qed.

(** Popping an entry that is not there leaves every lookup as it was. *)
Lemma nested_get_pop_absent d t k t' k' :
  nested_get d t k = None → nested_get (nested_pop d t k) t' k' = nested_get d t' k'.
Proof.
  intros H. rewrite nested_get_pop. case_decide as E; [|done].
  destruct E as [<- <-]. by rewrite H.
Qed.

End nested_facts.

Lemma nested_get_empty {V} t k : nested_get (∅ : gmap string (gmap string V)) t k = None.
Proof. unfold nested_get. by rewrite lookup_empty. Qed.

(** ** Counting calls *)

Lemma open_calls_record c w :
  open_calls (record_call c w) = (open_calls w + if is_open_call c then 1 else 0)%nat.
Proof.
  unfold open_calls, record_call; simpl.
  rewrite List.filter_app, length_app. simpl.
  destruct (is_open_call c); reflexivity.
Qed.

Lemma store_calls_record c w :
  store_calls (record_call c w) = (store_calls w + if is_store_call c then 1 else 0)%nat.
Proof.
  unfold store_calls, record_call; simpl.
  rewrite List.filter_app, length_app. simpl.
  destruct (is_store_call c); reflexivity.
Qed.

Lemma open_calls_calls w w' : calls w = calls w' → open_calls w = open_calls w'.
Proof. unfold open_calls. by intros ->. Qed.

Lemma store_calls_calls w w' : calls w = calls w' → store_calls w = store_calls w'.
Proof. unfold store_calls. by intros ->. Qed.

(** ** The staleness tests *)

(** The three age tests read the clock and one timestamp, and change
    nothing. *)
Lemma is_failure_expired_run t k w :
  _is_failure_expired t k w = (Returned (failure_expired w t k), w).
Proof.
  unfold _is_failure_expired, failure_expired, failed_at, nested_get, bind, gets, now, ret; simpl.
  destruct (_failed_connections (self w) !! t) as [inner|]; [|done].
  by destruct (inner !! k).
Qed.

Lemma is_connection_stale_run t k w :
  _is_connection_stale t k w = (Returned (connection_stale w t k), w).
Proof.
  unfold _is_connection_stale, connection_stale, created_at, nested_get, bind, gets, now, ret; simpl.
  destruct (_connection_created_at (self w) !! t) as [inner|]; [|done].
  by destruct (inner !! k).
Qed.

Lemma is_creds_cache_stale_run t k w :
  _is_creds_cache_stale t k w = (Returned (creds_cache_stale w t k), w).
Proof.
  unfold _is_creds_cache_stale, creds_cache_stale, creds_cached_at, nested_get,
    bind, gets, now, ret; simpl.
  destruct (_creds_cache_timestamps (self w) !! t) as [inner|]; [|done].
  by destruct (inner !! k).
Qed.

(** ** Steps that cannot fail *)

Lemma get_tenant_lock_run t w :
  ∃ lock, _get_tenant_lock t w = (Returned lock, locked t w).
Proof.
  unfold locked, world_of, _get_tenant_lock, new_object, bind, gets, modify, ret; simpl.
  destruct (_locks (self w) !! t); eauto.
Qed.

(** Taking the tenant lock touches the lock table and the allocator
    only. *)
Lemma locked_frame t w :
  same_bookkeeping w (locked t w) ∧
  _quickbooks_creds_cache (self (locked t w)) = _quickbooks_creds_cache (self w) ∧
  _sheets_creds_cache (self (locked t w)) = _sheets_creds_cache (self w) ∧
  _creds_cache_timestamps (self (locked t w)) = _creds_cache_timestamps (self w) ∧
  clock (locked t w) = clock w ∧
  calls (locked t w) = calls w ∧
  (next_obj w ≤ next_obj (locked t w))%nat.
Proof.
  unfold same_bookkeeping, locked, world_of, _get_tenant_lock, new_object,
    bind, gets, modify, ret, open_calls; simpl.
  destruct (_locks (self w) !! t); simpl; repeat split; lia.
Qed.

Lemma invalidate_connection_run t k w :
  _invalidate_connection t k w = (Returned tt, invalidated t k w).
Proof. reflexivity. Qed.

Lemma ensure_exit_stack_run w :
  _ensure_exit_stack w = (Returned tt, with_exit_stack w).
Proof.
  unfold with_exit_stack, world_of, _ensure_exit_stack, bind, gets, modify, ret; simpl.
  by destruct (_exit_stack (self w)).
Qed.

Lemma with_exit_stack_frame w :
  _exit_stack (self (with_exit_stack w)) ≠ None ∧
  _tenant_connections (self (with_exit_stack w)) = _tenant_connections (self w) ∧
  _tenant_tokens (self (with_exit_stack w)) = _tenant_tokens (self w) ∧
  _connection_created_at (self (with_exit_stack w)) = _connection_created_at (self w) ∧
  _failed_connections (self (with_exit_stack w)) = _failed_connections (self w) ∧
  _request_global_mcp (with_exit_stack w) = _request_global_mcp w ∧
  clock (with_exit_stack w) = clock w ∧
  next_obj (with_exit_stack w) = next_obj w ∧
  calls (with_exit_stack w) = calls w.
Proof.
  unfold with_exit_stack, world_of, _ensure_exit_stack, bind, gets, modify, ret; simpl.
  destruct (_exit_stack (self w)) eqn:E; simpl; rewrite ?E; repeat split; done.
Qed.

Lemma assert_exit_stack_run w :
  _exit_stack (self w) ≠ None → assert_exit_stack w = (Returned tt, w).
Proof.
  unfold assert_exit_stack, bind, gets, raise, ret; simpl.
  by destruct (_exit_stack (self w)).
Qed.

(** ** Credential lookups *)

Lemma quickbooks_credentials_run env t w :
  quickbooks_credentials env t w =
  match quickbooks_cache_hit w t with
  | Some cached => (Returned cached, w)
  | None => quickbooks_fetch_and_cache env t w
  end.
Proof.
  unfold quickbooks_credentials, quickbooks_cache_hit, bind, gets; simpl.
  destruct (_quickbooks_creds_cache (self w) !! t) as [cached|]; [|done].
  rewrite is_creds_cache_stale_run.
  by destruct (creds_cache_stale w t "quickbooks").
Qed.

Lemma quickbooks_fetch_and_cache_spec env t w :
  let r := quickbooks_fetch_and_cache env t w in
  let w' := world_of r in
  result_of r = get_quickbooks_credentials env t ∧
  calls w' = (calls w ++ [StoreQuickBooks t])%list ∧
  clock w' = (clock w + Z.of_N (store_latency env))%Z ∧
  next_obj w' = next_obj w ∧
  same_bookkeeping w w' ∧
  _sheets_creds_cache (self w') = _sheets_creds_cache (self w) ∧
  match get_quickbooks_credentials env t with
  | Returned (Some c) =>
      _quickbooks_creds_cache (self w') = <[t := Some c]> (_quickbooks_creds_cache (self w)) ∧
      _creds_cache_timestamps (self w') =
        nested_set (_creds_cache_timestamps (self w)) t "quickbooks" (clock w')
  | _ =>
      _quickbooks_creds_cache (self w') = _quickbooks_creds_cache (self w) ∧
      _creds_cache_timestamps (self w') = _creds_cache_timestamps (self w)
  end.
Proof.
  unfold quickbooks_fetch_and_cache, await_get_quickbooks_credentials, same_bookkeeping,
    open_calls, bind, gets, modify, now, ret, result_of, world_of; simpl.
  destruct (get_quickbooks_credentials env t) as [[c|]|e]; simpl;
    rewrite ?List.filter_app, ?length_app; simpl; repeat split; lia.
Qed.

(** Whatever the lookup does, the connection bookkeeping is as before and
    the clock has moved by at most the latency of the store. *)
Lemma quickbooks_credentials_frame env t w :
  let w' := world_of (quickbooks_credentials env t w) in
  same_bookkeeping w w' ∧
  next_obj w' = next_obj w ∧
  (clock w ≤ clock w' ≤ clock w + Z.of_N (store_latency env))%Z.
Proof.
  pose proof (N2Z.is_nonneg (store_latency env)) as Hlat.
  rewrite quickbooks_credentials_run.
  destruct (quickbooks_cache_hit w t) as [cached|].
  - unfold same_bookkeeping, world_of; simpl. repeat split; lia.
  - destruct (quickbooks_fetch_and_cache_spec env t w) as (_ & _ & Hc & Hn & Hb & _).
    simpl. split; [exact Hb|]. split; [exact Hn|]. rewrite Hc. lia.
Qed.

(** The lookup reads the credential cache, its timestamps and the clock. *)
Lemma quickbooks_credentials_result_ext env t w1 w2 :
  _quickbooks_creds_cache (self w1) = _quickbooks_creds_cache (self w2) →
  _creds_cache_timestamps (self w1) = _creds_cache_timestamps (self w2) →
  clock w1 = clock w2 →
  result_of (quickbooks_credentials env t w1) = result_of (quickbooks_credentials env t w2).
Proof.
  intros Hc Ht Hk. rewrite !quickbooks_credentials_run.
  unfold quickbooks_cache_hit, creds_cache_stale, creds_cached_at. rewrite Hc, Ht, Hk.
  destruct (_quickbooks_creds_cache (self w2) !! t) as [cached|].
  - match goal with |- context [if ?b then _ else _] => destruct b end; [|done].
    destruct (quickbooks_fetch_and_cache_spec env t w1) as (-> & _).
    by destruct (quickbooks_fetch_and_cache_spec env t w2) as (-> & _).
  - destruct (quickbooks_fetch_and_cache_spec env t w1) as (-> & _).
    by destruct (quickbooks_fetch_and_cache_spec env t w2) as (-> & _).
Qed.

Lemma quickbooks_credentials_locked env t t' w :
  result_of (quickbooks_credentials env t (locked t' w)) =
  result_of (quickbooks_credentials env t w).
Proof.
  destruct (locked_frame t' w) as (_ & Hq & _ & Hs & Hk & _).
  by apply quickbooks_credentials_result_ext.
Qed.

Lemma sheets_credentials_run env t w :
  _get_google_sheets_credentials env t w =
  match sheets_cache_hit w t with
  | Some cached => (Returned cached, w)
  | None => sheets_fetch_and_cache env t w
  end.
Proof.
  unfold _get_google_sheets_credentials, sheets_cache_hit, bind, gets; simpl.
  destruct (_sheets_creds_cache (self w) !! t) as [cached|]; [|done].
  rewrite is_creds_cache_stale_run.
  by destruct (creds_cache_stale w t "sheets").
Qed.

Lemma sheets_fetch_and_cache_spec env t w :
  let r := sheets_fetch_and_cache env t w in
  let w' := world_of r in
  calls w' = (calls w ++ [StoreSheets t])%list ∧
  clock w' = (clock w + Z.of_N (store_latency env))%Z ∧
  next_obj w' = next_obj w ∧
  same_bookkeeping w w' ∧
  _quickbooks_creds_cache (self w') = _quickbooks_creds_cache (self w) ∧
  match select_google_sheets_connection env t with
  | Returned connection =>
      result_of r = Returned (sheets_creds_of <$> connection) ∧
      _sheets_creds_cache (self w') =
        <[t := sheets_creds_of <$> connection]> (_sheets_creds_cache (self w)) ∧
      _creds_cache_timestamps (self w') =
        nested_set (_creds_cache_timestamps (self w)) t "sheets" (clock w')
  | Raised e =>
      result_of r = Raised e ∧
      _sheets_creds_cache (self w') = _sheets_creds_cache (self w) ∧
      _creds_cache_timestamps (self w') = _creds_cache_timestamps (self w)
  end.
Proof.
  unfold sheets_fetch_and_cache, await_select_google_sheets_connection, same_bookkeeping,
    open_calls, bind, gets, modify, now, ret, result_of, world_of; simpl.
  destruct (select_google_sheets_connection env t) as [connection|e]; simpl;
    rewrite ?List.filter_app, ?length_app; simpl; repeat split; lia.
Qed.

Lemma sheets_credentials_frame env t w :
  let w' := world_of (_get_google_sheets_credentials env t w) in
  same_bookkeeping w w' ∧
  next_obj w' = next_obj w ∧
  (clock w ≤ clock w' ≤ clock w + Z.of_N (store_latency env))%Z.
Proof.
  pose proof (N2Z.is_nonneg (store_latency env)) as Hlat.
  rewrite sheets_credentials_run.
  destruct (sheets_cache_hit w t) as [cached|].
  - unfold same_bookkeeping, world_of; simpl. repeat split; lia.
  - destruct (sheets_fetch_and_cache_spec env t w) as (_ & Hc & Hn & Hb & _).
    simpl. split; [exact Hb|]. split; [exact Hn|]. rewrite Hc. lia.
Qed.

(** ** Invalidation *)

Lemma nested_pop_idemp {V} (d : gmap string (gmap string V)) t k :
  nested_pop (nested_pop d t k) t k = nested_pop d t k.
Proof.
  unfold nested_pop. destruct (d !! t) as [inner|] eqn:E.
  - rewrite lookup_insert_eq, insert_insert_eq. f_equal.
    apply map_eq. intros i. destruct (decide (k = i)) as [->|Hne].
    + by rewrite !lookup_delete_eq.
    + by rewrite !lookup_delete_ne.
  - by rewrite E.
Qed.

(** [_invalidate_connection] pops the pair from the registry, from the
    creation times and from the failure tracker, and nothing else. *)
Lemma invalidated_frame t k w :
  _tenant_connections (self (invalidated t k w)) =
    nested_pop (_tenant_connections (self w)) t k ∧
  _connection_created_at (self (invalidated t k w)) =
    nested_pop (_connection_created_at (self w)) t k ∧
  _failed_connections (self (invalidated t k w)) =
    nested_pop (_failed_connections (self w)) t k ∧
  _tenant_tokens (self (invalidated t k w)) = _tenant_tokens (self w) ∧
  _exit_stack (self (invalidated t k w)) = _exit_stack (self w) ∧
  _request_global_mcp (invalidated t k w) = _request_global_mcp w ∧
  clock (invalidated t k w) = clock w ∧
  next_obj (invalidated t k w) = next_obj w ∧
  calls (invalidated t k w) = calls w.
Proof. repeat split. Qed.

Lemma invalidated_idemp t k w :
  invalidated t k (invalidated t k w) = invalidated t k w.
Proof.
  unfold invalidated, world_of, _invalidate_connection, bind, modify, with_self; simpl.
  unfold set_failed_connections, set_connection_created_at, set_tenant_connections; simpl.
  by rewrite !nested_pop_idemp.
Qed.

Lemma invalidated_lookups t k w :
  registered (invalidated t k w) t k = None ∧
  created_at (invalidated t k w) t k = None ∧
  failed_at (invalidated t k w) t k = None.
Proof.
  unfold registered, created_at, failed_at.
  destruct (invalidated_frame t k w) as (-> & -> & -> & _).
  by rewrite !nested_get_pop_eq.
Qed.

Lemma invalidated_stale t k w : connection_stale (invalidated t k w) t k = true.
Proof.
  unfold connection_stale.
  by destruct (invalidated_lookups t k w) as (_ & -> & _).
Qed.

Lemma invalidated_expired t k w : failure_expired (invalidated t k w) t k = true.
Proof.
  unfold failure_expired.
  by destruct (invalidated_lookups t k w) as (_ & _ & ->).
Qed.

(** ** [get_quickbooks_mcp] step by step *)

Lemma quickbooks_connect_run env t c w :
  quickbooks_connect env t c w =
  let w1 := if quickbooks_rebuild c t w then invalidated t "quickbooks" w else w in
  match registered w1 t "quickbooks" with
  | Some mcp => (Returned (Some mcp), w1)
  | None =>
      if failure_expired w1 t "quickbooks"
      then quickbooks_create env t c (with_exit_stack w1)
      else (Returned None, w1)
  end.
Proof.
  assert (Htail : ∀ w1,
    (let* cached := gets (λ w, nested_get (_tenant_connections (self w)) t "quickbooks") in
     match cached with
     | Some mcp => ret (Some mcp)
     | None =>
         let* expired := _is_failure_expired t "quickbooks" in
         if negb expired then ret None
         else _ensure_exit_stack ;;; assert_exit_stack ;;; quickbooks_create env t c
     end) w1 =
    match registered w1 t "quickbooks" with
    | Some mcp => (Returned (Some mcp), w1)
    | None =>
        if failure_expired w1 t "quickbooks"
        then quickbooks_create env t c (with_exit_stack w1)
        else (Returned None, w1)
    end).
  { intros w1. unfold bind at 1, gets, registered; simpl.
    destruct (nested_get (_tenant_connections (self w1)) t "quickbooks"); [done|].
    unfold bind at 1. rewrite is_failure_expired_run.
    destruct (failure_expired w1 t "quickbooks"); simpl; [|done].
    unfold bind at 1. rewrite ensure_exit_stack_run.
    unfold bind at 1. rewrite assert_exit_stack_run; [done|].
    apply with_exit_stack_frame. }
  unfold quickbooks_connect, quickbooks_rebuild.
  unfold bind at 1, gets at 1; simpl.
  destruct (token_refreshed (_tenant_tokens (self w) !! t) (access_token c)); simpl.
  - unfold bind at 1. rewrite invalidate_connection_run.
    unfold bind at 1. rewrite is_connection_stale_run, invalidated_stale.
    unfold bind at 1. rewrite invalidate_connection_run, invalidated_idemp.
    apply Htail.
  - unfold bind at 1, ret at 1.
    unfold bind at 1. rewrite is_connection_stale_run.
    destruct (connection_stale w t "quickbooks").
    + unfold bind at 1. rewrite invalidate_connection_run. apply Htail.
    + unfold bind at 1, ret at 1. apply Htail.
Qed.

Lemma get_quickbooks_mcp_run env t w :
  get_quickbooks_mcp env t w =
  match quickbooks_credentials env t (locked t w) with
  | (Returned (Some creds), w1) => quickbooks_connect env t creds w1
  | (Returned None, w1) => (Returned None, w1)
  | (Raised e, w1) => (Raised e, w1)
  end.
Proof.
  unfold get_quickbooks_mcp. unfold bind at 1.
  destruct (get_tenant_lock_run t w) as [lock ->].
  unfold bind at 1.
  destruct (quickbooks_credentials env t (locked t w)) as [[[creds|]|e] w1]; done.
Qed.

(** ** Opening a connection *)

(** STEP 5 of [get_quickbooks_mcp], once the exit stack exists: exactly
    one [open] call; on success the new server is registered with the
    token and the time, on any exception the failure is recorded and
    [None] is returned. *)
Lemma quickbooks_create_spec env t c w :
  _exit_stack (self w) ≠ None →
  let r := quickbooks_create env t c w in
  let w' := world_of r in
  open_calls w' = S (open_calls w) ∧
  clock w' = (clock w + Z.of_N (open_latency env))%Z ∧
  _request_global_mcp w' = _request_global_mcp w ∧
  match result_of r with
  | Returned (Some s) =>
      client_open env s = None ∧
      obj_id s = next_obj w ∧
      _tenant_connections (self w') =
        nested_set (_tenant_connections (self w)) t "quickbooks" s ∧
      _tenant_tokens (self w') = <[t := access_token c]> (_tenant_tokens (self w)) ∧
      _connection_created_at (self w') =
        nested_set (_connection_created_at (self w)) t "quickbooks" (clock w') ∧
      _failed_connections (self w') = _failed_connections (self w)
  | Returned None =>
      (∃ s e, client_open env s = Some e) ∧
      _tenant_connections (self w') = _tenant_connections (self w) ∧
      _tenant_tokens (self w') = _tenant_tokens (self w) ∧
      _connection_created_at (self w') = _connection_created_at (self w) ∧
      _failed_connections (self w') =
        nested_set (_failed_connections (self w)) t "quickbooks" (clock w')
  | Raised _ => False
  end.
Proof.
  intros Hstack.
  unfold quickbooks_create, new_server, new_object, await_enter_async_context,
    _mark_connection_failed, try_except, bind, ret, gets, modify, now, result_of, world_of,
    open_calls.
  simpl.
  destruct (client_open env _) as [e|] eqn:Hopen.
  - destruct e; simpl; rewrite ?List.filter_app, ?length_app; simpl;
      (split; [lia|]); repeat split; eauto.
  - destruct (_exit_stack (self w)) as [stack|] eqn:E; [|done]. simpl.
    rewrite ?List.filter_app, ?length_app; simpl.
    (split; [lia|]); repeat split; done.
Qed.

Lemma request_cache_write (rc : gmap string MCPServerStreamableHttp) t s :
  <[t := s]> (if (size rc =? 0)%nat then ∅ else rc) = <[t := s]> rc.
Proof.
  destruct (size rc =? 0)%nat eqn:E; [|done].
  apply Nat.eqb_eq, map_size_empty_inv in E. by rewrite E.
Qed.

(** STEP 6 of [get_global_mcp], once the exit stack exists: exactly one
    [open] call; on success the new server is written to the request-scoped
    dictionary, on any exception the failure is recorded and [None] is
    returned.  The process-wide registry is not written. *)
Lemma global_create_spec env t headers w :
  _exit_stack (self w) ≠ None →
  let r := global_create env t headers w in
  let w' := world_of r in
  open_calls w' = S (open_calls w) ∧
  clock w' = (clock w + Z.of_N (open_latency env))%Z ∧
  _tenant_connections (self w') = _tenant_connections (self w) ∧
  _tenant_tokens (self w') = _tenant_tokens (self w) ∧
  _connection_created_at (self w') = _connection_created_at (self w) ∧
  match result_of r with
  | Returned (Some s) =>
      client_open env s = None ∧
      obj_id s = next_obj w ∧
      params_headers s = headers ∧
      _request_global_mcp w' = <[t := s]> (_request_global_mcp w) ∧
      _failed_connections (self w') = _failed_connections (self w)
  | Returned None =>
      (∃ s e, client_open env s = Some e) ∧
      _request_global_mcp w' = _request_global_mcp w ∧
      _failed_connections (self w') =
        nested_set (_failed_connections (self w)) t "global" (clock w')
  | Raised _ => False
  end.
Proof.
  intros Hstack.
  unfold global_create, new_server, new_object, await_enter_async_context,
    _mark_connection_failed, try_except, bind, ret, gets, modify, now, result_of, world_of,
    open_calls.
  simpl.
  destruct (client_open env _) as [e|] eqn:Hopen.
  - destruct e; simpl; rewrite ?List.filter_app, ?length_app; simpl;
      (split; [lia|]); repeat split; eauto.
  - destruct (_exit_stack (self w)) as [stack|] eqn:E; [|done]. simpl.
    rewrite ?List.filter_app, ?length_app, request_cache_write; simpl.
    (split; [lia|]); repeat split; done.
Qed.

(** ** [get_global_mcp] step by step *)

Lemma global_connect_run env t w :
  global_connect env t w =
  match _request_global_mcp w !! t with
  | Some mcp => (Returned (Some mcp), w)
  | None =>
      match _get_google_sheets_credentials env t w with
      | (Returned sheets_creds, w1) =>
          if failure_expired w1 t "global"
          then global_create env t (global_headers t sheets_creds) (with_exit_stack w1)
          else (Returned None, w1)
      | (Raised e, w1) => (Raised e, w1)
      end
  end.
Proof.
  unfold global_connect. unfold bind at 1, gets at 1; simpl.
  destruct (_request_global_mcp w !! t); [done|].
  unfold bind at 1.
  destruct (_get_google_sheets_credentials env t w) as [[sheets_creds|e] w1]; [|done].
  unfold bind at 1. rewrite is_failure_expired_run.
  destruct (failure_expired w1 t "global"); simpl; [|done].
  unfold bind at 1. rewrite ensure_exit_stack_run.
  unfold bind at 1. rewrite assert_exit_stack_run; [done|].
  apply with_exit_stack_frame.
Qed.

Lemma get_global_mcp_run env t w :
  get_global_mcp env t w =
  match _request_global_mcp w !! t with
  | Some mcp => (Returned (Some mcp), w)
  | None => global_connect env t (locked t w)
  end.
Proof.
  unfold get_global_mcp. unfold bind at 1, gets at 1; simpl.
  destruct (_request_global_mcp w !! t); [done|].
  unfold bind at 1.
  by destruct (get_tenant_lock_run t w) as [lock ->].
Qed.

(** ** Outcomes of [get_quickbooks_mcp] *)

(** Without credentials the call stops after STEP 1: the connection
    bookkeeping is as before, and the client is not called. *)
Lemma get_quickbooks_mcp_no_credentials env t w :
  result_of (quickbooks_credentials env t w) = Returned None →
  let r := get_quickbooks_mcp env t w in
  result_of r = Returned None ∧ same_bookkeeping w (world_of r).
Proof.
  intros Hcreds. simpl. rewrite get_quickbooks_mcp_run.
  rewrite <- (quickbooks_credentials_locked env t t w) in Hcreds.
  destruct (locked_frame t w) as (Hb & _).
  destruct (quickbooks_credentials_frame env t (locked t w)) as (Hb' & _).
  destruct (quickbooks_credentials env t (locked t w)) as [[[creds|]|e] w1];
    unfold result_of in Hcreds; simpl in *; try discriminate.
  split; [done|].
  unfold same_bookkeeping in *. intuition congruence.
Qed.

(** With credentials, the call continues with STEPS 2 to 5 in a world
    whose bookkeeping is that of the start. *)
Lemma get_quickbooks_mcp_with_credentials env t w c :
  result_of (quickbooks_credentials env t w) = Returned (Some c) →
  ∃ w1,
    get_quickbooks_mcp env t w = quickbooks_connect env t c w1 ∧
    same_bookkeeping w w1 ∧
    (next_obj w ≤ next_obj w1)%nat ∧
    (clock w ≤ clock w1 ≤ clock w + Z.of_N (store_latency env))%Z.
Proof.
  intros Hcreds. rewrite get_quickbooks_mcp_run.
  rewrite <- (quickbooks_credentials_locked env t t w) in Hcreds.
  destruct (locked_frame t w) as (Hb & _ & _ & _ & Hk & _ & Hn).
  destruct (quickbooks_credentials_frame env t (locked t w)) as (Hb' & Hn' & Hk').
  destruct (quickbooks_credentials env t (locked t w)) as [[[creds|]|e] w1];
    unfold result_of in Hcreds; simpl in *; try discriminate.
  injection Hcreds as ->.
  exists w1. split; [done|]. split; [|lia].
  unfold same_bookkeeping in *. intuition congruence.
Qed.

(** A connection attempt for a pair the registry does not hold. *)
Lemma quickbooks_attempt_spec env t c w :
  registered w t "quickbooks" = None →
  let r := quickbooks_create env t c (with_exit_stack w) in
  let w' := world_of r in
  open_calls w' = S (open_calls w) ∧
  clock w' = (clock w + Z.of_N (open_latency env))%Z ∧
  _request_global_mcp w' = _request_global_mcp w ∧
  match result_of r with
  | Returned (Some s) =>
      client_open env s = None ∧
      obj_id s = next_obj w ∧
      registered w' t "quickbooks" = Some s ∧
      _tenant_tokens (self w') !! t = Some (access_token c) ∧
      created_at w' t "quickbooks" = Some (clock w') ∧
      failed_at w' t "quickbooks" = failed_at w t "quickbooks"
  | Returned None =>
      (∃ s e, client_open env s = Some e) ∧
      registered w' t "quickbooks" = None ∧
      _tenant_tokens (self w') = _tenant_tokens (self w) ∧
      created_at w' t "quickbooks" = created_at w t "quickbooks" ∧
      failed_at w' t "quickbooks" = Some (clock w')
  | Raised _ => False
  end.
Proof.
  intros Hnone.
  destruct (with_exit_stack_frame w) as (Hs & Hc & Ht & Hcr & Hf & Hr & Hk & Hn & Hcalls).
  pose proof (quickbooks_create_spec env t c (with_exit_stack w) Hs) as H.
  simpl in *. destruct H as (Ho & Hk' & Hr' & H).
  rewrite (open_calls_calls _ _ Hcalls) in Ho. rewrite Hk in Hk'. rewrite Hr in Hr'.
  split; [done|]. split; [done|]. split; [done|].
  unfold registered, created_at, failed_at in *.
  destruct (quickbooks_create env t c (with_exit_stack w)) as [[[s|]|e] w']; simpl in *;
    [| |done].
  - destruct H as (Hopen & Hid & -> & -> & -> & ->).
    rewrite Hn in Hid. rewrite !nested_get_set_eq, lookup_insert_eq, Hf. done.
  - destruct H as (Hopen & -> & -> & -> & ->).
    rewrite nested_get_set_eq, Hc, Ht, Hcr. done.
Qed.

(** When STEP 2 or STEP 3 invalidates the pair, the call goes on to open a
    new connection whatever the failure tracker held. *)
Lemma quickbooks_connect_rebuild env t c w :
  quickbooks_rebuild c t w = true →
  let r := quickbooks_connect env t c w in
  let w' := world_of r in
  open_calls w' = S (open_calls w) ∧
  clock w' = (clock w + Z.of_N (open_latency env))%Z ∧
  _request_global_mcp w' = _request_global_mcp w ∧
  match result_of r with
  | Returned (Some s) =>
      client_open env s = None ∧
      obj_id s = next_obj w ∧
      registered w' t "quickbooks" = Some s ∧
      _tenant_tokens (self w') !! t = Some (access_token c) ∧
      created_at w' t "quickbooks" = Some (clock w')
  | Returned None =>
      (∃ s e, client_open env s = Some e) ∧
      registered w' t "quickbooks" = None ∧
      failed_at w' t "quickbooks" = Some (clock w')
  | Raised _ => False
  end.
Proof.
  intros Hrebuild. simpl. rewrite quickbooks_connect_run, Hrebuild. simpl.
  destruct (invalidated_lookups t "quickbooks" w) as (Hreg & _ & _).
  rewrite Hreg, invalidated_expired.
  pose proof (quickbooks_attempt_spec env t c (invalidated t "quickbooks" w) Hreg) as H.
  simpl in H. destruct H as (Ho & Hk & Hr & H).
  destruct (invalidated_frame t "quickbooks" w) as (_ & _ & _ & _ & _ & Hr0 & Hk0 & Hn0 & Hc0).
  rewrite (open_calls_calls _ _ Hc0) in Ho. rewrite ?Hk0 in Hk. rewrite ?Hr0 in Hr.
  split; [done|]. split; [done|]. split; [done|].
  destruct (result_of _) as [[s|]|e]; [|tauto..].
  rewrite ?Hn0 in H. tauto.
Qed.

(** Without invalidation a registered handle is returned as it is. *)
Lemma quickbooks_connect_reuse env t c w h :
  quickbooks_rebuild c t w = false →
  registered w t "quickbooks" = Some h →
  quickbooks_connect env t c w = (Returned (Some h), w).
Proof.
  intros Hrebuild Hreg. rewrite quickbooks_connect_run, Hrebuild. simpl. by rewrite Hreg.
Qed.

(** A handle returned by STEPS 2 to 5 is the one the registry holds
    afterwards, it has a creation time, and at most one [open] call was
    made to get it. *)
Lemma quickbooks_connect_returns env t c w h :
  result_of (quickbooks_connect env t c w) = Returned (Some h) →
  let w' := world_of (quickbooks_connect env t c w) in
  registered w' t "quickbooks" = Some h ∧
  is_Some (created_at w' t "quickbooks") ∧
  (open_calls w ≤ open_calls w' ≤ S (open_calls w))%nat.
Proof.
  simpl. rewrite quickbooks_connect_run. simpl.
  destruct (quickbooks_rebuild c t w) eqn:Hrebuild.
  - destruct (invalidated_lookups t "quickbooks" w) as (Hreg & _ & _).
    rewrite Hreg, invalidated_expired.
    pose proof (quickbooks_attempt_spec env t c (invalidated t "quickbooks" w) Hreg) as H.
    simpl in H. destruct H as (Ho & _ & _ & H).
    destruct (invalidated_frame t "quickbooks" w) as (_ & _ & _ & _ & _ & _ & _ & _ & Hc0).
    rewrite (open_calls_calls _ _ Hc0) in Ho.
    intros Hres. rewrite Hres in H. destruct H as (_ & _ & Hr & _ & Hcr & _).
    rewrite Hcr. split; [done|]. split; [eauto|lia].
  - destruct (registered w t "quickbooks") as [mcp|] eqn:Hreg.
    + unfold result_of, world_of. simpl. intros [= ->].
      split; [done|]. split; [|lia].
      unfold quickbooks_rebuild in Hrebuild. apply orb_false_elim in Hrebuild as [_ Hst].
      unfold connection_stale in Hst. destruct (created_at w t "quickbooks"); [eauto|done].
    + destruct (failure_expired w t "quickbooks"); [|discriminate].
      pose proof (quickbooks_attempt_spec env t c w Hreg) as H.
      simpl in H. destruct H as (Ho & _ & _ & H).
      intros Hres. rewrite Hres in H. destruct H as (_ & _ & Hr & _ & Hcr & _).
      rewrite Hcr. split; [done|]. split; [eauto|lia].
Qed.

(** ** Outcomes of [get_global_mcp] *)

Lemma get_global_mcp_request_hit env t w h :
  _request_global_mcp w !! t = Some h →
  get_global_mcp env t w = (Returned (Some h), w).
Proof. intros H. by rewrite get_global_mcp_run, H. Qed.

(** When the request-scoped dictionary has no entry for the tenant, the
    call looks the spreadsheet credentials up and, unless a recent failure
    is on record, opens a new connection. *)
Lemma get_global_mcp_request_miss env t w :
  _request_global_mcp w !! t = None →
  ∃ sheets w1,
    _get_google_sheets_credentials env t (locked t w) = (sheets, w1) ∧
    same_bookkeeping w w1 ∧
    (next_obj w ≤ next_obj w1)%nat ∧
    (clock w ≤ clock w1 ≤ clock w + Z.of_N (store_latency env))%Z ∧
    get_global_mcp env t w =
      match sheets with
      | Returned sheets_creds =>
          if failure_expired w1 t "global"
          then global_create env t (global_headers t sheets_creds) (with_exit_stack w1)
          else (Returned None, w1)
      | Raised e => (Raised e, w1)
      end.
Proof.
  intros Hmiss. rewrite get_global_mcp_run, Hmiss, global_connect_run.
  destruct (locked_frame t w) as (Hb & _ & _ & _ & Hk & _ & Hn).
  assert (_request_global_mcp (locked t w) !! t = None) as ->.
  { destruct Hb as (_ & _ & _ & _ & _ & -> & _). done. }
  destruct (sheets_credentials_frame env t (locked t w)) as (Hb' & Hn' & Hk').
  destruct (_get_google_sheets_credentials env t (locked t w)) as [sheets w1].
  simpl in *. exists sheets, w1. split; [done|].
  split; [unfold same_bookkeeping in *; intuition congruence|].
  split; [lia|]. split; [lia|]. by destruct sheets.
Qed.

Lemma global_attempt_spec env t headers w :
  let r := global_create env t headers (with_exit_stack w) in
  let w' := world_of r in
  open_calls w' = S (open_calls w) ∧
  clock w' = (clock w + Z.of_N (open_latency env))%Z ∧
  _tenant_connections (self w') = _tenant_connections (self w) ∧
  _tenant_tokens (self w') = _tenant_tokens (self w) ∧
  _connection_created_at (self w') = _connection_created_at (self w) ∧
  match result_of r with
  | Returned (Some s) =>
      client_open env s = None ∧
      obj_id s = next_obj w ∧
      params_headers s = headers ∧
      _request_global_mcp w' = <[t := s]> (_request_global_mcp w) ∧
      _failed_connections (self w') = _failed_connections (self w)
  | Returned None =>
      (∃ s e, client_open env s = Some e) ∧
      _request_global_mcp w' = _request_global_mcp w ∧
      failed_at w' t "global" = Some (clock w')
  | Raised _ => False
  end.
Proof.
  destruct (with_exit_stack_frame w) as (Hs & Hc & Ht & Hcr & Hf & Hr & Hk & Hn & Hcalls).
  pose proof (global_create_spec env t headers (with_exit_stack w) Hs) as H.
  simpl in *. destruct H as (Ho & Hk' & Hc' & Ht' & Hcr' & H).
  rewrite (open_calls_calls _ _ Hcalls) in Ho. rewrite Hk in Hk'.
  rewrite Hc in Hc'. rewrite Ht in Ht'. rewrite Hcr in Hcr'.
  do 5 (split; [done|]).
  unfold failed_at.
  destruct (global_create env t headers (with_exit_stack w)) as [[[s|]|e] w']; simpl in *;
    [| |done].
  - destruct H as (Hopen & Hid & Hh & -> & ->). rewrite Hn in Hid. by rewrite Hr, Hf.
  - destruct H as (Hopen & -> & ->). by rewrite nested_get_set_eq, Hr.
Qed.

(** STEPS 2 to 5 either leave the client alone, or make one connection
    attempt for a pair the registry does not hold at that moment. *)
Lemma quickbooks_connect_cases env t c w :
  (open_calls (world_of (quickbooks_connect env t c w)) = open_calls w ∧
   ∃ res, result_of (quickbooks_connect env t c w) = Returned res) ∨
  (∃ w2,
     quickbooks_connect env t c w = quickbooks_create env t c (with_exit_stack w2) ∧
     registered w2 t "quickbooks" = None ∧
     open_calls w2 = open_calls w ∧
     next_obj w2 = next_obj w ∧
     _request_global_mcp w2 = _request_global_mcp w).
Proof.
  rewrite quickbooks_connect_run. simpl.
  set (w1 := if quickbooks_rebuild c t w then invalidated t "quickbooks" w else w).
  assert (open_calls w1 = open_calls w ∧ next_obj w1 = next_obj w ∧
          _request_global_mcp w1 = _request_global_mcp w) as (Ho & Hn & Hr).
  { subst w1. by destruct (quickbooks_rebuild c t w). }
  destruct (registered w1 t "quickbooks") as [mcp|] eqn:Hreg.
  - left. eauto.
  - destruct (failure_expired w1 t "quickbooks").
    + right. exists w1. done.
    + left. eauto.
Qed.

(** C1. When the client's [open] raises (a timeout, a cancellation or any
    other exception), [get_quickbooks_mcp] and [get_global_mcp] do not
    raise: they return [None], the failure tracker holds the pair with the
    time of the failure, and no handle is registered for the pair (the
    request-scoped dictionary has none for the tenant either). *)
Theorem open_exception_degrades_to_none env t w e :
  (∀ server, client_open env server = Some e) →
  (let r := get_quickbooks_mcp env t w in
   open_calls (world_of r) ≠ open_calls w →
   result_of r = Returned None ∧
   failed_at (world_of r) t "quickbooks" = Some (clock (world_of r)) ∧
   registered (world_of r) t "quickbooks" = None) ∧
  (let r := get_global_mcp env t w in
   open_calls (world_of r) ≠ open_calls w →
   result_of r = Returned None ∧
   failed_at (world_of r) t "global" = Some (clock (world_of r)) ∧
   _tenant_connections (self (world_of r)) = _tenant_connections (self w) ∧
   _request_global_mcp (world_of r) !! t = None).
Proof.
  intros Hraise. split; simpl.
  - rewrite get_quickbooks_mcp_run.
    destruct (locked_frame t w) as (Hb & _).
    destruct (quickbooks_credentials_frame env t (locked t w)) as (Hb' & _).
    destruct (quickbooks_credentials env t (locked t w)) as [[[c|]|e'] w1]; simpl in *.
    + assert (open_calls w1 = open_calls w) as Ho
        by (unfold same_bookkeeping in *; intuition congruence).
      destruct (quickbooks_connect_cases env t c w1) as [[Hsame _]|(w2 & -> & Hreg & Ho2 & _)].
      * intros Hne. congruence.
      * intros _.
        pose proof (quickbooks_attempt_spec env t c w2 Hreg) as H. simpl in H.
        destruct H as (_ & _ & _ & H).
        destruct (result_of _) as [[s|]|e']; [|tauto..].
        destruct H as (Hopen & _). rewrite Hraise in Hopen. discriminate.
    + intros Hne. exfalso. apply Hne. unfold world_of. simpl.
      unfold same_bookkeeping in *. intuition congruence.
    + intros Hne. exfalso. apply Hne. unfold world_of. simpl.
      unfold same_bookkeeping in *. intuition congruence.
  - destruct (_request_global_mcp w !! t) as [h|] eqn:Hreq.
    + rewrite (get_global_mcp_request_hit env t w h Hreq). unfold world_of. simpl. done.
    + destruct (get_global_mcp_request_miss env t w Hreq)
        as (sheets & w1 & _ & Hb & _ & _ & ->).
      assert (open_calls w1 = open_calls w ∧
              _tenant_connections (self w1) = _tenant_connections (self w) ∧
              _request_global_mcp w1 = _request_global_mcp w) as (Ho & Hc & Hr)
        by (unfold same_bookkeeping in *; intuition congruence).
      destruct sheets as [sheets_creds|e']; [|unfold world_of; simpl; congruence].
      destruct (failure_expired w1 t "global"); [|unfold world_of; simpl; congruence].
      intros _.
      pose proof (global_attempt_spec env t (global_headers t sheets_creds) w1) as H.
      simpl in H. destruct H as (_ & _ & Hc' & _ & _ & H).
      destruct (result_of _) as [[s|]|e']; [| |tauto].
      * destruct H as (Hopen & _). rewrite Hraise in Hopen. discriminate.
      * destruct H as (_ & Hr' & Hf). rewrite Hr', Hr, Hc', Hc. done.
Qed.

Lemma open_exception_degrades_to_none_witness :
  let env := example_env (Some {| access_token := "tokA"; realm_id := "r1" |})
               (Some CancelledError) in
  let w := initial_world 0 in
  (result_of (get_quickbooks_mcp env "t1" w) = Returned None ∧
   failed_at (world_of (get_quickbooks_mcp env "t1" w)) "t1" "quickbooks" = Some 0%Z) ∧
  (result_of (get_global_mcp env "t1" w) = Returned None ∧
   failed_at (world_of (get_global_mcp env "t1" w)) "t1" "global" = Some 0%Z).
Proof.
  intros env w.
  destruct (open_exception_degrades_to_none env "t1" w CancelledError) as [Hq Hg].
  { intros server. reflexivity. }
  split.
  - destruct Hq as (Hr & Hf & _); [vm_compute; lia|]. split; [exact Hr|exact Hf].
  - destruct Hg as (Hr & Hf & _); [vm_compute; lia|]. split; [exact Hr|exact Hf].
Defined.

(** C10. A tenant whose QuickBooks handle is registered and whose
    credential lookup now yields nothing gets [None], and the registered
    handle and its creation time stay exactly as they were: removing the
    credentials does not invalidate the registry entry. *)
Theorem missing_credentials_keep_registered_handle env t w h created :
  registered w t "quickbooks" = Some h →
  created_at w t "quickbooks" = Some created →
  result_of (quickbooks_credentials env t w) = Returned None →
  let r := get_quickbooks_mcp env t w in
  result_of r = Returned None ∧
  registered (world_of r) t "quickbooks" = Some h ∧
  created_at (world_of r) t "quickbooks" = Some created ∧
  open_calls (world_of r) = open_calls w.
Proof.
  intros Hreg Hcreated Hcreds.
  destruct (get_quickbooks_mcp_no_credentials env t w Hcreds) as (Hres & Hb).
  simpl. split; [exact Hres|].
  destruct Hb as (Hc & _ & Hcr & _ & _ & _ & Ho).
  unfold registered, created_at in *. rewrite Hc, Hcr. done.
Qed.

(** A tenant connected at time 0 whose credentials are gone from the store
    six minutes later, when the cached credentials have expired. *)
Lemma missing_credentials_keep_registered_handle_witness :
  let creds := {| access_token := "tokA"; realm_id := "r1" |} in
  let w := elapse 360000000
             (world_of (get_quickbooks_mcp (example_env (Some creds) None) "t1"
                          (initial_world 0))) in
  let r := get_quickbooks_mcp (example_env None None) "t1" w in
  result_of r = Returned None ∧
  is_Some (registered (world_of r) "t1" "quickbooks") ∧
  created_at (world_of r) "t1" "quickbooks" = Some 0%Z.
Proof.
  intros creds w r.
  destruct (missing_credentials_keep_registered_handle (example_env None None) "t1" w
              {| obj_id := 1; name := "QB_MCP_t1"; params_url := "http://localhost:8002/mcp";
                 params_headers := quickbooks_headers creds; params_timeout := 8;
                 max_retry_attempts := 1 |} 0)
    as (Hres & Hreg & Hcr & _).
  - vm_compute. reflexivity.
  - vm_compute. reflexivity.
  - vm_compute. reflexivity.
  - split; [exact Hres|]. split; [|exact Hcr]. subst r. rewrite Hreg. eauto.
Defined.




(** The same in general: when the request-scoped dictionary has no entry
    and no recent failure is on record, [get_global_mcp] opens a
    connection whether or not the tenant has spreadsheet credentials, and
    without them the headers are the three common ones. *)
Lemma global_attempt_without_credentials env t w :
  _request_global_mcp w !! t = None →
  failed_at w t "global" = None →
  result_of (_get_google_sheets_credentials env t (locked t w)) = Returned None →
  let r := get_global_mcp env t w in
  open_calls (world_of r) = S (open_calls w) ∧
  ∀ s, result_of r = Returned (Some s) →
       params_headers s =
         [("jsonrpc", "2.0");
          ("Content-Type", "application/json, text/event-stream");
          ("x-tenant-id", t)].
Proof.
  intros Hreq Hfail Hsheets.
  destruct (get_global_mcp_request_miss env t w Hreq) as (sheets & w1 & Hs & Hb & _ & _ & Hrun).
  simpl. rewrite Hrun. rewrite Hs in Hsheets. unfold result_of in Hsheets. simpl in Hsheets.
  subst sheets.
  assert (failure_expired w1 t "global" = true) as ->.
  { unfold failure_expired, failed_at in *.
    destruct Hb as (_ & _ & _ & -> & _). by rewrite Hfail. }
  pose proof (global_attempt_spec env t (global_headers t None) w1) as H.
  simpl in H. destruct H as (Ho & _ & _ & _ & _ & H).
  split.
  - rewrite Ho. f_equal. apply Hb.
  - intros s Hres. rewrite Hres in H. by destruct H as (_ & _ & -> & _).
Qed.

(** ** Reuse *)

Lemma get_quickbooks_mcp_returns env t w h :
  result_of (get_quickbooks_mcp env t w) = Returned (Some h) →
  let w' := world_of (get_quickbooks_mcp env t w) in
  registered w' t "quickbooks" = Some h ∧
  is_Some (created_at w' t "quickbooks") ∧
  (open_calls w ≤ open_calls w' ≤ S (open_calls w))%nat.
Proof.
  simpl. rewrite get_quickbooks_mcp_run.
  destruct (locked_frame t w) as (Hb & _).
  destruct (quickbooks_credentials_frame env t (locked t w)) as (Hb' & _).
  destruct (quickbooks_credentials env t (locked t w)) as [[[c|]|e] w1]; simpl in *;
    [|discriminate..].
  intros Hres.
  destruct (quickbooks_connect_returns env t c w1 h Hres) as (Hreg & Hcr & Ho).
  assert (open_calls w1 = open_calls w) as Ho1
    by (unfold same_bookkeeping in *; intuition congruence).
  rewrite Ho1 in Ho. done.
Qed.

Lemma get_global_mcp_returns env t w h :
  result_of (get_global_mcp env t w) = Returned (Some h) →
  let w' := world_of (get_global_mcp env t w) in
  _request_global_mcp w' !! t = Some h ∧
  (open_calls w ≤ open_calls w' ≤ S (open_calls w))%nat.
Proof.
  simpl. destruct (_request_global_mcp w !! t) as [h0|] eqn:Hreq.
  - rewrite (get_global_mcp_request_hit env t w h0 Hreq). unfold result_of, world_of. simpl.
    intros [= ->]. split; [done|lia].
  - destruct (get_global_mcp_request_miss env t w Hreq) as (sheets & w1 & _ & Hb & _ & _ & ->).
    assert (open_calls w1 = open_calls w) as Ho1 by apply Hb.
    destruct sheets as [sheets_creds|e]; [|discriminate].
    destruct (failure_expired w1 t "global"); [|discriminate].
    pose proof (global_attempt_spec env t (global_headers t sheets_creds) w1) as H.
    simpl in H. destruct H as (Ho & _ & _ & _ & _ & H).
    intros Hres. rewrite Hres in H. destruct H as (_ & _ & _ & -> & _).
    rewrite lookup_insert_eq, Ho, Ho1. split; [done|lia].
Qed.

Lemma token_refreshed_same tok : token_refreshed (Some tok) tok = false.
Proof. unfold token_refreshed. rewrite String.eqb_refl. by destruct (truthy_str tok). Qed.

(** C2, as the code has it.  QuickBooks: after a call that returned a
    handle, a second call made while the handle is at most 30 minutes old
    and whose credential lookup yields the recorded access token returns
    the same handle without calling the client, so at most one [open]
    serves both calls.  Global: the same holds for a second call in the
    same request context, where the request-scoped dictionary still has
    the handle. *)
Theorem sequential_calls_reuse_handle env1 env2 t w h d :
  (∀ creds created,
     result_of (get_quickbooks_mcp env1 t w) = Returned (Some h) →
     let w1 := elapse d (world_of (get_quickbooks_mcp env1 t w)) in
     result_of (quickbooks_credentials env2 t w1) = Returned (Some creds) →
     _tenant_tokens (self w1) !! t = Some (access_token creds) →
     created_at w1 t "quickbooks" = Some created →
     (clock w1 + Z.of_N (store_latency env2) - created ≤ _max_connection_age)%Z →
     result_of (get_quickbooks_mcp env2 t w1) = Returned (Some h) ∧
     open_calls (world_of (get_quickbooks_mcp env2 t w1)) = open_calls w1 ∧
     (open_calls w1 ≤ S (open_calls w))%nat) ∧
  (result_of (get_global_mcp env1 t w) = Returned (Some h) →
   let w1 := elapse d (world_of (get_global_mcp env1 t w)) in
   result_of (get_global_mcp env2 t w1) = Returned (Some h) ∧
   open_calls (world_of (get_global_mcp env2 t w1)) = open_calls w1 ∧
   (open_calls w1 ≤ S (open_calls w))%nat).
Proof.
  split.
  - intros creds created Hfirst w1 Hcreds Htok Hcreated Hage.
    destruct (get_quickbooks_mcp_returns env1 t w h Hfirst) as (Hreg & _ & Ho).
    destruct (get_quickbooks_mcp_with_credentials env2 t w1 creds Hcreds)
      as (w2 & -> & Hb & _ & Hk).
    destruct Hb as (Hc & Ht & Hcr & _ & _ & _ & Ho2).
    rewrite (quickbooks_connect_reuse env2 t creds w2 h).
    + unfold result_of, world_of. simpl. split; [done|]. split; [done|]. apply Ho.
    + unfold quickbooks_rebuild. rewrite Ht, Htok, token_refreshed_same. simpl.
      unfold connection_stale, created_at in *. rewrite Hcr, Hcreated.
      apply Z.ltb_ge. lia.
    + unfold registered in *. rewrite Hc. exact Hreg.
  - intros Hfirst w1.
    destruct (get_global_mcp_returns env1 t w h Hfirst) as (Hreq & Ho).
    rewrite (get_global_mcp_request_hit env2 t w1 h Hreq).
    unfold result_of, world_of. simpl. split; [done|]. split; [done|]. apply Ho.
Qed.

(** Two calls five minutes apart with the same credentials in the store;
    two calls of one request. *)
Lemma sequential_calls_reuse_handle_witness :
  let creds := {| access_token := "tokA"; realm_id := "r1" |} in
  let env := example_env (Some creds) None in
  let hq := {| obj_id := 1; name := "QB_MCP_t1"; params_url := "http://localhost:8002/mcp";
               params_headers := quickbooks_headers creds; params_timeout := 8;
               max_retry_attempts := 1 |} in
  let hg := {| obj_id := 1; name := "Global_Port8001_t1";
               params_url := "http://localhost:8001/mcp";
               params_headers := global_headers "t1" None; params_timeout := 5;
               max_retry_attempts := 0 |} in
  let wq := elapse 300000000 (world_of (get_quickbooks_mcp env "t1" (initial_world 0))) in
  let wg := elapse 300000000 (world_of (get_global_mcp env "t1" (initial_world 0))) in
  (result_of (get_quickbooks_mcp env "t1" wq) = Returned (Some hq) ∧
   open_calls (world_of (get_quickbooks_mcp env "t1" wq)) = open_calls wq ∧
   (open_calls wq ≤ S (open_calls (initial_world 0)))%nat) ∧
  (result_of (get_global_mcp env "t1" wg) = Returned (Some hg) ∧
   open_calls (world_of (get_global_mcp env "t1" wg)) = open_calls wg ∧
   (open_calls wg ≤ S (open_calls (initial_world 0)))%nat).
Proof.
  intros creds env hq hg wq wg. split.
  - apply (proj1 (sequential_calls_reuse_handle env env "t1" (initial_world 0) hq 300000000)
             creds 0%Z).
    + vm_compute; reflexivity.
    + vm_compute; reflexivity.
    + vm_compute; reflexivity.
    + vm_compute; reflexivity.
    + vm_compute; discriminate.
  - apply (proj2 (sequential_calls_reuse_handle env env "t1" (initial_world 0) hg 300000000)).
    vm_compute; reflexivity.
Defined.

(** C2 as stated fails for the global server: its handles live in the
    request-scoped dictionary only, so once the request has ended (the
    dictionary is cleared) the next call, one second later and with the
    same credentials, opens a second connection and returns another
    object. *)
Lemma global_not_reused_across_requests :
  let env := example_env None None in
  let r1 := get_global_mcp env "t1" (initial_world 0) in
  let w1 := world_of (clear_request_mcp_cache (world_of r1)) in
  let r2 := get_global_mcp env "t1" (elapse 1000000 w1) in
  ∃ h1 h2,
    result_of r1 = Returned (Some h1) ∧
    result_of r2 = Returned (Some h2) ∧
    obj_id h1 ≠ obj_id h2 ∧
    open_calls (world_of r2) = 2%nat.
Proof.
  vm_compute. eexists _, _. repeat split; try reflexivity. simpl. discriminate.
Qed.

(** ** Token rotation *)

Lemma token_refreshed_changed tok current :
  tok ≠ EmptyString → current ≠ tok → token_refreshed (Some tok) current = true.
Proof.
  intros Hne Hdiff. unfold token_refreshed.
  assert (String.eqb tok current = false) as -> by (apply String.eqb_neq; congruence).
  by destruct tok.
Qed.

(** C3, as the code has it.  A tenant with a registered QuickBooks handle
    and a recorded access token that is not the empty string: when the
    credential lookup of the call (STEP 1: the cached credentials while
    they are fresh, the store otherwise) yields another access token, the
    call drops the old handle and asks the client to open a new connection.  If that succeeds
    the returned handle is a new object, registered with the new token; if
    it fails [None] is returned and nothing is registered.  Either way the
    old handle is no longer in the registry. *)
Theorem token_change_rebuilds_connection env t w h tok creds :
  registered w t "quickbooks" = Some h →
  (obj_id h < next_obj w)%nat →
  _tenant_tokens (self w) !! t = Some tok →
  tok ≠ EmptyString →
  result_of (quickbooks_credentials env t w) = Returned (Some creds) →
  access_token creds ≠ tok →
  let r := get_quickbooks_mcp env t w in
  let w' := world_of r in
  open_calls w' = S (open_calls w) ∧
  registered w' t "quickbooks" ≠ Some h ∧
  match result_of r with
  | Returned (Some h') =>
      obj_id h' ≠ obj_id h ∧
      registered w' t "quickbooks" = Some h' ∧
      _tenant_tokens (self w') !! t = Some (access_token creds)
  | Returned None =>
      registered w' t "quickbooks" = None ∧
      failed_at w' t "quickbooks" = Some (clock w')
  | Raised _ => False
  end.
Proof.
  intros Hreg Hold Htok Hne Hcreds Hdiff.
  destruct (get_quickbooks_mcp_with_credentials env t w creds Hcreds)
    as (w1 & Hrun & Hb & Hn & _).
  simpl. rewrite Hrun.
  assert (quickbooks_rebuild creds t w1 = true) as Hrebuild.
  { unfold quickbooks_rebuild.
    destruct Hb as (_ & -> & _). rewrite Htok.
    by rewrite token_refreshed_changed. }
  pose proof (quickbooks_connect_rebuild env t creds w1 Hrebuild) as H.
  simpl in H. destruct H as (Ho & _ & _ & H).
  assert (open_calls w1 = open_calls w) as Ho1 by apply Hb.
  rewrite Ho, Ho1. split; [done|].
  destruct (result_of (quickbooks_connect env t creds w1)) as [[h'|]|e]; [| |done].
  - destruct H as (_ & Hid & Hreg' & Htok' & _).
    assert (obj_id h' ≠ obj_id h) as Hfresh by lia.
    rewrite Hreg'. split; [|done]. intros [= ->]. done.
  - destruct H as (_ & Hreg' & Hf). rewrite Hreg'. done.
Qed.

(** A tenant connected at time 0 with token [tokA]; six minutes later the
    store holds [tokB]. *)
Lemma token_change_rebuilds_connection_witness :
  let old := {| access_token := "tokA"; realm_id := "r1" |} in
  let new := {| access_token := "tokB"; realm_id := "r1" |} in
  let h := {| obj_id := 1; name := "QB_MCP_t1"; params_url := "http://localhost:8002/mcp";
              params_headers := quickbooks_headers old; params_timeout := 8;
              max_retry_attempts := 1 |} in
  let env := example_env (Some new) None in
  let w := elapse 360000000
             (world_of (get_quickbooks_mcp (example_env (Some old) None) "t1"
                          (initial_world 0))) in
  let r := get_quickbooks_mcp env "t1" w in
  let w' := world_of r in
  open_calls w' = S (open_calls w) ∧
  registered w' "t1" "quickbooks" ≠ Some h ∧
  match result_of r with
  | Returned (Some h') =>
      obj_id h' ≠ obj_id h ∧
      registered w' "t1" "quickbooks" = Some h' ∧
      _tenant_tokens (self w') !! "t1" = Some (access_token new)
  | Returned None =>
      registered w' "t1" "quickbooks" = None ∧
      failed_at w' "t1" "quickbooks" = Some (clock w')
  | Raised _ => False
  end.
Proof.
  intros old new h env w.
  apply (token_change_rebuilds_connection env "t1" w h "tokA" new).
  - vm_compute; reflexivity.
  - vm_compute; lia.
  - vm_compute; reflexivity.
  - discriminate.
  - vm_compute; reflexivity.
  - discriminate.
Defined.

(** C3 as stated fails while the cached credentials are fresh.  The
    tenant connected at time 0 with [tokA], which STEP 1 cached; one minute
    later the credential source holds [tokB].  The call answers STEP 1 from
    the cache without asking the source, sees the recorded token, and
    returns the old handle without opening anything. *)
Lemma rotation_inside_cache_ttl_is_not_detected :
  let old := example_creds "tokA" in
  let new := example_creds "tokB" in
  let r1 := get_quickbooks_mcp (example_env (Some old) None) "t1" (initial_world 0) in
  let w1 := elapse 60000000 (world_of r1) in
  let env2 := example_env (Some new) None in
  let r2 := get_quickbooks_mcp env2 "t1" w1 in
  ∃ h,
    registered w1 "t1" "quickbooks" = Some h ∧
    _tenant_tokens (self w1) !! "t1" = Some (access_token old) ∧
    get_quickbooks_credentials env2 "t1" = Returned (Some new) ∧
    access_token new ≠ access_token old ∧
    result_of r2 = Returned (Some h) ∧
    registered (world_of r2) "t1" "quickbooks" = Some h ∧
    open_calls (world_of r2) = open_calls w1 ∧
    store_calls (world_of r2) = store_calls w1.
Proof.
  vm_compute. eexists. repeat split; try reflexivity. discriminate.
Qed.

(** The guard of STEP 2 reads an empty recorded token as no token on
    record: a tenant connected with an empty access token keeps its handle
    when the store holds [tokB] six minutes later. *)
Lemma empty_recorded_token_hides_rotation :
  let old := {| access_token := EmptyString; realm_id := "r1" |} in
  let new := {| access_token := "tokB"; realm_id := "r1" |} in
  let r1 := get_quickbooks_mcp (example_env (Some old) None) "t1" (initial_world 0) in
  let w1 := elapse 360000000 (world_of r1) in
  let r2 := get_quickbooks_mcp (example_env (Some new) None) "t1" w1 in
  ∃ h,
    registered w1 "t1" "quickbooks" = Some h ∧
    result_of (quickbooks_credentials (example_env (Some new) None) "t1" w1)
      = Returned (Some new) ∧
    _tenant_tokens (self w1) !! "t1" = Some (access_token old) ∧
    access_token new ≠ access_token old ∧
    result_of r2 = Returned (Some h) ∧
    registered (world_of r2) "t1" "quickbooks" = Some h ∧
    open_calls (world_of r2) = open_calls w1.
Proof.
  vm_compute. eexists. repeat split; try reflexivity. discriminate.
Qed.

(** ** Backoff *)

(** With no creation time on record for the pair, STEP 3 finds the
    connection stale and invalidates it, which also pops the failure
    record; STEP 4.5 therefore never skips, and the client is asked to
    open a connection however recent the last failure is. *)
Lemma quickbooks_opens_without_creation_time env t w creds :
  created_at w t "quickbooks" = None →
  result_of (quickbooks_credentials env t w) = Returned (Some creds) →
  open_calls (world_of (get_quickbooks_mcp env t w)) = S (open_calls w).
Proof.
  intros Hcreated Hcreds.
  destruct (get_quickbooks_mcp_with_credentials env t w creds Hcreds)
    as (w1 & -> & Hb & _).
  assert (quickbooks_rebuild creds t w1 = true) as Hrebuild.
  { unfold quickbooks_rebuild, connection_stale, created_at in *.
    destruct Hb as (_ & _ & -> & _). rewrite Hcreated. apply orb_true_r. }
  pose proof (quickbooks_connect_rebuild env t creds w1 Hrebuild) as H.
  simpl in H. destruct H as (-> & _). f_equal. apply Hb.
Qed.

(** C4 at a failing input.  A tenant with QuickBooks credentials and a
    client that times out: the first call records the failure at time 0
    and returns [None]; the second call, five seconds later and so well
    inside the 30 second window, asks the client to open again. *)
Theorem quickbooks_backoff_not_honoured :
  let env := example_env (Some {| access_token := "tokA"; realm_id := "r1" |})
               (Some TimeoutError) in
  let r1 := get_quickbooks_mcp env "t1" (initial_world 0) in
  let w1 := elapse 5000000 (world_of r1) in
  let r2 := get_quickbooks_mcp env "t1" w1 in
  result_of r1 = Returned None ∧
  open_calls (world_of r1) = 1%nat ∧
  registered w1 "t1" "quickbooks" = None ∧
  failed_at w1 "t1" "quickbooks" = Some 0%Z ∧
  (clock w1 - 0 < _failed_connection_ttl)%Z ∧
  failure_expired w1 "t1" "quickbooks" = false ∧
  result_of r2 = Returned None ∧
  open_calls (world_of r2) = 2%nat.
Proof.
  vm_compute. repeat split; reflexivity.
Qed.

(** The global path does honour the window: with a failure on record that
    is at most 30 seconds old when STEP 3 looks at it, the call returns
    [None] and leaves the client alone; once it is older, the client is
    asked to open again. *)
Lemma global_backoff_honoured env t w failed :
  _request_global_mcp w !! t = None →
  failed_at w t "global" = Some failed →
  (∃ sheets, result_of (_get_google_sheets_credentials env t (locked t w)) = Returned sheets) →
  let r := get_global_mcp env t w in
  ((clock w + Z.of_N (store_latency env) - failed ≤ _failed_connection_ttl)%Z →
   result_of r = Returned None ∧ open_calls (world_of r) = open_calls w) ∧
  ((_failed_connection_ttl < clock w - failed)%Z →
   open_calls (world_of r) = S (open_calls w)).
Proof.
  intros Hreq Hfailed [sheets_creds Hsheets].
  destruct (get_global_mcp_request_miss env t w Hreq)
    as (sheets & w1 & Hs & Hb & _ & Hk & Hrun).
  simpl. rewrite Hrun. rewrite Hs in Hsheets. unfold result_of in Hsheets. simpl in Hsheets.
  subst sheets.
  assert (failed_at w1 t "global" = Some failed) as Hf1.
  { unfold failed_at in *. destruct Hb as (_ & _ & _ & -> & _). done. }
  assert (open_calls w1 = open_calls w) as Ho1 by apply Hb.
  unfold failure_expired. rewrite Hf1.
  split; intros Hage.
  - assert ((_failed_connection_ttl <? clock w1 - failed)%Z = false) as ->
      by (apply Z.ltb_ge; lia).
    unfold result_of, world_of. simpl. done.
  - assert ((_failed_connection_ttl <? clock w1 - failed)%Z = true) as ->
      by (apply Z.ltb_lt; lia).
    pose proof (global_attempt_spec env t (global_headers t sheets_creds) w1) as H.
    simpl in H. destruct H as (-> & _). by rewrite Ho1.
Qed.

(** ** Reported connection errors *)

(** C6, as the code has it.  [handle_connection_error] removes the pair
    from the registry and from the creation times, and it also pops the
    failure record of the pair; other pairs, the recorded tokens and the
    request-scoped dictionary are as before.  For QuickBooks the next call
    with credentials therefore asks the client to open a new
    connection. *)
Theorem connection_error_invalidates_pair t k error w :
  let r := handle_connection_error t k error w in
  let w' := world_of r in
  result_of r = Returned tt ∧
  registered w' t k = None ∧
  created_at w' t k = None ∧
  failed_at w' t k = None ∧
  (∀ t' k', t ≠ t' ∨ k ≠ k' →
     registered w' t' k' = registered w t' k' ∧
     created_at w' t' k' = created_at w t' k' ∧
     failed_at w' t' k' = failed_at w t' k') ∧
  _tenant_tokens (self w') = _tenant_tokens (self w) ∧
  _request_global_mcp w' = _request_global_mcp w ∧
  (k = "quickbooks" →
   ∀ env creds,
     result_of (quickbooks_credentials env t w') = Returned (Some creds) →
     open_calls (world_of (get_quickbooks_mcp env t w')) = S (open_calls w')).
Proof.
  assert (handle_connection_error t k error w = (Returned tt, invalidated t k w)) as ->
    by (by destruct error).
  unfold result_of, world_of. simpl.
  destruct (invalidated_lookups t k w) as (Hr & Hc & Hf).
  split; [done|]. split; [done|]. split; [done|]. split; [done|].
  split; [|split; [done|split; [done|]]].
  - intros t' k' Hne. unfold registered, created_at, failed_at.
    destruct (invalidated_frame t k w) as (-> & -> & -> & _).
    by rewrite !nested_get_pop_ne.
  - intros -> env creds Hcreds.
    by apply (quickbooks_opens_without_creation_time env t _ creds).
Qed.

(** A tenant connected at time 0 whose connection is reported closed. *)
Lemma connection_error_invalidates_pair_witness :
  let creds := {| access_token := "tokA"; realm_id := "r1" |} in
  let env := example_env (Some creds) None in
  let w := world_of (get_quickbooks_mcp env "t1" (initial_world 0)) in
  let w' := world_of (handle_connection_error "t1" "quickbooks" ClosedResourceError w) in
  open_calls (world_of (get_quickbooks_mcp env "t1" w')) = S (open_calls w').
Proof.
  intros creds env w w'.
  pose proof (connection_error_invalidates_pair "t1" "quickbooks" ClosedResourceError w) as H.
  cbv zeta in H. destruct H as (_ & _ & _ & _ & _ & _ & _ & H).
  apply (H eq_refl env creds).
  vm_compute; reflexivity.
Defined.

(** C6 as stated fails on its last part: the failure record of the pair
    is cleared.  The global server fails to open at time 0, opens 31
    seconds later, and that connection is then reported closed. *)
Lemma connection_error_clears_failure_record :
  let w1 := elapse 31000000
              (world_of (get_global_mcp (example_env None (Some TimeoutError)) "t1"
                           (initial_world 0))) in
  let w2 := world_of (get_global_mcp (example_env None None) "t1" w1) in
  let w3 := world_of (handle_connection_error "t1" "global" ClosedResourceError w2) in
  failed_at w2 "t1" "global" = Some 0%Z ∧
  failed_at w3 "t1" "global" = None.
Proof.
  vm_compute. split; reflexivity.
Qed.

(** ** The credential caches *)

Lemma creds_cache_fresh w t k stamp :
  creds_cached_at w t k = Some stamp →
  (clock w - stamp ≤ _creds_cache_ttl)%Z →
  creds_cache_stale w t k = false.
Proof. intros H Hage. unfold creds_cache_stale. rewrite H. apply Z.ltb_ge. lia. Qed.

Lemma creds_cache_expired w t k :
  (∀ stamp, creds_cached_at w t k = Some stamp → (_creds_cache_ttl < clock w - stamp)%Z) →
  creds_cache_stale w t k = true.
Proof.
  intros H. unfold creds_cache_stale.
  destruct (creds_cached_at w t k) as [stamp|]; [|done].
  apply Z.ltb_lt. by apply H.
Qed.

(** C7, as the code has it.  Both lookups answer from the cache, without
    a store query and without changing anything, when the tenant has an
    entry whose stamp is at most five minutes old.  On a miss or an
    expired entry both query the store once.  The spreadsheet lookup then
    caches and stamps whatever the store said, also "no connection"; the
    QuickBooks lookup caches and stamps credentials only, and leaves the
    cache as it was when the store has none. *)
Theorem credential_cache_lookup env t w :
  (∀ cached stamp,
     _quickbooks_creds_cache (self w) !! t = Some cached →
     creds_cached_at w t "quickbooks" = Some stamp →
     (clock w - stamp ≤ _creds_cache_ttl)%Z →
     quickbooks_credentials env t w = (Returned cached, w)) ∧
  (_quickbooks_creds_cache (self w) !! t = None ∨
   (∀ stamp, creds_cached_at w t "quickbooks" = Some stamp →
             (_creds_cache_ttl < clock w - stamp)%Z) →
   let r := quickbooks_credentials env t w in
   let w' := world_of r in
   calls w' = (calls w ++ [StoreQuickBooks t])%list ∧
   result_of r = get_quickbooks_credentials env t ∧
   match get_quickbooks_credentials env t with
   | Returned (Some c) =>
       _quickbooks_creds_cache (self w') !! t = Some (Some c) ∧
       creds_cached_at w' t "quickbooks" = Some (clock w')
   | _ =>
       _quickbooks_creds_cache (self w') = _quickbooks_creds_cache (self w) ∧
       _creds_cache_timestamps (self w') = _creds_cache_timestamps (self w)
   end) ∧
  (∀ cached stamp,
     _sheets_creds_cache (self w) !! t = Some cached →
     creds_cached_at w t "sheets" = Some stamp →
     (clock w - stamp ≤ _creds_cache_ttl)%Z →
     _get_google_sheets_credentials env t w = (Returned cached, w)) ∧
  (_sheets_creds_cache (self w) !! t = None ∨
   (∀ stamp, creds_cached_at w t "sheets" = Some stamp →
             (_creds_cache_ttl < clock w - stamp)%Z) →
   let r := _get_google_sheets_credentials env t w in
   let w' := world_of r in
   calls w' = (calls w ++ [StoreSheets t])%list ∧
   match select_google_sheets_connection env t with
   | Returned connection =>
       result_of r = Returned (sheets_creds_of <$> connection) ∧
       _sheets_creds_cache (self w') !! t = Some (sheets_creds_of <$> connection) ∧
       creds_cached_at w' t "sheets" = Some (clock w')
   | Raised e =>
       result_of r = Raised e ∧
       _sheets_creds_cache (self w') = _sheets_creds_cache (self w) ∧
       _creds_cache_timestamps (self w') = _creds_cache_timestamps (self w)
   end).
Proof.
  split; [|split; [|split]].
  - intros cached stamp Hc Hs Hage. rewrite quickbooks_credentials_run.
    unfold quickbooks_cache_hit. by rewrite Hc, (creds_cache_fresh w t _ stamp).
  - intros Hmiss. simpl. rewrite quickbooks_credentials_run.
    assert (quickbooks_cache_hit w t = None) as ->.
    { unfold quickbooks_cache_hit. destruct Hmiss as [->|Hexp]; [done|].
      rewrite creds_cache_expired by done. by destruct (_ !! t). }
    destruct (quickbooks_fetch_and_cache_spec env t w) as (Hres & Hcalls & _ & _ & _ & _ & H).
    split; [done|]. split; [done|].
    destruct (get_quickbooks_credentials env t) as [[c|]|e]; [|done..].
    destruct H as (-> & Hst). unfold creds_cached_at. rewrite Hst.
    by rewrite lookup_insert_eq, nested_get_set_eq.
  - intros cached stamp Hc Hs Hage. rewrite sheets_credentials_run.
    unfold sheets_cache_hit. by rewrite Hc, (creds_cache_fresh w t _ stamp).
  - intros Hmiss. simpl. rewrite sheets_credentials_run.
    assert (sheets_cache_hit w t = None) as ->.
    { unfold sheets_cache_hit. destruct Hmiss as [->|Hexp]; [done|].
      rewrite creds_cache_expired by done. by destruct (_ !! t). }
    destruct (sheets_fetch_and_cache_spec env t w) as (Hcalls & _ & _ & _ & _ & H).
    split; [done|].
    destruct (select_google_sheets_connection env t) as [connection|e]; [|done].
    destruct H as (-> & -> & Hst). unfold creds_cached_at. rewrite Hst.
    by rewrite lookup_insert_eq, nested_get_set_eq.
Qed.

(** A first spreadsheet lookup for a tenant without a connection. *)
Lemma credential_cache_lookup_witness :
  let env := example_env None None in
  let w := initial_world 0 in
  let r := _get_google_sheets_credentials env "t1" w in
  let w' := world_of r in
  calls w' = (calls w ++ [StoreSheets "t1"])%list ∧
  match select_google_sheets_connection env "t1" with
  | Returned connection =>
      result_of r = Returned (sheets_creds_of <$> connection) ∧
      _sheets_creds_cache (self w') !! "t1" = Some (sheets_creds_of <$> connection) ∧
      creds_cached_at w' "t1" "sheets" = Some (clock w')
  | Raised e =>
      result_of r = Raised e ∧
      _sheets_creds_cache (self w') = _sheets_creds_cache (self w) ∧
      _creds_cache_timestamps (self w') = _creds_cache_timestamps (self w)
  end.
Proof.
  intros env w.
  apply (proj2 (proj2 (proj2 (credential_cache_lookup env "t1" w)))).
  left. vm_compute; reflexivity.
Defined.

(** C7 as stated fails for QuickBooks on its last part: when the store has
    no credentials nothing is cached or stamped, and the next lookup, one
    second later, queries the store again. *)
Lemma quickbooks_no_credentials_not_cached :
  let env := example_env None None in
  let r1 := quickbooks_credentials env "t1" (initial_world 0) in
  let r2 := quickbooks_credentials env "t1" (elapse 1000000 (world_of r1)) in
  get_quickbooks_credentials env "t1" = Returned None ∧
  result_of r1 = Returned None ∧
  _quickbooks_creds_cache (self (world_of r1)) !! "t1" = None ∧
  creds_cached_at (world_of r1) "t1" "quickbooks" = None ∧
  store_calls (world_of r1) = 1%nat ∧
  store_calls (world_of r2) = 2%nat.
Proof.
  vm_compute. repeat split; reflexivity.
Qed.

(** ** Shutdown *)

(** C8, as the code has it.  [cleanup] closes the exit stack with every
    session it holds and forgets it, and empties the connection registry,
    the token map and the lock table.  The creation times, the failure
    tracker, both credential caches and their stamps are left as they
    were.  It returns normally unless closing the stack is cancelled; the
    [finally] block has run in either case. *)
Theorem cleanup_clears_connections_tokens_locks env w :
  let r := cleanup env w in
  let w' := world_of r in
  _exit_stack (self w') = None ∧
  calls w' =
    (calls w ++ match _exit_stack (self w) with
                | Some sessions => [ExitStackClose sessions]
                | None => []
                end)%list ∧
  _tenant_connections (self w') = ∅ ∧
  _tenant_tokens (self w') = ∅ ∧
  _locks (self w') = ∅ ∧
  _connection_created_at (self w') = _connection_created_at (self w) ∧
  _failed_connections (self w') = _failed_connections (self w) ∧
  _quickbooks_creds_cache (self w') = _quickbooks_creds_cache (self w) ∧
  _sheets_creds_cache (self w') = _sheets_creds_cache (self w) ∧
  _creds_cache_timestamps (self w') = _creds_cache_timestamps (self w) ∧
  _request_global_mcp w' = _request_global_mcp w ∧
  result_of r =
    match _exit_stack (self w), exit_stack_aexit env with
    | Some _, Some CancelledError => Raised CancelledError
    | _, _ => Returned tt
    end.
Proof.
  unfold cleanup, try_finally, try_except, await_aexit, bind, gets, modify, ret,
    result_of, world_of.
  simpl.
  destruct (_exit_stack (self w)) as [sessions|]; simpl.
  - destruct (exit_stack_aexit env) as [[| |]|]; simpl; repeat split.
  - rewrite app_nil_r. repeat split.
Qed.

(** C8 as stated fails for the registries [cleanup] does not touch: after
    a QuickBooks connection made at time 0 and a failed global attempt,
    shutdown leaves the creation time, the failure record, the cached
    credentials of both kinds and their stamps in place. *)
Lemma cleanup_keeps_times_failures_and_credentials :
  let creds := {| access_token := "tokA"; realm_id := "r1" |} in
  let w1 := world_of (get_quickbooks_mcp (example_env (Some creds) None) "t1"
                        (initial_world 0)) in
  let w2 := world_of (get_global_mcp (example_env (Some creds) (Some TimeoutError)) "t1" w1) in
  let w3 := world_of (cleanup (example_env None None) w2) in
  created_at w3 "t1" "quickbooks" = Some 0%Z ∧
  failed_at w3 "t1" "global" = Some 0%Z ∧
  _quickbooks_creds_cache (self w3) !! "t1" = Some (Some creds) ∧
  _sheets_creds_cache (self w3) !! "t1" = Some None ∧
  creds_cached_at w3 "t1" "quickbooks" = Some 0%Z ∧
  _connection_created_at (self w3) ≠ ∅ ∧
  _failed_connections (self w3) ≠ ∅ ∧
  _quickbooks_creds_cache (self w3) ≠ ∅ ∧
  _sheets_creds_cache (self w3) ≠ ∅.
Proof.
  intros creds w1 w2 w3.
  assert (created_at w3 "t1" "quickbooks" = Some 0%Z) as H1 by (vm_compute; reflexivity).
  assert (failed_at w3 "t1" "global" = Some 0%Z) as H2 by (vm_compute; reflexivity).
  assert (_quickbooks_creds_cache (self w3) !! "t1" = Some (Some creds)) as H3
    by (vm_compute; reflexivity).
  assert (_sheets_creds_cache (self w3) !! "t1" = Some None) as H4
    by (vm_compute; reflexivity).
  assert (creds_cached_at w3 "t1" "quickbooks" = Some 0%Z) as H5 by (vm_compute; reflexivity).
  repeat split; try assumption.
  - intros E. unfold created_at in H1. rewrite E, nested_get_empty in H1. discriminate.
  - intros E. unfold failed_at in H2. rewrite E, nested_get_empty in H2. discriminate.
  - intros E. rewrite E, lookup_empty in H3. discriminate.
  - intros E. rewrite E, lookup_empty in H4. discriminate.
Qed.

(** ** Tenant locks *)

(** A tenant keeps the lock it was given, and taking the lock of one
    tenant leaves the lock of every other tenant as it was. *)
Lemma get_tenant_lock_stable t w :
  ∃ lock,
    result_of (_get_tenant_lock t w) = Returned lock ∧
    _locks (self (locked t w)) !! t = Some lock ∧
    ∀ t', t' ≠ t → _locks (self (locked t w)) !! t' = _locks (self w) !! t'.
Proof.
  unfold locked, result_of, world_of, _get_tenant_lock, new_object, bind, gets, modify, ret.
  simpl. destruct (_locks (self w) !! t) as [lock|] eqn:E; simpl.
  - exists lock. eauto.
  - exists (next_obj w). rewrite lookup_insert_eq. split; [done|]. split; [done|].
    intros t' Hne. by rewrite lookup_insert_ne.
Qed.

(** * Invariants of the manager *)

(** ** Each invariant reads a few fields *)

Lemma registry_ok_ext w w' :
  _tenant_connections (self w') = _tenant_connections (self w) →
  _tenant_tokens (self w') = _tenant_tokens (self w) →
  _connection_created_at (self w') = _connection_created_at (self w) →
  _exit_stack (self w') = _exit_stack (self w) →
  registry_ok w → registry_ok w'.
Proof.
  unfold registry_ok, registered, created_at. intros -> -> -> ->. done.
Qed.

Lemma sessions_ok_ext w w' :
  _exit_stack (self w') = _exit_stack (self w) →
  (next_obj w ≤ next_obj w')%nat →
  sessions_ok w → sessions_ok w'.
Proof.
  unfold sessions_ok. intros -> Hn H stack Hs.
  destruct (H stack Hs) as [Hnd Hlt]. split; [done|].
  intros h Hh. specialize (Hlt h Hh). lia.
Qed.

Lemma request_ok_ext w w' :
  _request_global_mcp w' = _request_global_mcp w →
  (next_obj w ≤ next_obj w')%nat →
  request_ok w → request_ok w'.
Proof.
  unfold request_ok. intros -> Hn H t h Hh.
  destruct (H t h Hh) as (? & ? & ?). repeat split; [done..|lia].
Qed.

Lemma times_ok_ext w w' :
  _connection_created_at (self w') = _connection_created_at (self w) →
  _failed_connections (self w') = _failed_connections (self w) →
  _creds_cache_timestamps (self w') = _creds_cache_timestamps (self w) →
  (clock w ≤ clock w')%Z →
  times_ok w → times_ok w'.
Proof.
  unfold times_ok, created_at, failed_at, creds_cached_at.
  intros -> -> -> Hk (H1 & H2 & H3).
  repeat split; intros t k c Hc;
    [specialize (H1 t k c Hc) | specialize (H2 t k c Hc) | specialize (H3 t k c Hc)]; lia.
Qed.

Lemma locks_ok_ext w w' :
  _locks (self w') = _locks (self w) →
  (next_obj w ≤ next_obj w')%nat →
  locks_ok w → locks_ok w'.
Proof.
  unfold locks_ok. intros -> Hn (H1 & H2). split; [|done].
  intros t l Hl. specialize (H1 t l Hl). lia.
Qed.

Lemma caches_ok_ext w w' :
  _quickbooks_creds_cache (self w') = _quickbooks_creds_cache (self w) →
  _sheets_creds_cache (self w') = _sheets_creds_cache (self w) →
  _creds_cache_timestamps (self w') = _creds_cache_timestamps (self w) →
  caches_ok w → caches_ok w'.
Proof.
  unfold caches_ok, creds_cached_at. intros -> -> ->. done.
Qed.

Ltac split_consistent :=
  unfold consistent; split; [|split; [|split; [|split; [|split]]]].

Lemma consistent_initial t0 : consistent (initial_world t0).
Proof.
  unfold consistent, registry_ok, sessions_ok, request_ok, times_ok, locks_ok, caches_ok,
    registered, created_at, failed_at, creds_cached_at. simpl.
  repeat split; intros; rewrite ?nested_get_empty, ?lookup_empty in *; done.
Qed.

Lemma consistent_elapse d w : consistent w → consistent (elapse d w).
Proof.
  pose proof (N2Z.is_nonneg d) as Hd.
  intros (Hr & Hs & Hq & Ht & Hl & Hc). split_consistent.
  - by apply (registry_ok_ext w).
  - by apply (sessions_ok_ext w).
  - by apply (request_ok_ext w).
  - apply (times_ok_ext w); try done. simpl. lia.
  - by apply (locks_ok_ext w).
  - by apply (caches_ok_ext w).
Qed.

Lemma consistent_clear_request w :
  consistent w → consistent (world_of (clear_request_mcp_cache w)).
Proof.
  intros (Hr & Hs & Hq & Ht & Hl & Hc). split_consistent.
  - by apply (registry_ok_ext w).
  - by apply (sessions_ok_ext w).
  - intros t h. unfold world_of. simpl. by rewrite lookup_empty.
  - by apply (times_ok_ext w).
  - by apply (locks_ok_ext w).
  - by apply (caches_ok_ext w).
Qed.

Lemma consistent_locked t w : consistent w → consistent (locked t w).
Proof.
  intros (Hr & Hs & Hq & Ht & Hl & Hc).
  destruct (locked_frame t w)
    as ((Hb1 & Hb2 & Hb3 & Hb4 & Hb5 & Hb6 & _) & Hc1 & Hc2 & Hc3 & Hk & _ & Hn).
  split_consistent.
  - by apply (registry_ok_ext w).
  - by apply (sessions_ok_ext w).
  - by apply (request_ok_ext w).
  - apply (times_ok_ext w); try done. lia.
  - clear Hr Hs Hq Ht Hc Hb1 Hb2 Hb3 Hb4 Hb5 Hb6 Hc1 Hc2 Hc3 Hk Hn. revert Hl.
    unfold locks_ok, locked, world_of, _get_tenant_lock, new_object,
      bind, gets, modify, ret. simpl.
    destruct (_locks (self w) !! t) as [l|] eqn:E; simpl; [done|].
    intros (H1 & H2). split.
    + intros t' l'. destruct (decide (t = t')) as [->|Hne].
      * rewrite lookup_insert_eq. intros [= <-]. lia.
      * rewrite lookup_insert_ne by done. intros Hl. specialize (H1 t' l' Hl). lia.
    + intros t1 t2 l. rewrite !lookup_insert.
      destruct (decide (t = t1)) as [E1|E1]; destruct (decide (t = t2)) as [E2|E2].
      * congruence.
      * intros [= <-] Hl. specialize (H1 t2 _ Hl). lia.
      * intros Hl [= <-]. specialize (H1 t1 _ Hl). lia.
      * apply H2.
  - by apply (caches_ok_ext w).
Qed.

Lemma consistent_quickbooks_credentials env t w :
  consistent w → consistent (world_of (quickbooks_credentials env t w)).
Proof.
  pose proof (N2Z.is_nonneg (store_latency env)) as Hlat.
  intros Hw. rewrite quickbooks_credentials_run.
  destruct (quickbooks_cache_hit w t); [done|].
  destruct Hw as (Hr & Hs & Hq & Ht & Hl & Hc).
  unfold quickbooks_fetch_and_cache, await_get_quickbooks_credentials,
    bind, gets, modify, now, ret, world_of. simpl.
  destruct (get_quickbooks_credentials env t) as [[c|]|e]; simpl.
  - split_consistent.
    + by apply (registry_ok_ext w).
    + by apply (sessions_ok_ext w).
    + by apply (request_ok_ext w).
    + destruct Ht as (H1 & H2 & H3).
      unfold times_ok, created_at, failed_at, creds_cached_at. simpl.
      split; [|split].
      * intros t' k' c' Hc'. specialize (H1 t' k' c' Hc'). lia.
      * intros t' k' c' Hc'. specialize (H2 t' k' c' Hc'). lia.
      * intros t' k' c'. rewrite nested_get_set. case_decide.
        -- intros [= <-]. lia.
        -- intros Hc'. specialize (H3 t' k' c' Hc'). lia.
    + by apply (locks_ok_ext w).
    + destruct Hc as (H1 & H2).
      unfold caches_ok, creds_cached_at. simpl. split.
      * intros t' v. rewrite lookup_insert, nested_get_set.
        destruct (decide (t = t')) as [<-|Hne].
        -- intros [= <-]. rewrite decide_True by done. split; [done|eauto].
        -- intros Hv. rewrite decide_False by tauto. by apply H1.
      * intros t' v Hv. rewrite nested_get_set, decide_False by (intros [_ [=]]).
        by apply (H2 t' v).
  - split_consistent.
    + by apply (registry_ok_ext w).
    + by apply (sessions_ok_ext w).
    + by apply (request_ok_ext w).
    + apply (times_ok_ext w); try done. simpl. lia.
    + by apply (locks_ok_ext w).
    + by apply (caches_ok_ext w).
  - split_consistent.
    + by apply (registry_ok_ext w).
    + by apply (sessions_ok_ext w).
    + by apply (request_ok_ext w).
    + apply (times_ok_ext w); try done. simpl. lia.
    + by apply (locks_ok_ext w).
    + by apply (caches_ok_ext w).
Qed.

Lemma consistent_sheets_credentials env t w :
  consistent w → consistent (world_of (_get_google_sheets_credentials env t w)).
Proof.
  pose proof (N2Z.is_nonneg (store_latency env)) as Hlat.
  intros Hw. rewrite sheets_credentials_run.
  destruct (sheets_cache_hit w t); [done|].
  destruct Hw as (Hr & Hs & Hq & Ht & Hl & Hc).
  unfold sheets_fetch_and_cache, await_select_google_sheets_connection,
    bind, gets, modify, now, ret, world_of. simpl.
  destruct (select_google_sheets_connection env t) as [connection|e]; simpl.
  - split_consistent.
    + by apply (registry_ok_ext w).
    + by apply (sessions_ok_ext w).
    + by apply (request_ok_ext w).
    + destruct Ht as (H1 & H2 & H3).
      unfold times_ok, created_at, failed_at, creds_cached_at. simpl.
      split; [|split].
      * intros t' k' c' Hc'. specialize (H1 t' k' c' Hc'). lia.
      * intros t' k' c' Hc'. specialize (H2 t' k' c' Hc'). lia.
      * intros t' k' c'. rewrite nested_get_set. case_decide.
        -- intros [= <-]. lia.
        -- intros Hc'. specialize (H3 t' k' c' Hc'). lia.
    + by apply (locks_ok_ext w).
    + destruct Hc as (H1 & H2).
      unfold caches_ok, creds_cached_at. simpl. split.
      * intros t' v Hv. rewrite nested_get_set, decide_False by (intros [_ [=]]).
        by apply (H1 t' v).
      * intros t' v. rewrite lookup_insert, nested_get_set.
        destruct (decide (t = t')) as [<-|Hne].
        -- intros _. rewrite decide_True by done. eauto.
        -- intros Hv. rewrite decide_False by tauto. by apply (H2 t' v).
  - split_consistent.
    + by apply (registry_ok_ext w).
    + by apply (sessions_ok_ext w).
    + by apply (request_ok_ext w).
    + apply (times_ok_ext w); try done. simpl. lia.
    + by apply (locks_ok_ext w).
    + by apply (caches_ok_ext w).
Qed.

Lemma consistent_invalidated t k w : consistent w → consistent (invalidated t k w).
Proof.
  intros (Hr & Hs & Hq & Ht & Hl & Hc). split_consistent.
  - unfold registry_ok, registered, created_at in *. simpl.
    intros t' k' h. rewrite !nested_get_pop.
    case_decide; [done|]. apply Hr.
  - by apply (sessions_ok_ext w).
  - by apply (request_ok_ext w).
  - destruct Ht as (H1 & H2 & H3).
    unfold times_ok, created_at, failed_at, creds_cached_at in *. simpl.
    split; [|split]; [| |done]; intros t' k' c; rewrite nested_get_pop;
      case_decide; try done; [apply H1 | apply H2].
  - by apply (locks_ok_ext w).
  - by apply (caches_ok_ext w).
Qed.

Lemma consistent_with_exit_stack w : consistent w → consistent (with_exit_stack w).
Proof.
  intros (Hr & Hs & Hq & Ht & Hl & Hc).
  unfold with_exit_stack, world_of, _ensure_exit_stack, bind, gets, modify, ret. simpl.
  destruct (_exit_stack (self w)) as [stack|] eqn:E; simpl.
  { by split_consistent. }
  split_consistent.
  - unfold registry_ok, registered, created_at in *. simpl.
    intros t k h Hh. destruct (Hr t k h Hh) as (_ & _ & (stack & Hst & _) & _).
    congruence.
  - unfold sessions_ok. simpl. intros stack [= <-]. split; [constructor|].
    intros h Hh. by apply elem_of_nil in Hh.
  - by apply (request_ok_ext w).
  - by apply (times_ok_ext w).
  - by apply (locks_ok_ext w).
  - by apply (caches_ok_ext w).
Qed.

(** Recording a failure keeps the invariants. *)
Lemma consistent_failure_recorded w w' t k :
  _tenant_connections (self w') = _tenant_connections (self w) →
  _tenant_tokens (self w') = _tenant_tokens (self w) →
  _connection_created_at (self w') = _connection_created_at (self w) →
  _exit_stack (self w') = _exit_stack (self w) →
  _request_global_mcp w' = _request_global_mcp w →
  _locks (self w') = _locks (self w) →
  _quickbooks_creds_cache (self w') = _quickbooks_creds_cache (self w) →
  _sheets_creds_cache (self w') = _sheets_creds_cache (self w) →
  _creds_cache_timestamps (self w') = _creds_cache_timestamps (self w) →
  _failed_connections (self w') = nested_set (_failed_connections (self w)) t k (clock w') →
  (next_obj w ≤ next_obj w')%nat →
  (clock w ≤ clock w')%Z →
  consistent w → consistent w'.
Proof.
  intros E1 E2 E3 E4 E5 E6 E7 E8 E9 E10 Hn Hk (Hr & Hs & Hq & Ht & Hl & Hc).
  split_consistent.
  - by apply (registry_ok_ext w).
  - by apply (sessions_ok_ext w).
  - by apply (request_ok_ext w).
  - destruct Ht as (H1 & H2 & H3).
    unfold times_ok, created_at, failed_at, creds_cached_at in *.
    rewrite E3, E9, E10. split; [|split].
    + intros t' k' c' Hc'. specialize (H1 t' k' c' Hc'). lia.
    + intros t' k' c'. rewrite nested_get_set. case_decide.
      * intros [= <-]. lia.
      * intros Hc'. specialize (H2 t' k' c' Hc'). lia.
    + intros t' k' c' Hc'. specialize (H3 t' k' c' Hc'). lia.
  - by apply (locks_ok_ext w).
  - by apply (caches_ok_ext w).
Qed.

(** A new session on the exit stack keeps the sessions distinct. *)
Lemma sessions_ok_push w w' stack s :
  _exit_stack (self w) = Some stack →
  _exit_stack (self w') = Some (s :: stack) →
  obj_id s = next_obj w →
  next_obj w' = S (next_obj w) →
  sessions_ok w → sessions_ok w'.
Proof.
  unfold sessions_ok. intros E E' Hid Hn H stack' Hs'.
  rewrite E' in Hs'. injection Hs' as <-.
  destruct (H stack E) as [Hnd Hlt]. split.
  - rewrite fmap_cons. apply NoDup_cons. split; [|done].
    intros Hin. apply list_elem_of_fmap in Hin as (h & Hh & Hin).
    specialize (Hlt h Hin). lia.
  - intros h Hh. apply elem_of_cons in Hh as [->|Hh]; [lia|].
    specialize (Hlt h Hh). lia.
Qed.

Lemma consistent_quickbooks_create env t c w :
  consistent w → consistent (world_of (quickbooks_create env t c w)).
Proof.
  pose proof (N2Z.is_nonneg (open_latency env)) as Hlat.
  intros Hw.
  unfold quickbooks_create, new_server, new_object, await_enter_async_context,
    _mark_connection_failed, try_except, bind, ret, gets, modify, now, world_of.
  simpl.
  destruct (client_open env _) as [e|] eqn:Hopen.
  { destruct e; simpl;
      (eapply (consistent_failure_recorded w); [reflexivity..| simpl; lia | simpl; lia | done]). }
  destruct (_exit_stack (self w)) as [stack|] eqn:E; simpl.
  2: { eapply (consistent_failure_recorded w);
         [reflexivity..| simpl; lia | simpl; lia | done]. }
  destruct Hw as (Hr & Hs & Hq & Ht & Hl & Hc).
  split_consistent.
  - unfold registry_ok, registered, created_at in *. simpl.
    intros t' k' h. rewrite !nested_get_set.
    destruct (decide (t = t' ∧ "quickbooks" = k')) as [[<- <-]|Hne].
    + intros [= <-]. simpl. rewrite lookup_insert_eq.
      split; [done|]. split; [done|]. split; [|split; [|eauto]].
      * eexists. split; [done|]. apply elem_of_cons. by left.
      * eexists. split; done.
    + intros Hh. destruct (Hr t' k' h Hh) as (-> & Hname & (st & Hst & Hin) & Htok & Hcr).
      assert (t ≠ t') as Hne' by (intros ->; tauto).
      rewrite lookup_insert_ne by done.
      split; [done|]. split; [done|]. split; [|done].
      rewrite E in Hst. injection Hst as <-.
      eexists. split; [done|]. apply elem_of_cons. by right.
  - by apply (sessions_ok_push w _ stack
               {| obj_id := next_obj w; name := "QB_MCP_" ++ t;
                  params_url := accounts_mcp_server env;
                  params_headers := quickbooks_headers c;
                  params_timeout := 8; max_retry_attempts := 1 |}).
  - apply (request_ok_ext w); [done| simpl; lia |done].
  - destruct Ht as (H1 & H2 & H3).
    unfold times_ok, created_at, failed_at, creds_cached_at in *. simpl.
    split; [|split].
    + intros t' k' c'. rewrite nested_get_set. case_decide.
      * intros [= <-]. lia.
      * intros Hc'. specialize (H1 t' k' c' Hc'). lia.
    + intros t' k' c' Hc'. specialize (H2 t' k' c' Hc'). lia.
    + intros t' k' c' Hc'. specialize (H3 t' k' c' Hc'). lia.
  - apply (locks_ok_ext w); [done| simpl; lia |done].
  - by apply (caches_ok_ext w).
Qed.

Lemma header_get_tenant_id t sheets_creds :
  header_get "x-tenant-id" (global_headers t sheets_creds) = Some t.
Proof. reflexivity. Qed.

Lemma consistent_global_create env t sheets_creds w :
  consistent w →
  consistent (world_of (global_create env t (global_headers t sheets_creds) w)).
Proof.
  pose proof (N2Z.is_nonneg (open_latency env)) as Hlat.
  intros Hw.
  unfold global_create, new_server, new_object, await_enter_async_context,
    _mark_connection_failed, try_except, bind, ret, gets, modify, now, world_of.
  simpl.
  destruct (client_open env _) as [e|] eqn:Hopen.
  { destruct e; simpl;
      (eapply (consistent_failure_recorded w); [reflexivity..| simpl; lia | simpl; lia | done]). }
  destruct (_exit_stack (self w)) as [stack|] eqn:E; simpl.
  2: { eapply (consistent_failure_recorded w);
         [reflexivity..| simpl; lia | simpl; lia | done]. }
  destruct Hw as (Hr & Hs & Hq & Ht & Hl & Hc).
  rewrite request_cache_write.
  split_consistent.
  - unfold registry_ok, registered, created_at in *. simpl.
    intros t' k' h Hh.
    destruct (Hr t' k' h Hh) as (-> & Hname & (st & Hst & Hin) & Htok & Hcr).
    split; [done|]. split; [done|]. split; [|done].
    rewrite E in Hst. injection Hst as <-.
    eexists. split; [done|]. apply elem_of_cons. by right.
  - by apply (sessions_ok_push w _ stack
               {| obj_id := next_obj w; name := "Global_Port8001_" ++ t;
                  params_url := global_mcp_server env;
                  params_headers := global_headers t sheets_creds;
                  params_timeout := 5; max_retry_attempts := 0 |}).
  - unfold request_ok in *. simpl. intros t' h. rewrite lookup_insert.
    destruct (decide (t = t')) as [<-|Hne].
    + intros [= <-]. simpl. split; [done|]. split; [reflexivity|lia].
    + intros Hh. destruct (Hq t' h Hh) as (? & ? & ?). repeat split; [done..|lia].
  - apply (times_ok_ext w); try done. simpl. lia.
  - apply (locks_ok_ext w); [done| simpl; lia |done].
  - by apply (caches_ok_ext w).
Qed.

(** ** Every call keeps the invariants *)

Lemma consistent_get_quickbooks_mcp env t w :
  consistent w → consistent (world_of (get_quickbooks_mcp env t w)).
Proof.
  intros Hw. rewrite get_quickbooks_mcp_run.
  pose proof (consistent_quickbooks_credentials env t _ (consistent_locked t w Hw)) as H1.
  destruct (quickbooks_credentials env t (locked t w)) as [[[c|]|e] w1];
    unfold world_of in H1; simpl in H1; [|done..].
  rewrite quickbooks_connect_run. simpl.
  set (w2 := if quickbooks_rebuild c t w1 then invalidated t "quickbooks" w1 else w1).
  assert (consistent w2) as H2.
  { subst w2. destruct (quickbooks_rebuild c t w1); [by apply consistent_invalidated|done]. }
  destruct (registered w2 t "quickbooks"); [done|].
  destruct (failure_expired w2 t "quickbooks"); [|done].
  by apply consistent_quickbooks_create, consistent_with_exit_stack.
Qed.

Lemma consistent_get_global_mcp env t w :
  consistent w → consistent (world_of (get_global_mcp env t w)).
Proof.
  intros Hw. rewrite get_global_mcp_run.
  destruct (_request_global_mcp w !! t); [done|].
  rewrite global_connect_run.
  destruct (_request_global_mcp (locked t w) !! t); [by apply consistent_locked|].
  pose proof (consistent_sheets_credentials env t _ (consistent_locked t w Hw)) as H1.
  destruct (_get_google_sheets_credentials env t (locked t w)) as [[sheets_creds|e] w1];
    unfold world_of in H1; simpl in H1; [|done].
  destruct (failure_expired w1 t "global"); [|done].
  by apply consistent_global_create, consistent_with_exit_stack.
Qed.

Lemma consistent_handle_connection_error t k error w :
  consistent w → consistent (world_of (handle_connection_error t k error w)).
Proof. intros Hw. destruct error; by apply consistent_invalidated. Qed.

Lemma consistent_invalidate_tenant t w :
  consistent w → consistent (world_of (invalidate_tenant t w)).
Proof.
  intros Hw. unfold invalidate_tenant. unfold bind at 1.
  destruct (get_tenant_lock_run t w) as [lock ->].
  apply consistent_locked with (t := t) in Hw. revert Hw.
  generalize (locked t w). clear w. intros w (Hr & Hs & Hq & Ht & Hl & Hc).
  unfold bind, modify, world_of. simpl.
  split_consistent.
  - unfold registry_ok, registered, created_at, nested_get in *. simpl.
    intros t' k h. destruct (decide (t = t')) as [<-|Hne].
    + by rewrite lookup_delete_eq.
    + rewrite !lookup_delete_ne by done. apply Hr.
  - by apply (sessions_ok_ext w).
  - by apply (request_ok_ext w).
  - destruct Ht as (H1 & H2 & H3).
    unfold times_ok, created_at, failed_at, creds_cached_at, nested_get in *. simpl.
    split; [|split]; intros t' k c; (destruct (decide (t = t')) as [<-|Hne];
      [by rewrite lookup_delete_eq | rewrite lookup_delete_ne by done]);
      [apply H1 | apply H2 | apply H3].
  - by apply (locks_ok_ext w).
  - destruct Hc as (H1 & H2).
    unfold caches_ok, creds_cached_at, nested_get in *. simpl.
    split; intros t' v; (destruct (decide (t = t')) as [<-|Hne];
      [by rewrite lookup_delete_eq | rewrite !lookup_delete_ne by done]);
      [apply H1 | apply H2].
Qed.

Lemma cleanup_frame env w :
  let w' := world_of (cleanup env w) in
  _exit_stack (self w') = None ∧
  _tenant_connections (self w') = ∅ ∧
  _locks (self w') = ∅ ∧
  _connection_created_at (self w') = _connection_created_at (self w) ∧
  _failed_connections (self w') = _failed_connections (self w) ∧
  _quickbooks_creds_cache (self w') = _quickbooks_creds_cache (self w) ∧
  _sheets_creds_cache (self w') = _sheets_creds_cache (self w) ∧
  _creds_cache_timestamps (self w') = _creds_cache_timestamps (self w) ∧
  _request_global_mcp w' = _request_global_mcp w ∧
  next_obj w' = next_obj w ∧
  clock w' = clock w.
Proof.
  unfold cleanup, try_finally, try_except, await_aexit, bind, gets, modify, ret, world_of.
  simpl.
  destruct (_exit_stack (self w)) as [sessions|]; simpl.
  - destruct (exit_stack_aexit env) as [[| |]|]; simpl; repeat split.
  - repeat split.
Qed.

Lemma consistent_cleanup env w : consistent w → consistent (world_of (cleanup env w)).
Proof.
  intros (Hr & Hs & Hq & Ht & Hl & Hc).
  assert (∀ w', _exit_stack (self w') = None →
                _tenant_connections (self w') = ∅ →
                _locks (self w') = ∅ →
                _connection_created_at (self w') = _connection_created_at (self w) →
                _failed_connections (self w') = _failed_connections (self w) →
                _quickbooks_creds_cache (self w') = _quickbooks_creds_cache (self w) →
                _sheets_creds_cache (self w') = _sheets_creds_cache (self w) →
                _creds_cache_timestamps (self w') = _creds_cache_timestamps (self w) →
                _request_global_mcp w' = _request_global_mcp w →
                next_obj w' = next_obj w → clock w' = clock w →
                consistent w') as Hgen.
  { intros w' E1 E2 E3 E4 E5 E6 E7 E8 E9 E10 E11. split_consistent.
    - unfold registry_ok, registered. rewrite E2. intros t k h.
      by rewrite nested_get_empty.
    - unfold sessions_ok. rewrite E1. done.
    - apply (request_ok_ext w); [done|lia|done].
    - apply (times_ok_ext w); try done. lia.
    - unfold locks_ok. rewrite E3. split; intros *; by rewrite lookup_empty.
    - by apply (caches_ok_ext w). }
  destruct (cleanup_frame env w)
    as (E1 & E2 & E3 & E4 & E5 & E6 & E7 & E8 & E9 & E10 & E11).
  by apply Hgen.
Qed.

Lemma consistent_perform c w : consistent w → consistent (perform c w).
Proof.
  destruct c; simpl.
  - apply consistent_get_quickbooks_mcp.
  - apply consistent_get_global_mcp.
  - apply consistent_invalidate_tenant.
  - apply consistent_handle_connection_error.
  - apply consistent_cleanup.
  - apply consistent_clear_request.
  - apply consistent_elapse.
Qed.

Lemma run_app cs1 cs2 w : run (cs1 ++ cs2) w = run cs2 (run cs1 w).
Proof. apply fold_left_app. Qed.

Lemma consistent_run cs w : consistent w → consistent (run cs w).
Proof.
  revert w. induction cs as [|c cs IH]; intros w Hw; [done|].
  simpl. by apply IH, consistent_perform.
Qed.

Lemma consistent_reachable cs t0 : consistent (run cs (initial_world t0)).
Proof. apply consistent_run, consistent_initial. Qed.

(** ** What holds after every history *)

(** After any sequence of calls, a handle found in the registry is a
    QuickBooks server that the exit stack holds: the registry never keeps
    a session that shutdown has closed, and nothing is ever registered
    under another connection type. *)
Theorem registered_handles_are_open_sessions cs t0 t k h :
  registered (run cs (initial_world t0)) t k = Some h →
  k = "quickbooks" ∧
  ∃ stack, _exit_stack (self (run cs (initial_world t0))) = Some stack ∧ h ∈ stack.
Proof.
  intros Hh. destruct (consistent_reachable cs t0) as (Hr & _).
  destruct (Hr t k h Hh) as (? & _ & ? & _). done.
Qed.

(** After any sequence of calls, the handle registered for a tenant was
    opened for that tenant with the access token the manager has on record
    for it, and it has a creation time that is not in the future. *)
Theorem registered_handle_carries_recorded_token cs t0 t k h :
  registered (run cs (initial_world t0)) t k = Some h →
  name h = "QB_MCP_" ++ t ∧
  (∃ tok, _tenant_tokens (self (run cs (initial_world t0))) !! t = Some tok ∧
          header_get "Authorization" (params_headers h) = Some ("Bearer " ++ tok)) ∧
  (∃ created, created_at (run cs (initial_world t0)) t k = Some created ∧
              (created ≤ clock (run cs (initial_world t0)))%Z).
Proof.
  intros Hh. destruct (consistent_reachable cs t0) as (Hr & _ & _ & (Ht & _) & _).
  destruct (Hr t k h Hh) as (_ & Hname & _ & Htok & [created Hcr]).
  split; [done|]. split; [done|]. exists created. split; [done|]. by apply (Ht t k).
Qed.

Lemma NoDup_fmap_eq {A B} (f : A → B) (l : list A) x y :
  NoDup (f <$> l) → x ∈ l → y ∈ l → f x = f y → x = y.
Proof.
  induction l as [|a l IH]; intros Hnd Hx Hy Hf.
  - by apply elem_of_nil in Hx.
  - rewrite fmap_cons in Hnd. apply NoDup_cons in Hnd as [Hnotin Hnd].
    apply elem_of_cons in Hx as [->|Hx]; apply elem_of_cons in Hy as [->|Hy].
    + done.
    + exfalso. apply Hnotin. rewrite Hf. by apply list_elem_of_fmap_2.
    + exfalso. apply Hnotin. rewrite <- Hf. by apply list_elem_of_fmap_2.
    + by apply IH.
Qed.

(** After any sequence of calls, the handles registered for two different
    tenants are different objects. *)
Theorem tenants_never_share_a_handle cs t0 t1 t2 k1 k2 h1 h2 :
  t1 ≠ t2 →
  registered (run cs (initial_world t0)) t1 k1 = Some h1 →
  registered (run cs (initial_world t0)) t2 k2 = Some h2 →
  obj_id h1 ≠ obj_id h2.
Proof.
  intros Hne H1 H2 Hid.
  destruct (consistent_reachable cs t0) as (Hr & Hs & _).
  destruct (Hr t1 k1 h1 H1) as (_ & Hn1 & (st1 & Hst1 & Hin1) & _).
  destruct (Hr t2 k2 h2 H2) as (_ & Hn2 & (st2 & Hst2 & Hin2) & _).
  rewrite Hst1 in Hst2. injection Hst2 as <-.
  destruct (Hs st1 Hst1) as [Hnd _].
  assert (h1 = h2) as <- by (by apply (NoDup_fmap_eq obj_id st1)).
  rewrite Hn1 in Hn2. by apply (String.app_inj "QB_MCP_") in Hn2.
Qed.

(** After any sequence of calls, two different tenants have two different
    lock objects. *)
Theorem tenant_locks_are_distinct cs t0 t1 t2 l1 l2 :
  t1 ≠ t2 →
  _locks (self (run cs (initial_world t0))) !! t1 = Some l1 →
  _locks (self (run cs (initial_world t0))) !! t2 = Some l2 →
  l1 ≠ l2.
Proof.
  intros Hne H1 H2 <-.
  destruct (consistent_reachable cs t0) as (_ & _ & _ & _ & (_ & Hinj) & _).
  by apply Hne, (Hinj t1 t2 l1).
Qed.

(** After any sequence of calls, the global handle kept for a tenant in
    the request-scoped dictionary was opened for that tenant: its name and
    its [x-tenant-id] header carry that tenant's id. *)
Theorem request_scoped_handle_is_for_tenant cs t0 t h :
  _request_global_mcp (run cs (initial_world t0)) !! t = Some h →
  name h = "Global_Port8001_" ++ t ∧
  header_get "x-tenant-id" (params_headers h) = Some t.
Proof.
  intros Hh. destruct (consistent_reachable cs t0) as (_ & _ & Hq & _).
  destruct (Hq t h Hh) as (? & ? & _). done.
Qed.

(** After any sequence of calls, every cached credential entry has a
    stamp, and the QuickBooks cache never holds a "no credentials"
    entry. *)
Theorem cached_credentials_are_stamped cs t0 t :
  (∀ v, _quickbooks_creds_cache (self (run cs (initial_world t0))) !! t = Some v →
        v ≠ None ∧ is_Some (creds_cached_at (run cs (initial_world t0)) t "quickbooks")) ∧
  (∀ v, _sheets_creds_cache (self (run cs (initial_world t0))) !! t = Some v →
        is_Some (creds_cached_at (run cs (initial_world t0)) t "sheets")).
Proof.
  destruct (consistent_reachable cs t0) as (_ & _ & _ & _ & _ & (H1 & H2)).
  split; intros v Hv; [by apply H1 | by apply (H2 t v)].
Qed.

(** ** Creation times and the registry *)

Lemma times_registered_ext w w' :
  _tenant_connections (self w') = _tenant_connections (self w) →
  _connection_created_at (self w') = _connection_created_at (self w) →
  times_registered w → times_registered w'.
Proof. unfold times_registered, registered, created_at. intros -> ->. done. Qed.

Lemma times_registered_bookkeeping w w' :
  same_bookkeeping w w' → times_registered w → times_registered w'.
Proof. intros (E1 & _ & E2 & _). by apply times_registered_ext. Qed.

Lemma times_registered_invalidated t k w :
  times_registered w → times_registered (invalidated t k w).
Proof.
  unfold times_registered, registered, created_at. simpl.
  intros H t' k' c. rewrite !nested_get_pop. case_decide; [done|]. apply H.
Qed.

Lemma times_registered_quickbooks_create env t c w :
  _exit_stack (self w) ≠ None →
  times_registered w → times_registered (world_of (quickbooks_create env t c w)).
Proof.
  intros Hstack H.
  pose proof (quickbooks_create_spec env t c w Hstack) as Hspec. simpl in Hspec.
  destruct Hspec as (_ & _ & _ & Hspec).
  destruct (result_of (quickbooks_create env t c w)) as [[s|]|e]; [| |done].
  - destruct Hspec as (_ & _ & E1 & _ & E2 & _).
    unfold times_registered, registered, created_at in *. rewrite E1, E2.
    intros t' k' c'. rewrite !nested_get_set. case_decide; [eauto|]. apply H.
  - destruct Hspec as (_ & E1 & _ & E2 & _). by apply (times_registered_ext w).
Qed.

Lemma times_registered_get_quickbooks_mcp env t w :
  times_registered w → times_registered (world_of (get_quickbooks_mcp env t w)).
Proof.
  intros Hw. rewrite get_quickbooks_mcp_run.
  destruct (locked_frame t w) as (Hb & _).
  destruct (quickbooks_credentials_frame env t (locked t w)) as (Hb' & _).
  apply (times_registered_bookkeeping _ _ Hb) in Hw.
  apply (times_registered_bookkeeping _ _ Hb') in Hw.
  destruct (quickbooks_credentials env t (locked t w)) as [[[c|]|e] w1];
    unfold world_of in Hw; simpl in Hw; [|done..].
  rewrite quickbooks_connect_run. simpl.
  set (w2 := if quickbooks_rebuild c t w1 then invalidated t "quickbooks" w1 else w1).
  assert (times_registered w2) as H2.
  { subst w2. destruct (quickbooks_rebuild c t w1); [by apply times_registered_invalidated|done]. }
  destruct (registered w2 t "quickbooks"); [done|].
  destruct (failure_expired w2 t "quickbooks"); [|done].
  destruct (with_exit_stack_frame w2) as (Hs & E1 & _ & E2 & _).
  apply times_registered_quickbooks_create; [done|].
  by apply (times_registered_ext w2).
Qed.

Lemma times_registered_get_global_mcp env t w :
  times_registered w → times_registered (world_of (get_global_mcp env t w)).
Proof.
  intros Hw. rewrite get_global_mcp_run.
  destruct (_request_global_mcp w !! t); [done|].
  rewrite global_connect_run.
  destruct (locked_frame t w) as (Hb & _).
  apply (times_registered_bookkeeping _ _ Hb) in Hw.
  destruct (_request_global_mcp (locked t w) !! t); [done|].
  destruct (sheets_credentials_frame env t (locked t w)) as (Hb' & _).
  apply (times_registered_bookkeeping _ _ Hb') in Hw.
  destruct (_get_google_sheets_credentials env t (locked t w)) as [[sheets_creds|e] w1];
    unfold world_of in Hw; simpl in Hw; [|done].
  destruct (failure_expired w1 t "global"); [|done].
  pose proof (global_attempt_spec env t (global_headers t sheets_creds) w1) as H.
  simpl in H. destruct H as (_ & _ & E1 & _ & E2 & _).
  by apply (times_registered_ext w1).
Qed.

Lemma times_registered_invalidate_tenant t w :
  times_registered w → times_registered (world_of (invalidate_tenant t w)).
Proof.
  intros Hw. unfold invalidate_tenant. unfold bind at 1.
  destruct (get_tenant_lock_run t w) as [lock ->].
  destruct (locked_frame t w) as (Hb & _).
  apply (times_registered_bookkeeping _ _ Hb) in Hw. revert Hw.
  generalize (locked t w). clear w Hb. intros w H.
  unfold bind, modify, world_of, times_registered, registered, created_at, nested_get in *.
  simpl. intros t' k c. destruct (decide (t = t')) as [<-|Hne].
  - by rewrite lookup_delete_eq.
  - rewrite !lookup_delete_ne by done. apply H.
Qed.

Lemma times_registered_perform c w :
  is_cleanup c = false → times_registered w → times_registered (perform c w).
Proof.
  destruct c; simpl; intros Hc; try discriminate.
  - apply times_registered_get_quickbooks_mcp.
  - apply times_registered_get_global_mcp.
  - apply times_registered_invalidate_tenant.
  - destruct error; apply times_registered_invalidated.
  - by apply times_registered_ext.
  - by apply times_registered_ext.
Qed.

Lemma times_registered_run cs w :
  forallb (λ c, negb (is_cleanup c)) cs = true →
  times_registered w → times_registered (run cs w).
Proof.
  revert w. induction cs as [|c cs IH]; intros w Hcs Hw; [done|].
  simpl in Hcs. apply andb_true_iff in Hcs as [Hc Hcs].
  simpl. apply IH; [done|]. apply times_registered_perform; [|done].
  by destruct (is_cleanup c).
Qed.

(** In a process that has not been shut down, STEP 4.5 of
    [get_quickbooks_mcp] never applies: whenever the call has credentials
    and returns [None], it has asked the client to open a connection,
    however recent the last recorded failure is. *)
Theorem quickbooks_none_only_after_open_attempt cs t0 env t creds :
  forallb (λ c, negb (is_cleanup c)) cs = true →
  result_of (quickbooks_credentials env t (run cs (initial_world t0))) = Returned (Some creds) →
  result_of (get_quickbooks_mcp env t (run cs (initial_world t0))) = Returned None →
  open_calls (world_of (get_quickbooks_mcp env t (run cs (initial_world t0)))) =
    S (open_calls (run cs (initial_world t0))).
Proof.
  intros Hcs Hcreds.
  assert (times_registered (run cs (initial_world t0))) as Hw.
  { apply times_registered_run; [done|].
    unfold times_registered, created_at. simpl. intros t' k c.
    by rewrite nested_get_empty. }
  revert Hw. generalize (run cs (initial_world t0)) Hcreds. clear. intros w Hcreds Hw.
  destruct (get_quickbooks_mcp_with_credentials env t w creds Hcreds)
    as (w1 & -> & Hb & _).
  apply (times_registered_bookkeeping _ _ Hb) in Hw.
  assert (open_calls w1 = open_calls w) as <- by apply Hb.
  destruct (quickbooks_rebuild creds t w1) eqn:Hrebuild.
  - intros _. by destruct (quickbooks_connect_rebuild env t creds w1 Hrebuild) as (? & _).
  - unfold quickbooks_rebuild in Hrebuild. apply orb_false_elim in Hrebuild as [Htok Hst].
    unfold connection_stale in Hst.
    destruct (created_at w1 t "quickbooks") as [c|] eqn:Hc; [|done].
    destruct (Hw t "quickbooks" c Hc) as [h Hh].
    rewrite (quickbooks_connect_reuse env t creds w1 h); [discriminate| |done].
    unfold quickbooks_rebuild, connection_stale. by rewrite Htok, Hc, Hst.
Qed.

(** ** Tenant isolation *)

Ltac solve_same_for_tenant :=
  unfold same_for_tenant, registered, created_at, failed_at, creds_cached_at; simpl;
  repeat split; intros;
  rewrite ?nested_get_set_ne, ?nested_get_pop_ne, ?lookup_insert_ne by auto;
  done.

Lemma same_for_tenant_refl t' w : same_for_tenant t' w w.
Proof. by unfold same_for_tenant. Qed.

Lemma same_for_tenant_trans t' w1 w2 w3 :
  same_for_tenant t' w1 w2 → same_for_tenant t' w2 w3 → same_for_tenant t' w1 w3.
Proof.
  unfold same_for_tenant.
  intros (A1 & A2 & A3 & A4 & A5 & A6 & A7 & A8 & A9) (B1 & B2 & B3 & B4 & B5 & B6 & B7 & B8 & B9).
  repeat split; intros; congruence.
Qed.

Lemma same_for_tenant_locked t t' w : t ≠ t' → same_for_tenant t' w (locked t w).
Proof.
  intros Hne. unfold locked, world_of, _get_tenant_lock, new_object, bind, gets, modify, ret.
  simpl. destruct (_locks (self w) !! t); solve_same_for_tenant.
Qed.

Lemma same_for_tenant_quickbooks_credentials env t t' w :
  t ≠ t' → same_for_tenant t' w (world_of (quickbooks_credentials env t w)).
Proof.
  intros Hne. rewrite quickbooks_credentials_run.
  destruct (quickbooks_cache_hit w t); [apply same_for_tenant_refl|].
  unfold quickbooks_fetch_and_cache, await_get_quickbooks_credentials,
    bind, gets, modify, now, ret, world_of. simpl.
  destruct (get_quickbooks_credentials env t) as [[c|]|e]; solve_same_for_tenant.
Qed.

Lemma same_for_tenant_sheets_credentials env t t' w :
  t ≠ t' → same_for_tenant t' w (world_of (_get_google_sheets_credentials env t w)).
Proof.
  intros Hne. rewrite sheets_credentials_run.
  destruct (sheets_cache_hit w t); [apply same_for_tenant_refl|].
  unfold sheets_fetch_and_cache, await_select_google_sheets_connection,
    bind, gets, modify, now, ret, world_of. simpl.
  destruct (select_google_sheets_connection env t) as [connection|e]; solve_same_for_tenant.
Qed.

Lemma same_for_tenant_invalidated t k t' w :
  t ≠ t' → same_for_tenant t' w (invalidated t k w).
Proof. intros Hne. solve_same_for_tenant. Qed.

Lemma same_for_tenant_with_exit_stack t' w : same_for_tenant t' w (with_exit_stack w).
Proof.
  unfold with_exit_stack, world_of, _ensure_exit_stack, bind, gets, modify, ret. simpl.
  destruct (_exit_stack (self w)); solve_same_for_tenant.
Qed.

Lemma same_for_tenant_quickbooks_create env t c t' w :
  t ≠ t' → same_for_tenant t' w (world_of (quickbooks_create env t c w)).
Proof.
  intros Hne.
  unfold quickbooks_create, new_server, new_object, await_enter_async_context,
    _mark_connection_failed, try_except, bind, ret, gets, modify, now, world_of.
  simpl.
  destruct (client_open env _) as [e|]; [destruct e; solve_same_for_tenant|].
  destruct (_exit_stack (self w)); solve_same_for_tenant.
Qed.

Lemma same_for_tenant_global_create env t headers t' w :
  t ≠ t' → same_for_tenant t' w (world_of (global_create env t headers w)).
Proof.
  intros Hne.
  unfold global_create, new_server, new_object, await_enter_async_context,
    _mark_connection_failed, try_except, bind, ret, gets, modify, now, world_of.
  simpl.
  destruct (client_open env _) as [e|]; [destruct e; solve_same_for_tenant|].
  destruct (_exit_stack (self w)); simpl; rewrite ?request_cache_write; solve_same_for_tenant.
Qed.

Lemma same_for_tenant_invalidate_tenant t t' w :
  t ≠ t' → same_for_tenant t' w (world_of (invalidate_tenant t w)).
Proof.
  intros Hne. unfold invalidate_tenant. unfold bind at 1.
  destruct (get_tenant_lock_run t w) as [lock ->].
  eapply same_for_tenant_trans; [by apply (same_for_tenant_locked t)|].
  generalize (locked t w). clear w. intros w.
  unfold same_for_tenant, registered, created_at, failed_at, creds_cached_at, nested_get,
    bind, modify, world_of. simpl.
  repeat split; intros; by rewrite ?lookup_delete_ne by done.
Qed.

(** A call made for one tenant leaves every entry of every other tenant
    as it was: its registered handle, creation time, failure record,
    recorded token, cached credentials and their stamps, its lock and its
    request-scoped handle.  This holds for [get_quickbooks_mcp],
    [get_global_mcp], [invalidate_tenant] and [handle_connection_error]. *)
Theorem calls_leave_other_tenants_untouched env t t' k error w :
  t ≠ t' →
  same_for_tenant t' w (world_of (get_quickbooks_mcp env t w)) ∧
  same_for_tenant t' w (world_of (get_global_mcp env t w)) ∧
  same_for_tenant t' w (world_of (invalidate_tenant t w)) ∧
  same_for_tenant t' w (world_of (handle_connection_error t k error w)).
Proof.
  intros Hne. split; [|split; [|split]].
  - rewrite get_quickbooks_mcp_run.
    pose proof (same_for_tenant_locked t t' w Hne) as H1.
    pose proof (same_for_tenant_quickbooks_credentials env t t' (locked t w) Hne) as H2.
    pose proof (same_for_tenant_trans _ _ _ _ H1 H2) as H. clear H1 H2.
    destruct (quickbooks_credentials env t (locked t w)) as [[[c|]|e] w1];
      unfold world_of in H; simpl in H; [|done..].
    rewrite quickbooks_connect_run. simpl.
    set (w2 := if quickbooks_rebuild c t w1 then invalidated t "quickbooks" w1 else w1).
    assert (same_for_tenant t' w w2) as H2.
    { subst w2. destruct (quickbooks_rebuild c t w1); [|done].
      eapply same_for_tenant_trans; [done|]. by apply same_for_tenant_invalidated. }
    destruct (registered w2 t "quickbooks"); [done|].
    destruct (failure_expired w2 t "quickbooks"); [|done].
    eapply same_for_tenant_trans; [done|].
    eapply same_for_tenant_trans; [apply same_for_tenant_with_exit_stack|].
    by apply same_for_tenant_quickbooks_create.
  - rewrite get_global_mcp_run.
    destruct (_request_global_mcp w !! t); [apply same_for_tenant_refl|].
    rewrite global_connect_run.
    pose proof (same_for_tenant_locked t t' w Hne) as H1.
    destruct (_request_global_mcp (locked t w) !! t); [done|].
    pose proof (same_for_tenant_sheets_credentials env t t' (locked t w) Hne) as H2.
    pose proof (same_for_tenant_trans _ _ _ _ H1 H2) as H. clear H1 H2.
    destruct (_get_google_sheets_credentials env t (locked t w)) as [[sheets_creds|e] w1];
      unfold world_of in H; simpl in H; [|done].
    destruct (failure_expired w1 t "global"); [|done].
    eapply same_for_tenant_trans; [done|].
    eapply same_for_tenant_trans; [apply same_for_tenant_with_exit_stack|].
    by apply same_for_tenant_global_create.
  - by apply same_for_tenant_invalidate_tenant.
  - destruct error; by apply same_for_tenant_invalidated.
Qed.

(** ** Exceptions *)

Lemma sheets_credentials_result_ext env t w1 w2 :
  _sheets_creds_cache (self w1) = _sheets_creds_cache (self w2) →
  _creds_cache_timestamps (self w1) = _creds_cache_timestamps (self w2) →
  clock w1 = clock w2 →
  sheets_cache_hit w1 t = sheets_cache_hit w2 t ∧
  result_of (_get_google_sheets_credentials env t w1) =
    result_of (_get_google_sheets_credentials env t w2).
Proof.
  intros Hc Ht Hk.
  assert (sheets_cache_hit w1 t = sheets_cache_hit w2 t) as Hhit.
  { unfold sheets_cache_hit, creds_cache_stale, creds_cached_at. by rewrite Hc, Ht, Hk. }
  split; [done|]. rewrite !sheets_credentials_run, Hhit.
  destruct (sheets_cache_hit w2 t); [done|].
  destruct (sheets_fetch_and_cache_spec env t w1) as (_ & _ & _ & _ & _ & H1).
  destruct (sheets_fetch_and_cache_spec env t w2) as (_ & _ & _ & _ & _ & H2).
  destruct (select_google_sheets_connection env t);
    destruct H1 as (-> & _); by destruct H2 as (-> & _).
Qed.

Lemma quickbooks_connect_returns_normally env t c w :
  ∃ res, result_of (quickbooks_connect env t c w) = Returned res.
Proof.
  destruct (quickbooks_connect_cases env t c w) as [[_ H]|(w2 & -> & Hreg & _)]; [done|].
  pose proof (quickbooks_attempt_spec env t c w2 Hreg) as H. simpl in H.
  destruct H as (_ & _ & _ & H).
  destruct (result_of _) as [res|e]; [eauto|done].
Qed.

Lemma quickbooks_create_store_calls env t c w :
  store_calls (world_of (quickbooks_create env t c w)) = store_calls w.
Proof.
  unfold quickbooks_create, new_server, new_object, await_enter_async_context,
    _mark_connection_failed, try_except, bind, ret, gets, modify, now, world_of, store_calls.
  simpl.
  destruct (client_open env _) as [e|].
  - destruct e; simpl; rewrite List.filter_app, length_app; simpl; lia.
  - destruct (_exit_stack (self w)); simpl; rewrite List.filter_app, length_app; simpl; lia.
Qed.

Lemma global_create_store_calls env t headers w :
  store_calls (world_of (global_create env t headers w)) = store_calls w.
Proof.
  unfold global_create, new_server, new_object, await_enter_async_context,
    _mark_connection_failed, try_except, bind, ret, gets, modify, now, world_of, store_calls.
  simpl.
  destruct (client_open env _) as [e|].
  - destruct e; simpl; rewrite List.filter_app, length_app; simpl; lia.
  - destruct (_exit_stack (self w)); simpl; rewrite List.filter_app, length_app; simpl; lia.
Qed.

Lemma quickbooks_connect_store_calls env t c w :
  store_calls (world_of (quickbooks_connect env t c w)) = store_calls w.
Proof.
  rewrite quickbooks_connect_run. simpl.
  set (w1 := if quickbooks_rebuild c t w then invalidated t "quickbooks" w else w).
  assert (store_calls w1 = store_calls w) as <-.
  { subst w1. by destruct (quickbooks_rebuild c t w). }
  destruct (registered w1 t "quickbooks"); [done|].
  destruct (failure_expired w1 t "quickbooks"); [|done].
  rewrite quickbooks_create_store_calls. apply store_calls_calls, with_exit_stack_frame.
Qed.

Lemma global_attempt_store_calls env t sheets_creds w :
  store_calls
    (world_of (if failure_expired w t "global"
               then global_create env t (global_headers t sheets_creds) (with_exit_stack w)
               else (Returned None, w))) = store_calls w.
Proof.
  destruct (failure_expired w t "global"); [|done].
  rewrite global_create_store_calls. apply store_calls_calls, with_exit_stack_frame.
Qed.

(** An exception of the credential store is not caught, because the store
    is queried outside the [try] blocks: when [get_quickbooks_mcp] or
    [get_global_mcp] has queried the store and the store raised [e], the
    call raises [e]; the client has not been asked to open anything, no
    failure is recorded and the connection bookkeeping is as before. *)
Theorem store_exception_propagates env t w e :
  (get_quickbooks_credentials env t = Raised e →
   let r := get_quickbooks_mcp env t w in
   store_calls (world_of r) ≠ store_calls w →
   result_of r = Raised e ∧
   open_calls (world_of r) = open_calls w ∧
   same_bookkeeping w (world_of r)) ∧
  (select_google_sheets_connection env t = Raised e →
   let r := get_global_mcp env t w in
   store_calls (world_of r) ≠ store_calls w →
   result_of r = Raised e ∧
   open_calls (world_of r) = open_calls w ∧
   same_bookkeeping w (world_of r)).
Proof.
  split.
  - intros Hstore. simpl. rewrite get_quickbooks_mcp_run.
    destruct (locked_frame t w) as (Hb & _ & _ & _ & _ & Hcalls & _).
    pose proof (store_calls_calls _ _ Hcalls) as Hsc.
    rewrite quickbooks_credentials_run.
    destruct (quickbooks_cache_hit (locked t w) t) as [[c|]|].
    + rewrite quickbooks_connect_store_calls. congruence.
    + unfold world_of. simpl. congruence.
    + destruct (quickbooks_fetch_and_cache_spec env t (locked t w))
        as (Hres & _ & _ & _ & Hb' & _).
      rewrite Hstore in Hres.
      destruct (quickbooks_fetch_and_cache env t (locked t w)) as [r0 w1].
      unfold result_of, world_of in *. simpl in *. subst r0. simpl.
      intros _. split; [done|].
      assert (same_bookkeeping w w1) as Hbk
        by (unfold same_bookkeeping in *; intuition congruence).
      split; [apply Hbk|exact Hbk].
  - intros Hstore. simpl.
    destruct (_request_global_mcp w !! t) as [h|] eqn:Hreq.
    { rewrite (get_global_mcp_request_hit env t w h Hreq). unfold world_of. simpl. done. }
    destruct (get_global_mcp_request_miss env t w Hreq) as (sheets & w1 & Hs & Hb & _ & _ & ->).
    destruct (locked_frame t w) as (_ & _ & _ & _ & _ & Hcalls & _).
    pose proof (store_calls_calls _ _ Hcalls) as Hsc.
    rewrite sheets_credentials_run in Hs.
    destruct (sheets_cache_hit (locked t w) t) as [cached|].
    + injection Hs as <- <-. rewrite global_attempt_store_calls. congruence.
    + destruct (sheets_fetch_and_cache_spec env t (locked t w)) as (_ & _ & _ & Hb' & _ & H).
      rewrite Hstore in H. destruct H as (Hres & _).
      rewrite Hs in Hres. unfold result_of in Hres. simpl in Hres. subst sheets.
      unfold result_of, world_of. simpl. intros _. split; [done|].
      split; [apply Hb|exact Hb].
Qed.

(** ** Staleness *)

(** A QuickBooks connection created more than 30 minutes ago is not
    reused: with credentials at hand the call asks the client to open a
    new connection; on success a new object is registered with the current
    time, on failure nothing is registered and the failure is recorded. *)
Theorem stale_connection_is_rebuilt env t w created creds :
  created_at w t "quickbooks" = Some created →
  (_max_connection_age < clock w - created)%Z →
  result_of (quickbooks_credentials env t w) = Returned (Some creds) →
  let r := get_quickbooks_mcp env t w in
  let w' := world_of r in
  open_calls w' = S (open_calls w) ∧
  match result_of r with
  | Returned (Some h') =>
      (next_obj w ≤ obj_id h')%nat ∧
      registered w' t "quickbooks" = Some h' ∧
      created_at w' t "quickbooks" = Some (clock w')
  | Returned None =>
      registered w' t "quickbooks" = None ∧
      failed_at w' t "quickbooks" = Some (clock w')
  | Raised _ => False
  end.
Proof.
  intros Hcreated Hage Hcreds.
  destruct (get_quickbooks_mcp_with_credentials env t w creds Hcreds)
    as (w1 & Hrun & Hb & Hn & Hk).
  simpl. rewrite Hrun.
  assert (quickbooks_rebuild creds t w1 = true) as Hrebuild.
  { unfold quickbooks_rebuild, connection_stale, created_at in *.
    destruct Hb as (_ & _ & -> & _). rewrite Hcreated.
    apply orb_true_iff. right. apply Z.ltb_lt. lia. }
  pose proof (quickbooks_connect_rebuild env t creds w1 Hrebuild) as H.
  simpl in H. destruct H as (Ho & _ & _ & H).
  assert (open_calls w1 = open_calls w) as Ho1 by apply Hb.
  rewrite Ho, Ho1. split; [done|].
  destruct (result_of (quickbooks_connect env t creds w1)) as [[h'|]|e]; [| |done].
  - destruct H as (_ & Hid & Hreg & _ & Hcr). rewrite Hid. done.
  - destruct H as (_ & Hreg & Hf). done.
Qed.

(** ** Cached credentials *)

(** Credentials fetched from the store are served from the cache for the
    next five minutes: a lookup made at most five minutes after the store
    answered returns that answer without a store query and without
    changing anything, whatever the store would say now.  For spreadsheets
    this includes the answer "no connection"; for QuickBooks it holds when
    the store returned credentials. *)
Theorem fetched_credentials_are_served_from_cache env1 env2 t w d :
  (Z.of_N d ≤ _creds_cache_ttl)%Z →
  (∀ connection,
     sheets_cache_hit w t = None →
     select_google_sheets_connection env1 t = Returned connection →
     let w1 := elapse d (world_of (_get_google_sheets_credentials env1 t w)) in
     _get_google_sheets_credentials env2 t w1 = (Returned (sheets_creds_of <$> connection), w1)) ∧
  (∀ creds,
     quickbooks_cache_hit w t = None →
     get_quickbooks_credentials env1 t = Returned (Some creds) →
     let w1 := elapse d (world_of (quickbooks_credentials env1 t w)) in
     quickbooks_credentials env2 t w1 = (Returned (Some creds), w1)).
Proof.
  intros Hd. split.
  - intros connection Hmiss Hstore. simpl.
    rewrite (sheets_credentials_run env1), Hmiss.
    destruct (sheets_fetch_and_cache_spec env1 t w) as (_ & _ & _ & _ & _ & H).
    rewrite Hstore in H. destruct H as (_ & Hc & Hs).
    rewrite sheets_credentials_run. unfold sheets_cache_hit. simpl. rewrite Hc, lookup_insert_eq.
    assert (creds_cache_stale
              (elapse d (world_of (sheets_fetch_and_cache env1 t w))) t "sheets" = false) as ->.
    { unfold creds_cache_stale, creds_cached_at. simpl. rewrite Hs, nested_get_set_eq.
      apply Z.ltb_ge. lia. }
    done.
  - intros creds Hmiss Hstore. simpl.
    rewrite (quickbooks_credentials_run env1), Hmiss.
    destruct (quickbooks_fetch_and_cache_spec env1 t w) as (_ & _ & _ & _ & _ & _ & H).
    rewrite Hstore in H. destruct H as (Hc & Hs).
    rewrite quickbooks_credentials_run. unfold quickbooks_cache_hit. simpl.
    rewrite Hc, lookup_insert_eq.
    assert (creds_cache_stale
              (elapse d (world_of (quickbooks_fetch_and_cache env1 t w))) t "quickbooks" = false)
      as ->.
    { unfold creds_cache_stale, creds_cached_at. simpl. rewrite Hs, nested_get_set_eq.
      apply Z.ltb_ge. lia. }
    done.
Qed.

(** ** Shutdown twice *)

(** A second [cleanup] does nothing: the exit stack is gone, so nothing is
    closed again, the call returns normally and the world is as the first
    [cleanup] left it. *)
Theorem second_cleanup_changes_nothing env1 env2 w :
  let w1 := world_of (cleanup env1 w) in
  cleanup env2 w1 = (Returned tt, w1).
Proof.
  unfold cleanup, try_finally, try_except, await_aexit, bind, gets, modify, ret, world_of.
  simpl.
  destruct (_exit_stack (self w)) as [sessions|]; simpl.
  - destruct (exit_stack_aexit env1) as [[| |]|]; reflexivity.
  - reflexivity.
Qed.

(** ** Forgetting a tenant *)

(** [invalidate_tenant] removes everything the manager holds for the
    tenant in its own fields, without calling the store or the client, so
    the next QuickBooks lookup is answered by the store and, given
    credentials, the next [get_quickbooks_mcp] opens a new connection.  It
    does not touch the request-scoped dictionary: within the same request
    [get_global_mcp] still returns the handle it had. *)
Theorem invalidate_tenant_forgets_tenant t w :
  let r := invalidate_tenant t w in
  let w' := world_of r in
  result_of r = Returned tt ∧
  (∀ k, registered w' t k = None ∧ created_at w' t k = None ∧
        failed_at w' t k = None ∧ creds_cached_at w' t k = None) ∧
  _tenant_tokens (self w') !! t = None ∧
  _quickbooks_creds_cache (self w') !! t = None ∧
  _sheets_creds_cache (self w') !! t = None ∧
  calls w' = calls w ∧
  _request_global_mcp w' = _request_global_mcp w ∧
  (∀ env h, _request_global_mcp w !! t = Some h →
            get_global_mcp env t w' = (Returned (Some h), w')) ∧
  (∀ env, result_of (quickbooks_credentials env t w') = get_quickbooks_credentials env t) ∧
  (∀ env creds, get_quickbooks_credentials env t = Returned (Some creds) →
                open_calls (world_of (get_quickbooks_mcp env t w')) = S (open_calls w')).
Proof.
  intros r. assert (r = invalidate_tenant t w) as Hr by done. clearbody r.
  unfold invalidate_tenant in Hr. unfold bind at 1 in Hr.
  destruct (get_tenant_lock_run t w) as [lock Hlock]. rewrite Hlock in Hr. clear Hlock.
  destruct (locked_frame t w) as ((_ & _ & _ & _ & _ & Hreq & _) & _ & _ & _ & _ & Hcalls & _).
  revert Hr Hreq Hcalls. generalize (locked t w). intros w0 Hr Hreq Hcalls.
  unfold bind, modify in Hr. simpl in Hr. subst r.
  unfold result_of, world_of. simpl.
  split; [done|]. split; [|split; [|split; [|split; [|split; [|split; [|split; [|split]]]]]]].
  - intros k. unfold registered, created_at, failed_at, creds_cached_at, nested_get. simpl.
    by rewrite !lookup_delete_eq.
  - apply lookup_delete_eq.
  - apply lookup_delete_eq.
  - apply lookup_delete_eq.
  - done.
  - done.
  - intros env h Hh. apply get_global_mcp_request_hit. simpl. by rewrite Hreq.
  - intros env. rewrite quickbooks_credentials_run. unfold quickbooks_cache_hit. simpl.
    rewrite lookup_delete_eq.
    match goal with
    | |- context [quickbooks_fetch_and_cache env t ?W] =>
        destruct (quickbooks_fetch_and_cache_spec env t W) as (Hres & _);
        unfold result_of in Hres; by rewrite Hres
    end.
  - intros env creds Hstore.
    apply (quickbooks_opens_without_creation_time env t _ creds).
    + unfold created_at, nested_get. simpl. by rewrite lookup_delete_eq.
    + rewrite quickbooks_credentials_run. unfold quickbooks_cache_hit. simpl.
      rewrite lookup_delete_eq.
      match goal with
      | |- context [quickbooks_fetch_and_cache env t ?W] =>
          by destruct (quickbooks_fetch_and_cache_spec env t W) as (-> & _)
      end.
Qed.

(** ** Headers of the global server *)

(** The value [get_global_mcp] sends for an optional spreadsheet field:
    the field when it is set and not empty, nothing otherwise. *)
Lemma optional_header_get header value key :
  header_get key (optional_header header value) =
  if String.eqb header key && truthy_opt_str value then value else None.
Proof.
  unfold optional_header. destruct value as [v|]; simpl.
  - destruct (truthy_str v); simpl.
    + by destruct (String.eqb header key).
    + by rewrite andb_false_r.
  - by rewrite andb_false_r.
Qed.

Lemma header_get_app key l1 l2 :
  header_get key (l1 ++ l2) =
  match header_get key l1 with
  | Some v => Some v
  | None => header_get key l2
  end.
Proof.
  induction l1 as [|[k v] l1 IH]; [done|]. simpl.
  by destruct (String.eqb k key).
Qed.

Lemma optional_header_keys header value :
  (optional_header header value).*1 = if truthy_opt_str value then [header] else [].
Proof. destruct value as [v|]; [|done]. simpl. by destruct (truthy_str v). Qed.

(** The header set [get_global_mcp] builds has no repeated key, always
    carries the protocol version, the content type and the tenant id,
    carries the refresh token exactly when the tenant has spreadsheet
    credentials, and carries each of the four workbook and worksheet
    fields exactly when the tenant configured a non-empty value for it. *)
Theorem global_headers_are_well_formed t sheets_creds :
  NoDup (global_headers t sheets_creds).*1 ∧
  header_get "jsonrpc" (global_headers t sheets_creds) = Some "2.0" ∧
  header_get "Content-Type" (global_headers t sheets_creds)
    = Some "application/json, text/event-stream" ∧
  header_get "x-tenant-id" (global_headers t sheets_creds) = Some t ∧
  header_get "x-user-refresh-token" (global_headers t sheets_creds)
    = refresh_token <$> sheets_creds ∧
  (∀ field header,
     (field, header) ∈
       [ (inventory_workbook_id, "x-inventory-workbook-id");
         (inventory_worksheet_name, "x-inventory-worksheet-name");
         (orders_workbook_id, "x-orders-workbook-id");
         (orders_worksheet_name, "x-orders-worksheet-name") ] →
     header_get header (global_headers t sheets_creds) =
     match sheets_creds with
     | Some c => if truthy_opt_str (field c) then field c else None
     | None => None
     end).
Proof.
  split; [|split; [done|split; [done|split; [done|split]]]].
  - unfold global_headers. destruct sheets_creds as [c|]; simpl.
    + rewrite ?fmap_cons, ?fmap_app, ?optional_header_keys. simpl.
      destruct (truthy_opt_str (inventory_workbook_id c)),
        (truthy_opt_str (inventory_worksheet_name c)),
        (truthy_opt_str (orders_workbook_id c)),
        (truthy_opt_str (orders_worksheet_name c)); simpl;
        apply (bool_decide_unpack _); vm_compute; exact I.
    + apply (bool_decide_unpack _). vm_compute. exact I.
  - by destruct sheets_creds.
  - intros field header Hin.
    destruct sheets_creds as [c|].
    + unfold global_headers.
      change (header_get header
                ([("jsonrpc", "2.0");
                  ("Content-Type", "application/json, text/event-stream");
                  ("x-tenant-id", t)] ++
                 [("x-user-refresh-token", refresh_token c)] ++
                 optional_header "x-inventory-workbook-id" (inventory_workbook_id c) ++
                 optional_header "x-inventory-worksheet-name" (inventory_worksheet_name c) ++
                 optional_header "x-orders-workbook-id" (orders_workbook_id c) ++
                 optional_header "x-orders-worksheet-name" (orders_worksheet_name c))%list =
              (if truthy_opt_str (field c) then field c else None)).
      rewrite !header_get_app, !optional_header_get.
      repeat (apply elem_of_cons in Hin as [[= -> ->]|Hin]); [| | | |by apply elem_of_nil in Hin];
        simpl;
        destruct (truthy_opt_str (inventory_workbook_id c)) eqn:E1,
          (truthy_opt_str (inventory_worksheet_name c)) eqn:E2,
          (truthy_opt_str (orders_workbook_id c)) eqn:E3,
          (truthy_opt_str (orders_worksheet_name c)) eqn:E4; simpl;
        repeat match goal with
               | H : truthy_opt_str ?o = true |- _ =>
                   destruct o; [|discriminate H]; clear H
               end; done.
    + repeat (apply elem_of_cons in Hin as [[= -> ->]|Hin]); [| | | |by apply elem_of_nil in Hin];
        done.
Qed.

(** ** Handles across requests and token changes *)

(** After the request-scoped dictionary has been cleared, a handle
    returned by [get_global_mcp] always comes from an [open] call made in
    that call, and it is a new object: not one an earlier request held in
    its request-scoped dictionary and not one in the registry. *)
Theorem new_request_gets_new_global_handle cs t0 env t h :
  let w := run cs (initial_world t0) in
  let w0 := world_of (clear_request_mcp_cache w) in
  result_of (get_global_mcp env t w0) = Returned (Some h) →
  open_calls (world_of (get_global_mcp env t w0)) = S (open_calls w) ∧
  (∀ t' h', _request_global_mcp w !! t' = Some h' → obj_id h ≠ obj_id h') ∧
  (∀ t' k h', registered w t' k = Some h' → obj_id h ≠ obj_id h').
Proof.
  intros w w0.
  pose proof (consistent_reachable cs t0) as (Hr & Hs & Hq & _). fold w in Hr, Hs, Hq.
  assert (_request_global_mcp w0 !! t = None) as Hreq by apply lookup_empty.
  destruct (get_global_mcp_request_miss env t w0 Hreq) as (sheets & w1 & _ & Hb & Hn & _ & ->).
  assert (open_calls w1 = open_calls w) as Ho1 by apply Hb.
  destruct sheets as [sheets_creds|e]; [|discriminate].
  destruct (failure_expired w1 t "global"); [|discriminate].
  pose proof (global_attempt_spec env t (global_headers t sheets_creds) w1) as H.
  simpl in H. destruct H as (Ho & _ & _ & _ & _ & H).
  intros Hres. rewrite Hres in H. destruct H as (_ & Hid & _).
  assert (next_obj w ≤ obj_id h)%nat as Hfresh by (rewrite Hid; exact Hn).
  split; [by rewrite Ho, Ho1|]. split.
  - intros t' h' Hh'. destruct (Hq t' h' Hh') as (_ & _ & Hlt). lia.
  - intros t' k h' Hh'. destruct (Hr t' k h' Hh') as (_ & _ & (stack & Hst & Hin) & _).
    destruct (Hs stack Hst) as [_ Hlt]. specialize (Hlt h' Hin). lia.
Qed.

(** After any sequence of calls, a handle returned by
    [get_quickbooks_mcp] was opened with the access token of the
    credentials resolved in that call, unless the token on record for the
    tenant is the empty string: a handle opened with an outdated token is
    never handed out. *)
Theorem returned_handle_carries_current_token cs t0 env t creds h :
  let w := run cs (initial_world t0) in
  result_of (quickbooks_credentials env t w) = Returned (Some creds) →
  _tenant_tokens (self w) !! t ≠ Some EmptyString →
  result_of (get_quickbooks_mcp env t w) = Returned (Some h) →
  header_get "Authorization" (params_headers h) = Some ("Bearer " ++ access_token creds).
Proof.
  intros w Hcreds Hnonempty Hres.
  pose proof (consistent_get_quickbooks_mcp env t w (consistent_reachable cs t0)) as (Hr & _).
  destruct (get_quickbooks_mcp_returns env t w h Hres) as (Hreg & _).
  destruct (Hr t "quickbooks" h Hreg) as (_ & _ & _ & (tok & Htok & Hhdr) & _).
  rewrite Hhdr. do 2 f_equal.
  revert Hres Htok.
  destruct (get_quickbooks_mcp_with_credentials env t w creds Hcreds) as (w1 & -> & Hb & _).
  assert (_tenant_tokens (self w1) = _tenant_tokens (self w)) as Htoks by apply Hb.
  rewrite quickbooks_connect_run. simpl.
  destruct (quickbooks_rebuild creds t w1) eqn:Hrebuild.
  - destruct (invalidated_lookups t "quickbooks" w1) as (Hreg1 & _ & _).
    rewrite Hreg1, invalidated_expired.
    pose proof (quickbooks_attempt_spec env t creds (invalidated t "quickbooks" w1) Hreg1) as H.
    simpl in H. destruct H as (_ & _ & _ & H).
    intros Hres. rewrite Hres in H. destruct H as (_ & _ & _ & -> & _). by intros [= ->].
  - destruct (registered w1 t "quickbooks") as [h0|] eqn:Hreg1.
    + unfold world_of. simpl. intros _ Htok.
      unfold quickbooks_rebuild in Hrebuild. apply orb_false_elim in Hrebuild as [Hrefreshed _].
      rewrite Htok in Hrefreshed. unfold token_refreshed in Hrefreshed.
      destruct (String.eqb tok (access_token creds)) eqn:Heq.
      * by apply String.eqb_eq in Heq.
      * rewrite andb_true_r in Hrefreshed. destruct tok; [|discriminate].
        rewrite Htoks in Htok. done.
    + destruct (failure_expired w1 t "quickbooks"); [|discriminate].
      pose proof (quickbooks_attempt_spec env t creds w1 Hreg1) as H.
      simpl in H. destruct H as (_ & _ & _ & H).
      intros Hres. rewrite Hres in H. destruct H as (_ & _ & _ & -> & _). by intros [= ->].
Qed.

(** ** Instances *)

Lemma registered_handles_are_open_sessions_witness :
  let cs := [GetQuickbooksMcp (example_env (Some (example_creds "tokA")) None) "t1"] in
  let h := example_quickbooks_handle 1 "t1" "tokA" in
  "quickbooks" = "quickbooks" ∧
  ∃ stack, _exit_stack (self (run cs (initial_world 0))) = Some stack ∧ h ∈ stack.
Proof.
  intros cs h.
  apply (registered_handles_are_open_sessions cs 0 "t1" "quickbooks" h).
  vm_compute; reflexivity.
Defined.

Lemma registered_handle_carries_recorded_token_witness :
  let cs := [GetQuickbooksMcp (example_env (Some (example_creds "tokA")) None) "t1";
             Sleep 60000000] in
  let h := example_quickbooks_handle 1 "t1" "tokA" in
  name h = "QB_MCP_" ++ "t1" ∧
  (∃ tok, _tenant_tokens (self (run cs (initial_world 0))) !! "t1" = Some tok ∧
          header_get "Authorization" (params_headers h) = Some ("Bearer " ++ tok)) ∧
  (∃ created, created_at (run cs (initial_world 0)) "t1" "quickbooks" = Some created ∧
              (created ≤ clock (run cs (initial_world 0)))%Z).
Proof.
  intros cs h.
  apply (registered_handle_carries_recorded_token cs 0 "t1" "quickbooks" h).
  vm_compute; reflexivity.
Defined.

Lemma tenants_never_share_a_handle_witness :
  let env := example_env (Some (example_creds "tokA")) None in
  let cs := [GetQuickbooksMcp env "t1"; GetQuickbooksMcp env "t2"] in
  obj_id (example_quickbooks_handle 1 "t1" "tokA") ≠
  obj_id (example_quickbooks_handle 3 "t2" "tokA").
Proof.
  intros env cs.
  apply (tenants_never_share_a_handle cs 0 "t1" "t2" "quickbooks" "quickbooks").
  - discriminate.
  - vm_compute; reflexivity.
  - vm_compute; reflexivity.
Defined.

Lemma tenant_locks_are_distinct_witness :
  let env := example_env (Some (example_creds "tokA")) None in
  let cs := [GetQuickbooksMcp env "t1"; GetGlobalMcp env "t2"] in
  0%nat ≠ 2%nat.
Proof.
  intros env cs.
  apply (tenant_locks_are_distinct cs 0 "t1" "t2" 0%nat 2%nat).
  - discriminate.
  - vm_compute; reflexivity.
  - vm_compute; reflexivity.
Defined.

Lemma request_scoped_handle_is_for_tenant_witness :
  let cs := [GetGlobalMcp (example_env None None) "t1"] in
  let h := example_global_handle 1 "t1" in
  name h = "Global_Port8001_" ++ "t1" ∧
  header_get "x-tenant-id" (params_headers h) = Some "t1".
Proof.
  intros cs h.
  apply (request_scoped_handle_is_for_tenant cs 0 "t1" h).
  vm_compute; reflexivity.
Defined.

Lemma cached_credentials_are_stamped_witness :
  let cs := [GetQuickbooksMcp (example_env (Some (example_creds "tokA")) None) "t1"] in
  Some (example_creds "tokA") ≠ None ∧
  is_Some (creds_cached_at (run cs (initial_world 0)) "t1" "quickbooks").
Proof.
  intros cs.
  apply (proj1 (cached_credentials_are_stamped cs 0 "t1") (Some (example_creds "tokA"))).
  vm_compute; reflexivity.
Defined.

Lemma quickbooks_none_only_after_open_attempt_witness :
  let env := example_env (Some (example_creds "tokA")) (Some TimeoutError) in
  let cs := [GetQuickbooksMcp env "t1"; Sleep 5000000] in
  open_calls (world_of (get_quickbooks_mcp env "t1" (run cs (initial_world 0)))) =
    S (open_calls (run cs (initial_world 0))).
Proof.
  intros env cs.
  apply (quickbooks_none_only_after_open_attempt cs 0 env "t1" (example_creds "tokA")).
  - reflexivity.
  - vm_compute; reflexivity.
  - vm_compute; reflexivity.
Defined.

Lemma calls_leave_other_tenants_untouched_witness :
  let env := example_env (Some (example_creds "tokA")) None in
  let w := world_of (get_quickbooks_mcp env "t2" (initial_world 0)) in
  same_for_tenant "t2" w (world_of (get_quickbooks_mcp env "t1" w)) ∧
  same_for_tenant "t2" w (world_of (get_global_mcp env "t1" w)) ∧
  same_for_tenant "t2" w (world_of (invalidate_tenant "t1" w)) ∧
  same_for_tenant "t2" w
    (world_of (handle_connection_error "t1" "quickbooks" ClosedResourceError w)).
Proof.
  intros env w.
  apply (calls_leave_other_tenants_untouched env "t1" "t2" "quickbooks" ClosedResourceError w).
  discriminate.
Defined.

Lemma store_exception_propagates_witness :
  (result_of (get_quickbooks_mcp example_env_store_down "t1" (initial_world 0))
     = Raised Exception ∧
   open_calls (world_of (get_quickbooks_mcp example_env_store_down "t1" (initial_world 0)))
     = open_calls (initial_world 0) ∧
   same_bookkeeping (initial_world 0)
     (world_of (get_quickbooks_mcp example_env_store_down "t1" (initial_world 0)))) ∧
  (result_of (get_global_mcp example_env_store_down "t1" (initial_world 0))
     = Raised Exception ∧
   open_calls (world_of (get_global_mcp example_env_store_down "t1" (initial_world 0)))
     = open_calls (initial_world 0) ∧
   same_bookkeeping (initial_world 0)
     (world_of (get_global_mcp example_env_store_down "t1" (initial_world 0)))).
Proof.
  destruct (store_exception_propagates example_env_store_down "t1" (initial_world 0) Exception)
    as [Hq Hg].
  split.
  - apply Hq; [reflexivity|]. vm_compute. discriminate.
  - apply Hg; [reflexivity|]. vm_compute. discriminate.
Defined.

Lemma stale_connection_is_rebuilt_witness :
  let env := example_env (Some (example_creds "tokA")) None in
  let w := elapse 1860000000 (world_of (get_quickbooks_mcp env "t1" (initial_world 0))) in
  let r := get_quickbooks_mcp env "t1" w in
  let w' := world_of r in
  open_calls w' = S (open_calls w) ∧
  match result_of r with
  | Returned (Some h') =>
      (next_obj w ≤ obj_id h')%nat ∧
      registered w' "t1" "quickbooks" = Some h' ∧
      created_at w' "t1" "quickbooks" = Some (clock w')
  | Returned None =>
      registered w' "t1" "quickbooks" = None ∧
      failed_at w' "t1" "quickbooks" = Some (clock w')
  | Raised _ => False
  end.
Proof.
  intros env w.
  apply (stale_connection_is_rebuilt env "t1" w 0%Z (example_creds "tokA")).
  - vm_compute; reflexivity.
  - vm_compute; reflexivity.
  - vm_compute; reflexivity.
Defined.

Lemma fetched_credentials_are_served_from_cache_witness :
  let env1 := example_env (Some (example_creds "tokA")) None in
  let env2 := example_env (Some (example_creds "tokB")) None in
  let w1 := elapse 60000000 (world_of (quickbooks_credentials env1 "t1" (initial_world 0))) in
  quickbooks_credentials env2 "t1" w1 = (Returned (Some (example_creds "tokA")), w1).
Proof.
  intros env1 env2.
  apply (proj2 (fetched_credentials_are_served_from_cache env1 env2 "t1" (initial_world 0)
                  60000000 ltac:(vm_compute; discriminate)) (example_creds "tokA")).
  - vm_compute; reflexivity.
  - reflexivity.
Defined.

Lemma invalidate_tenant_forgets_tenant_witness :
  let env := example_env (Some (example_creds "tokA")) None in
  let w := world_of (get_quickbooks_mcp env "t1" (initial_world 0)) in
  let w' := world_of (invalidate_tenant "t1" w) in
  open_calls (world_of (get_quickbooks_mcp env "t1" w')) = S (open_calls w').
Proof.
  intros env w w'.
  pose proof (invalidate_tenant_forgets_tenant "t1" w) as H.
  cbv zeta in H. destruct H as (_ & _ & _ & _ & _ & _ & _ & _ & _ & H).
  apply (H env (example_creds "tokA")). reflexivity.
Defined.

Lemma global_headers_are_well_formed_witness :
  let c := {| refresh_token := "rt"; inventory_workbook_id := Some "wb1";
              inventory_worksheet_name := Some EmptyString;
              orders_workbook_id := None; orders_worksheet_name := None |} in
  header_get "x-inventory-worksheet-name" (global_headers "t1" (Some c)) =
  match Some c with
  | Some c => if truthy_opt_str (inventory_worksheet_name c)
              then inventory_worksheet_name c else None
  | None => None
  end.
Proof.
  intros c.
  destruct (global_headers_are_well_formed "t1" (Some c)) as (_ & _ & _ & _ & _ & H).
  apply (H inventory_worksheet_name "x-inventory-worksheet-name").
  apply elem_of_cons. right. apply elem_of_cons. by left.
Defined.

Lemma new_request_gets_new_global_handle_witness :
  let env := example_env None None in
  let cs := [GetGlobalMcp env "t1"] in
  let h := example_global_handle 2 "t1" in
  let w := run cs (initial_world 0) in
  let w0 := world_of (clear_request_mcp_cache w) in
  open_calls (world_of (get_global_mcp env "t1" w0)) = S (open_calls w) ∧
  (∀ t' h', _request_global_mcp w !! t' = Some h' → obj_id h ≠ obj_id h') ∧
  (∀ t' k h', registered w t' k = Some h' → obj_id h ≠ obj_id h').
Proof.
  intros env cs h.
  apply (new_request_gets_new_global_handle cs 0 env "t1" h).
  vm_compute; reflexivity.
Defined.

Lemma returned_handle_carries_current_token_witness :
  let cs := [GetQuickbooksMcp (example_env (Some (example_creds "tokA")) None) "t1";
             Sleep 360000000] in
  let env := example_env (Some (example_creds "tokB")) None in
  let h := example_quickbooks_handle 2 "t1" "tokB" in
  header_get "Authorization" (params_headers h) =
    Some ("Bearer " ++ access_token (example_creds "tokB")).
Proof.
  intros cs env h.
  apply (returned_handle_carries_current_token cs 0 env "t1" (example_creds "tokB") h).
  - vm_compute; reflexivity.
  - vm_compute; discriminate.
  - vm_compute; reflexivity.
Defined.

Lemma global_backoff_honoured_witness :
  let env := example_env None (Some TimeoutError) in
  let w := elapse 30000000 (world_of (get_global_mcp env "t1" (initial_world 0))) in
  result_of (get_global_mcp env "t1" w) = Returned None ∧
  open_calls (world_of (get_global_mcp env "t1" w)) = open_calls w.
Proof.
  intros env w.
  apply (proj1 (global_backoff_honoured env "t1" w 0%Z
                  ltac:(vm_compute; reflexivity) ltac:(vm_compute; reflexivity)
                  ltac:(eexists; vm_compute; reflexivity))).
  vm_compute; discriminate.
Defined.

Lemma global_attempt_without_credentials_witness :
  let env := example_env None None in
  let w := initial_world 0 in
  let r := get_global_mcp env "t1" w in
  open_calls (world_of r) = S (open_calls w) ∧
  ∀ s, result_of r = Returned (Some s) →
       params_headers s =
         [("jsonrpc", "2.0");
          ("Content-Type", "application/json, text/event-stream");
          ("x-tenant-id", "t1")].
Proof.
  intros env w.
  apply (global_attempt_without_credentials env "t1" w).
  - vm_compute; reflexivity.
  - vm_compute; reflexivity.
  - vm_compute; reflexivity.
Defined.

(** ** Sessions stay open until shutdown *)

Lemma quickbooks_create_stack env t c w stack :
  _exit_stack (self w) = Some stack →
  ∃ new, _exit_stack (self (world_of (quickbooks_create env t c w))) = Some (new ++ stack)%list ∧
         (length new ≤ 1)%nat.
Proof.
  intros E.
  unfold quickbooks_create, new_server, new_object, await_enter_async_context,
    _mark_connection_failed, try_except, bind, ret, gets, modify, now, world_of.
  simpl.
  destruct (client_open env _) as [e|].
  - destruct e; simpl; exists []; simpl; (split; [done|lia]).
  - rewrite E. simpl. eexists [_]. split; [done|]. simpl. lia.
Qed.

Lemma global_create_stack env t headers w stack :
  _exit_stack (self w) = Some stack →
  ∃ new, _exit_stack (self (world_of (global_create env t headers w))) = Some (new ++ stack)%list ∧
         (length new ≤ 1)%nat.
Proof.
  intros E.
  unfold global_create, new_server, new_object, await_enter_async_context,
    _mark_connection_failed, try_except, bind, ret, gets, modify, now, world_of.
  simpl.
  destruct (client_open env _) as [e|].
  - destruct e; simpl; exists []; simpl; (split; [done|lia]).
  - rewrite E. simpl. eexists [_]. split; [done|]. simpl. lia.
Qed.

Lemma with_exit_stack_keeps w stack :
  _exit_stack (self w) = Some stack → _exit_stack (self (with_exit_stack w)) = Some stack.
Proof.
  intros E. unfold with_exit_stack, world_of, _ensure_exit_stack, bind, gets, modify, ret.
  simpl. by rewrite E.
Qed.

(** Only [cleanup] closes sessions.  Whatever else is called, every
    session the exit stack holds is still held afterwards, with at most one
    new session on top: invalidating a connection, replacing a stale one or
    ending a request unregisters handles but closes nothing. *)
Theorem sessions_stay_open_until_cleanup c w stack :
  is_cleanup c = false →
  _exit_stack (self w) = Some stack →
  ∃ new, _exit_stack (self (perform c w)) = Some (new ++ stack)%list ∧ (length new ≤ 1)%nat.
Proof.
  intros Hc E.
  assert (∀ w', _exit_stack (self w') = Some stack →
                ∃ new, _exit_stack (self w') = Some (new ++ stack)%list ∧ (length new ≤ 1)%nat)
    as Hsame by (intros w' E'; exists []; simpl; split; [done|lia]).
  destruct c as [env t|env t|t|t k error|env| |d]; simpl; try discriminate.
  - rewrite get_quickbooks_mcp_run.
    destruct (locked_frame t w) as ((_ & _ & _ & _ & E1 & _) & _).
    destruct (quickbooks_credentials_frame env t (locked t w)) as ((_ & _ & _ & _ & E2 & _) & _).
    rewrite E1 in E2. rewrite E in E2. clear E1.
    destruct (quickbooks_credentials env t (locked t w)) as [[[c|]|e] w1];
      unfold world_of in E2; simpl in E2; unfold world_of at 1; simpl;
      [|by apply Hsame..].
    rewrite quickbooks_connect_run. simpl.
    set (w2 := if quickbooks_rebuild c t w1 then invalidated t "quickbooks" w1 else w1).
    assert (_exit_stack (self w2) = Some stack) as E3.
    { subst w2. by destruct (quickbooks_rebuild c t w1). }
    destruct (registered w2 t "quickbooks"); [by apply Hsame|].
    destruct (failure_expired w2 t "quickbooks"); [|by apply Hsame].
    by apply quickbooks_create_stack, with_exit_stack_keeps.
  - rewrite get_global_mcp_run.
    destruct (_request_global_mcp w !! t); [by apply Hsame|].
    rewrite global_connect_run.
    destruct (locked_frame t w) as ((_ & _ & _ & _ & E1 & _) & _).
    rewrite E in E1.
    destruct (_request_global_mcp (locked t w) !! t); [by apply Hsame|].
    destruct (sheets_credentials_frame env t (locked t w)) as ((_ & _ & _ & _ & E2 & _) & _).
    rewrite E1 in E2.
    destruct (_get_google_sheets_credentials env t (locked t w)) as [[sheets_creds|e] w1];
      unfold world_of in E2; simpl in E2; unfold world_of at 1; simpl;
      [|by apply Hsame].
    destruct (failure_expired w1 t "global"); [|by apply Hsame].
    by apply global_create_stack, with_exit_stack_keeps.
  - apply Hsame. unfold invalidate_tenant. unfold bind at 1.
    destruct (get_tenant_lock_run t w) as [lock ->].
    destruct (locked_frame t w) as ((_ & _ & _ & _ & E1 & _) & _).
    rewrite E in E1. revert E1. generalize (locked t w). intros w0 E1.
    unfold bind, modify, world_of. simpl. done.
  - apply Hsame. by destruct error.
  - by apply Hsame.
  - by apply Hsame.
Qed.

Lemma sessions_stay_open_until_cleanup_witness :
  let env := example_env (Some (example_creds "tokA")) None in
  let w := world_of (get_quickbooks_mcp env "t1" (initial_world 0)) in
  ∃ new,
    _exit_stack (self (perform (HandleConnectionError "t1" "quickbooks" ClosedResourceError) w))
      = Some (new ++ [example_quickbooks_handle 1 "t1" "tokA"])%list ∧
    (length new ≤ 1)%nat.
Proof.
  intros env w.
  apply (sessions_stay_open_until_cleanup
           (HandleConnectionError "t1" "quickbooks" ClosedResourceError) w).
  - reflexivity.
  - vm_compute; reflexivity.
Defined.

(** ** Reported errors on the global server *)

(** [handle_connection_error] does not reach the request-scoped
    dictionary, the only place a global handle is kept: after an error
    reported for any connection type, [get_global_mcp] in the same request
    still returns the handle it had, without asking the client. *)
Theorem reported_error_keeps_request_scoped_handle env t k error w h :
  _request_global_mcp w !! t = Some h →
  let w' := world_of (handle_connection_error t k error w) in
  result_of (get_global_mcp env t w') = Returned (Some h) ∧
  open_calls (world_of (get_global_mcp env t w')) = open_calls w.
Proof.
  intros Hh. simpl.
  assert (world_of (handle_connection_error t k error w) = invalidated t k w) as ->
    by (by destruct error).
  rewrite (get_global_mcp_request_hit env t (invalidated t k w) h); [|done].
  unfold result_of, world_of. simpl. done.
Qed.

Lemma reported_error_keeps_request_scoped_handle_witness :
  let env := example_env None None in
  let w := world_of (get_global_mcp env "t1" (initial_world 0)) in
  let w' := world_of (handle_connection_error "t1" "global" ClosedResourceError w) in
  result_of (get_global_mcp env "t1" w') = Returned (Some (example_global_handle 1 "t1")) ∧
  open_calls (world_of (get_global_mcp env "t1" w')) = open_calls w.
Proof.
  intros env w.
  apply (reported_error_keeps_request_scoped_handle env "t1" "global" ClosedResourceError w).
  vm_compute; reflexivity.
Defined.

(** A successful [get_global_mcp] does not clear the failure record of the
    pair: the record a failed attempt left stays until
    [_invalidate_connection] or [invalidate_tenant] removes it or a later
    failure overwrites it. *)
Theorem global_success_keeps_failure_record env t w failed h :
  failed_at w t "global" = Some failed →
  result_of (get_global_mcp env t w) = Returned (Some h) →
  failed_at (world_of (get_global_mcp env t w)) t "global" = Some failed.
Proof.
  intros Hf.
  destruct (_request_global_mcp w !! t) as [h0|] eqn:Hreq.
  { by rewrite (get_global_mcp_request_hit env t w h0 Hreq). }
  destruct (get_global_mcp_request_miss env t w Hreq) as (sheets & w1 & _ & Hb & _ & _ & ->).
  assert (failed_at w1 t "global" = Some failed) as Hf1.
  { unfold failed_at in *. destruct Hb as (_ & _ & _ & -> & _). done. }
  destruct sheets as [sheets_creds|e]; [|discriminate].
  destruct (failure_expired w1 t "global"); [|discriminate].
  pose proof (global_attempt_spec env t (global_headers t sheets_creds) w1) as H.
  simpl in H. destruct H as (_ & _ & _ & _ & _ & H).
  intros Hres. rewrite Hres in H. destruct H as (_ & _ & _ & _ & Hfail).
  unfold failed_at in *. by rewrite Hfail.
Qed.

Lemma global_success_keeps_failure_record_witness :
  let w := elapse 31000000
             (world_of (get_global_mcp (example_env None (Some TimeoutError)) "t1"
                          (initial_world 0))) in
  failed_at (world_of (get_global_mcp (example_env None None) "t1" w)) "t1" "global"
    = Some 0%Z.
Proof.
  intros w.
  apply (global_success_keeps_failure_record (example_env None None) "t1" w 0%Z
           (example_global_handle 2 "t1")).
  - vm_compute; reflexivity.
  - vm_compute; reflexivity.
Defined.
